(** * EOL/EOSL scraper: a shallow embedding of [relutech_scraper.py] and
    [scraper.py], and the properties of its harvesting pipeline.

    Python strings are modelled as [string] (sequences of 8-bit characters,
    read as the code points below 256), Python exceptions as values of [exn] carried
    by the [result] type, pandas data frames as lists of row records, and the
    HTTP / HTML / XML / date-parsing libraries as explicit collaborators. *)

From Stdlib Require Import List String Ascii Bool Arith ZArith Lia.
From Stdlib Require Import Sorting.Sorted Sorting.Permutation.
From Stdlib Require Import Structures.OrderedTypeEx.
Import ListNotations.

Local Open Scope string_scope.
Local Open Scope list_scope.
Set Warnings "-register-all".

(** ** Python exceptions and fallible computations *)

(** The exception classes that the modelled code and its collaborators can
    raise.  All of them derive from Python's [Exception]. *)
Inductive exn : Type :=
| HTTPError          (* requests: raise_for_status on a non-2xx answer *)
| ConnectionError    (* requests: network failure *)
| Timeout            (* requests: the fixed timeout elapsed *)
| ParseError         (* xml.etree: malformed XML *)
| AttributeError
| ValueError
| TypeError
| OverflowError.

Inductive result (A : Type) : Type :=
| Return (a : A)
| Raise (e : exn).
Arguments Return {A} a.
Arguments Raise {A} e.

Definition bind {A B : Type} (m : result A) (k : A -> result B) : result B :=
  match m with
  | Return a => k a
  | Raise e => Raise e
  end.

Notation "x <- m ;; k" := (bind m (fun x => k))
  (at level 61, m at next level, right associativity).

Definition raises {A : Type} (m : result A) : Prop :=
  exists e, m = Raise e.

(** ** Python string primitives *)
Module PyStr.

(** [str.isspace] on the code points below 256: TAB, LF, VT, FF, CR, the
    four separators FS..US, the space, NEL (U+0085) and the no-break space
    (U+00A0).  [str.strip()], [get_text(strip=True)] and the [\s] of a
    regular expression use the same class. *)
Definition isspace (c : ascii) : bool :=
  let n := nat_of_ascii c in
  ((9 <=? n)%nat && (n <=? 13)%nat) || ((28 <=? n)%nat && (n <=? 32)%nat)
  || (n =? 133)%nat || (n =? 160)%nat.

(** [s.lstrip(chars)] where [p] decides membership in [chars]. *)
Fixpoint lstrip_by (p : ascii -> bool) (s : string) : string :=
  match s with
  | EmptyString => EmptyString
  | String c s' => if p c then lstrip_by p s' else s
  end.

(** [s.rstrip(chars)]. *)
Fixpoint rstrip_by (p : ascii -> bool) (s : string) : string :=
  match s with
  | EmptyString => EmptyString
  | String c s' =>
      match rstrip_by p s' with
      | EmptyString => if p c then EmptyString else String c EmptyString
      | r => String c r
      end
  end.

(** [s.strip()]. *)
Definition strip (s : string) : string :=
  rstrip_by isspace (lstrip_by isspace s).

(** [s.startswith(pre)]. *)
Definition startswith (s pre : string) : bool := String.prefix pre s.

(** [s[n:]]. *)
Fixpoint drop (n : nat) (s : string) : string :=
  match n, s with
  | O, _ => s
  | S _, EmptyString => EmptyString
  | S n', String _ s' => drop n' s'
  end.

(** [s.split(sep, 1)[0]] for a one-character separator: the text before
    the first occurrence of [sep], the whole string when there is none. *)
Fixpoint split1_head (sep : ascii) (s : string) : string :=
  match s with
  | EmptyString => EmptyString
  | String c s' =>
      if Ascii.eqb c sep then EmptyString else String c (split1_head sep s')
  end.

Definition is_lower (c : ascii) : bool :=
  let n := nat_of_ascii c in (97 <=? n)%nat && (n <=? 122)%nat.

Definition is_upper (c : ascii) : bool :=
  let n := nat_of_ascii c in (65 <=? n)%nat && (n <=? 90)%nat.

Definition upper_char (c : ascii) : ascii :=
  if is_lower c then ascii_of_nat (nat_of_ascii c - 32) else c.

Definition lower_char (c : ascii) : ascii :=
  if is_upper c then ascii_of_nat (nat_of_ascii c + 32) else c.

(** [s.upper()] on ASCII text. *)
Fixpoint upper (s : string) : string :=
  match s with
  | EmptyString => EmptyString
  | String c s' => String (upper_char c) (upper s')
  end.

(** Truthiness of a string: [bool(s)]. *)
Definition truthy (s : string) : bool :=
  match s with EmptyString => false | _ => true end.

End PyStr.

(** ** [sorted] and first-occurrence [unique] over a boolean order *)
Section Sorted.
Context {A : Type}.
Variable leb : A -> A -> bool.

Fixpoint insert_sorted (x : A) (l : list A) : list A :=
  match l with
  | [] => [x]
  | y :: l' => if leb x y then x :: l else y :: insert_sorted x l'
  end.

(** [sorted(l)]: ascending order of [leb]. *)
Fixpoint sorted (l : list A) : list A :=
  match l with
  | [] => []
  | x :: l' => insert_sorted x (sorted l')
  end.

Definition le_of : A -> A -> Prop := fun x y => leb x y = true.

End Sorted.

Section Unique.
Context {A : Type}.
Variable eqb : A -> A -> bool.

(** The distinct values of [l] in order of first appearance. *)
Fixpoint unique (l : list A) : list A :=
  match l with
  | [] => []
  | x :: l' => x :: filter (fun y => negb (eqb x y)) (unique l')
  end.

End Unique.

(** ** Vendor discovery (sitemap) *)
Module Sitemap.

(** An [xml.etree] element: qualified tag, text, children. *)
Inductive Element : Type :=
| mkElement (tag : string) (text : option string) (children : list Element).

Definition tag (e : Element) : string :=
  match e with mkElement t _ _ => t end.
Definition text (e : Element) : option string :=
  match e with mkElement _ t _ => t end.
Definition children (e : Element) : list Element :=
  match e with mkElement _ _ c => c end.

Definition SITEMAP_NS : string := "http://www.sitemaps.org/schemas/sitemap/0.9".
Definition BASE_PATH : string := "https://relutech.com/eol-eosl/".

(** The qualified name that the path ["sm:" ++ name] resolves to under
    [ns = {"sm": SITEMAP_NS}]. *)
Definition sm (name : string) : string := "{" ++ SITEMAP_NS ++ "}" ++ name.

(** [e.findall(path)] for a one-step path: the direct children with that
    tag, in document order. *)
Definition findall (e : Element) (qtag : string) : list Element :=
  filter (fun c => String.eqb (tag c) qtag) (children e).

(** [e.find(path)]: the first such child, or [None]. *)
Definition find (e : Element) (qtag : string) : option Element :=
  List.find (fun c => String.eqb (tag c) qtag) (children e).

(** [children.add(child)] on a set kept as a duplicate-free list. *)
Definition set_add (x : string) (s : list string) : list string :=
  if existsb (String.eqb x) s then s else s ++ [x].

(** One iteration of the [for url_elem in root.findall("sm:url", ns)] loop. *)
Definition visit_url (children : list string) (url_elem : Element) : list string :=
  match find url_elem (sm "loc") with
  | None => children                                   (* loc_elem is None *)
  | Some loc_elem =>
      match text loc_elem with
      | None => children                               (* not loc_elem.text *)
      | Some t =>
          if negb (PyStr.truthy t) then children
          else
            let loc := PyStr.strip t in
            if negb (PyStr.startswith loc BASE_PATH) then children
            else
              let tail :=
                PyStr.lstrip_by (Ascii.eqb "/") (PyStr.drop (String.length BASE_PATH) loc) in
              if negb (PyStr.truthy tail) then children
              else
                let child := PyStr.split1_head "/" tail in
                if PyStr.truthy child then set_add child children else children
      end
  end.

(** The set of first path segments below [BASE_PATH]. *)
Definition collect_children (root : Element) : list string :=
  fold_left visit_url (findall root (sm "url")) [].

Definition fallback_vendors : list string :=
  ["cisco"; "dell"; "emc"; "emc-ecomm"; "hpe"; "ibm"; "juniper";
   "netapp-ecomm"; "nimble"; "sun-oracle"].

(** [relutech_scraper.get_unique_eol_vendors].  The argument is the outcome
    of fetching the sitemap and parsing it ([requests.get],
    [raise_for_status], [ET.fromstring]); the whole body sits in
    [try ... except Exception]. *)
Definition get_unique_eol_vendors (fetched : result Element) : list string :=
  match fetched with
  | Return root =>
      let children := collect_children root in
      match children with
      | _ :: _ => sorted String.leb children
      | [] => fallback_vendors
      end
  | Raise _ => fallback_vendors
  end.

(** [scraper.get_unique_children]: the same walk without the guard. *)
Definition get_unique_children (fetched : result Element) : result (list string) :=
  root <- fetched ;;
  Return (sorted String.leb (collect_children root)).

End Sitemap.

(** ** Table extraction (one HTML page) *)
Module Html.

(** A parsed document as [BeautifulSoup(text, "html.parser")] builds it:
    tags with their children, and text nodes.  The parser does not add
    elements the markup lacks (no implied [tbody]). *)
Inductive Node : Type :=
| Tag (name : string) (children : list Node)
| NavigableString (s : string).

(** The proper descendants of a node, in document order. *)
Fixpoint descendants (n : Node) : list Node :=
  match n with
  | NavigableString _ => []
  | Tag _ cs =>
      (fix walk (l : list Node) : list Node :=
         match l with
         | [] => []
         | c :: l' => c :: descendants c ++ walk l'
         end) cs
  end.

Definition is_tag (name : string) (n : Node) : bool :=
  match n with
  | Tag t _ => String.eqb t name
  | NavigableString _ => false
  end.

(** [n.find_all(name)]. *)
Definition find_all (n : Node) (name : string) : list Node :=
  filter (is_tag name) (descendants n).

(** [n.find(name)]: the first match of [find_all], or [None]. *)
Definition find (n : Node) (name : string) : option Node :=
  match find_all n name with
  | [] => None
  | t :: _ => Some t
  end.

(** [n.get_text(strip=True)]: every text piece below [n] is stripped, the
    empty ones are dropped and the rest joined without a separator. *)
Fixpoint stripped_strings (l : list Node) : list string :=
  match l with
  | [] => []
  | NavigableString s :: l' =>
      let t := PyStr.strip s in
      if PyStr.truthy t then t :: stripped_strings l' else stripped_strings l'
  | Tag _ _ :: l' => stripped_strings l'
  end.

Definition get_text_strip (n : Node) : string :=
  match n with
  | NavigableString s => PyStr.strip s
  | Tag _ _ => String.concat "" (stripped_strings (descendants n))
  end.

(** One scraped table row (the spec's RawRecord). *)
Record Row : Type := mkRow {
  model : string;
  eol_date : string;
  eosl_date : string
}.

(** A data frame of scraped rows; [df.empty] is [df = []]. *)
Definition DataFrame : Type := list Row.

Definition empty (df : DataFrame) : bool :=
  match df with [] => true | _ => false end.

Definition required_headers : list string := ["Model"; "EOL Date"; "EOSL Date"].

(** [{"Model", "EOL Date", "EOSL Date"}.issubset(set(header_cells))]. *)
Definition has_required_headers (t : Node) : bool :=
  let header_cells := map get_text_strip (find_all t "th") in
  forallb (fun h => existsb (String.eqb h) header_cells) required_headers.

(** The [for t in soup.find_all("table")] search with its [break]. *)
Definition main_table (soup : Node) : option Node :=
  List.find has_required_headers (find_all soup "table").

(** The body of [for tr in ...]: a row when there are four cells or more. *)
Definition row_of_tr (tr : Node) : list Row :=
  let tds := find_all tr "td" in
  match tds with
  | td0 :: td1 :: td2 :: _ :: _ =>
      [ {| model := get_text_strip td0;
           eol_date := get_text_strip td1;
           eosl_date := get_text_strip td2 |} ]
  | _ => []                                            (* len(tds) < 4 *)
  end.

(** The part of [fetch_page] that follows [BeautifulSoup(...)]. *)
Definition extract_table (soup : Node) : result DataFrame :=
  match main_table soup with
  | None => Return []
  | Some table =>
      match find table "tbody" with
      | None => Raise AttributeError       (* None.find_all("tr") *)
      | Some tbody => Return (flat_map row_of_tr (find_all tbody "tr"))
      end
  end.

End Html.

(** ** Paginated scraping of one vendor section *)
Module Scraper.
Import Html.

Section WithTransport.

(** The HTTP collaborator for one [base_url]: the answer to a GET with
    the given [page] query parameter ([None]: no parameter), parsed by
    BeautifulSoup, or the exception of [requests.get] /
    [raise_for_status]. *)
Variable http_get : option Z -> result Node.

(** [params] as [fetch_page] fills it. *)
Definition page_params (page : Z) : option Z :=
  if (1 <? page)%Z then Some page else None.

Definition fetch_page (page : Z) : result DataFrame :=
  soup <- http_get (page_params page) ;;
  extract_table soup.

(** The outcome of a run: the pages passed to [fetch_page], in call
    order, and what the function returned or raised. *)
Definition Outcome (A : Type) : Type := (list Z * result A)%type.

(** The [while page <= max_pages] loop.  [fuel] bounds the number of
    iterations; [None] means the bound was hit first. *)
Fixpoint while_loop (fuel : nat) (max_pages page : Z)
         (all_dfs : list DataFrame) (fetched : list Z)
  : option (Outcome (list DataFrame)) :=
  if (page <=? max_pages)%Z then
    match fuel with
    | O => None
    | S fuel' =>
        match fetch_page page with
        | Raise e => Some (fetched ++ [page], Raise e)
        | Return df =>
            if empty df then Some (fetched ++ [page], Return all_dfs)
            else while_loop fuel' max_pages (page + 1)%Z
                            (all_dfs ++ [df]) (fetched ++ [page])
        end
    end
  else Some (fetched, Return all_dfs).

(** [scrape_vendor_eol_url(base_url, max_pages)] (and [scraper.scrape_url],
    which has the same loop). *)
Definition scrape_vendor_eol_url (max_pages : Z) : option (Outcome DataFrame) :=
  match while_loop (Z.to_nat max_pages) max_pages 1%Z [] [] with
  | None => None
  | Some (fetched, Raise e) => Some (fetched, Raise e)
  | Some (fetched, Return all_dfs) =>
      Some (fetched,
            Return (match all_dfs with
                    | [] => []
                    | _ => List.concat all_dfs     (* pd.concat *)
                    end))
  end.

(** The rows of page [p] ([[]] when the fetch raises). *)
Definition page_rows (p : Z) : DataFrame :=
  match fetch_page p with
  | Return df => df
  | Raise _ => []
  end.

(** Page [p] is fetched without error and has at least one row. *)
Definition nonempty_page (p : Z) : Prop :=
  exists df, fetch_page p = Return df /\ df <> [].

End WithTransport.

(** The page numbers [start, start + 1, ..., start + n - 1]. *)
Fixpoint pages_from (start : Z) (n : nat) : list Z :=
  match n with
  | O => []
  | S n' => start :: pages_from (start + 1)%Z n'
  end.

End Scraper.

(** ** Date normalisation *)
Module Dates.

(** *** The regular expressions that [strptime] compiles a format into *)

Inductive regex : Type :=
| Chr (p : ascii -> bool)          (* one character of a class *)
| Plus (p : ascii -> bool)         (* one or more, greedy: [\s+] *)
| Str (s : string)                 (* a literal, matched ignoring case *)
| Seq (r1 r2 : regex)
| Alt (r1 r2 : regex)              (* alternation, left branch first *)
| Never.                           (* the empty alternation *)

(** All the ways [p+] can match a prefix of [s], longest first. *)
Fixpoint plus_matches (p : ascii -> bool) (s : string) : list (string * string) :=
  match s with
  | EmptyString => []
  | String c s' =>
      if p c
      then map (fun mr => (String c (fst mr), snd mr)) (plus_matches p s')
             ++ [(String c EmptyString, s')]
      else []
  end.

(** [lit] is a prefix of [s] up to ASCII case: the matched text and the rest. *)
Fixpoint str_match (lit s : string) : option (string * string) :=
  match lit, s with
  | EmptyString, _ => Some (EmptyString, s)
  | String _ _, EmptyString => None
  | String a lit', String c s' =>
      if Ascii.eqb (PyStr.lower_char a) (PyStr.lower_char c)
      then match str_match lit' s' with
           | Some (m, r) => Some (String c m, r)
           | None => None
           end
      else None
  end.

(** A backtracking matcher: every (matched text, rest) pair, in the order
    in which a backtracking engine tries them. *)
Fixpoint re_match (r : regex) (s : string) : list (string * string) :=
  match r with
  | Chr p =>
      match s with
      | String c s' => if p c then [(String c EmptyString, s')] else []
      | EmptyString => []
      end
  | Plus p => plus_matches p s
  | Str lit =>
      match str_match lit s with
      | Some mr => [mr]
      | None => []
      end
  | Seq r1 r2 =>
      flat_map (fun mr1 =>
                  map (fun mr2 => ((fst mr1 ++ fst mr2)%string, snd mr2))
                      (re_match r2 (snd mr1)))
               (re_match r1 s)
  | Alt r1 r2 => re_match r1 s ++ re_match r2 s
  | Never => []
  end.

Definition is_digit (c : ascii) : bool :=
  let n := nat_of_ascii c in (48 <=? n)%nat && (n <=? 57)%nat.

Definition in_range (lo hi : ascii) (c : ascii) : bool :=
  (nat_of_ascii lo <=? nat_of_ascii c)%nat && (nat_of_ascii c <=? nat_of_ascii hi)%nat.

Definition a_month : list string :=
  ["jan"; "feb"; "mar"; "apr"; "may"; "jun"; "jul"; "aug"; "sep"; "oct"; "nov"; "dec"].

Definition f_month : list string :=
  ["january"; "february"; "march"; "april"; "may"; "june"; "july"; "august";
   "september"; "october"; "november"; "december"].

(** [TimeRE.__seqToRE]: the names, longest first (a stable sort), as one
    alternation. *)
Definition seqToRE (to_convert : list string) : regex :=
  fold_right (fun name r => Alt (Str name) r) Never
    (sorted (fun a b => (String.length b <=? String.length a)%nat) to_convert).

(** [%d]: [3[0-1]|[1-2]\d|0[1-9]|[1-9]| [1-9]]. *)
Definition re_d : regex :=
  Alt (Seq (Chr (Ascii.eqb "3")) (Chr (in_range "0" "1")))
 (Alt (Seq (Chr (in_range "1" "2")) (Chr is_digit))
 (Alt (Seq (Chr (Ascii.eqb "0")) (Chr (in_range "1" "9")))
 (Alt (Chr (in_range "1" "9"))
      (Seq (Chr (Ascii.eqb " ")) (Chr (in_range "1" "9")))))).

(** [%Y]: [\d\d\d\d]. *)
Definition re_Y : regex :=
  Seq (Chr is_digit) (Seq (Chr is_digit) (Seq (Chr is_digit) (Chr is_digit))).

(** The regular expression of a directive; [None] for the directives that
    the two formats of this program do not use. *)
Definition directive_re (d : ascii) : option regex :=
  if Ascii.eqb d "d" then Some re_d
  else if Ascii.eqb d "Y" then Some re_Y
  else if Ascii.eqb d "b" then Some (seqToRE a_month)
  else if Ascii.eqb d "B" then Some (seqToRE f_month)
  else None.

(** One piece of a compiled format. *)
Inductive token : Type :=
| Directive (d : ascii) (r : regex)  (* a named group *)
| Whitespace                         (* a run of blanks in the format: [\s+] *)
| Literal (c : ascii).

(** [TimeRE.pattern(format)]: blanks become [\s+], [%x] the group of
    directive [x], anything else stands for itself. *)
Fixpoint pattern (format : string) : option (list token) :=
  match format with
  | EmptyString => Some []
  | String c rest =>
      if Ascii.eqb c "%" then
        match rest with
        | String d rest' =>
            match directive_re d, pattern rest' with
            | Some r, Some toks => Some (Directive d r :: toks)
            | _, _ => None
            end
        | EmptyString => None
        end
      else if PyStr.isspace c then
        match pattern rest with
        | Some (Whitespace :: toks) => Some (Whitespace :: toks)
        | Some toks => Some (Whitespace :: toks)
        | None => None
        end
      else
        match pattern rest with
        | Some toks => Some (Literal c :: toks)
        | None => None
        end
  end.

Definition token_re (t : token) : regex :=
  match t with
  | Directive _ r => r
  | Whitespace => Plus PyStr.isspace
  | Literal c => Str (String c EmptyString)
  end.

(** The groups of a match: directive letter and matched text. *)
Definition groups : Type := list (ascii * string).

(** Every match of the compiled format against a prefix of [s], with its
    groups and the unconsumed rest, in backtracking order. *)
Fixpoint format_matches (toks : list token) (s : string) : list (groups * string) :=
  match toks with
  | [] => [([], s)]
  | t :: toks' =>
      flat_map (fun mr =>
                  map (fun gr =>
                         (match t with
                          | Directive d _ => (d, fst mr) :: fst gr
                          | _ => fst gr
                          end, snd gr))
                      (format_matches toks' (snd mr)))
               (re_match (token_re t) s)
  end.

(** [format_regex.match(val)] followed by the exact-match test: the first
    match must consume the whole of [val]. *)
Definition exact_match (toks : list token) (s : string) : option groups :=
  match format_matches toks s with
  | (g, EmptyString) :: _ => Some g
  | _ => None
  end.

Fixpoint group (d : ascii) (g : groups) : option string :=
  match g with
  | [] => None
  | (d', m) :: g' => if Ascii.eqb d d' then Some m else group d g'
  end.

(** [int(s)] for the text of a numeric group (blanks around are ignored). *)
Definition int_of (s : string) : option Z :=
  let fix digits (acc : Z) (t : string) : option Z :=
    match t with
    | EmptyString => Some acc
    | String c t' =>
        if is_digit c
        then digits (10 * acc + Z.of_nat (nat_of_ascii c - 48))%Z t'
        else None
    end in
  match PyStr.strip s with
  | EmptyString => None
  | t => digits 0%Z t
  end.

Fixpoint lower (s : string) : string :=
  match s with
  | EmptyString => EmptyString
  | String c s' => String (PyStr.lower_char c) (lower s')
  end.

(** [names.index(name) + 1]. *)
Fixpoint month_index (names : list string) (name : string) : option Z :=
  match names with
  | [] => None
  | n :: names' =>
      if String.eqb n name then Some 1%Z
      else option_map Z.succ (month_index names' name)
  end.

(** A name that starts with a letter. *)
Definition starts_with_letter (name : string) : bool :=
  match name with
  | String a _ => PyStr.is_lower (PyStr.lower_char a)
  | EmptyString => false
  end.

(** What [pattern] gives for ["%b %d, %Y"] and ["%B %d, %Y"]: month group,
    blanks, day group, comma, blanks, year group. *)
Definition month_day_year_tokens (mdir : ascii) (names : list string) : list token :=
  [Directive mdir (seqToRE names); Whitespace; Directive "d" re_d;
   Literal ","; Whitespace; Directive "Y" re_Y].

(** *** Timestamps *)

(** A [pandas.Timestamp] by its calendar fields.  [tzinfo] is [None] for a
    naive value and [Some off] for an aware one, [off] being its UTC offset
    in minutes. *)
Record Timestamp : Type := mkTimestamp {
  year : Z;
  month : Z;
  day : Z;
  hour : Z;
  minute : Z;
  second : Z;
  microsecond : Z;
  nanosecond : Z;
  tzinfo : option Z
}.

Definition is_leap (y : Z) : bool :=
  ((y mod 4 =? 0) && negb (y mod 100 =? 0) || (y mod 400 =? 0))%Z.

Definition days_in_month (y m : Z) : Z :=
  if (m =? 2)%Z then (if is_leap y then 29 else 28)%Z
  else if ((m =? 4) || (m =? 6) || (m =? 9) || (m =? 11))%Z then 30%Z
  else 31%Z.

(** A date of the proleptic Gregorian calendar that [datetime] accepts. *)
Definition valid_date (y m d : Z) : bool :=
  ((1 <=? y) && (y <=? 9999) && (1 <=? m) && (m <=? 12)
   && (1 <=? d) && (d <=? days_in_month y m))%Z.

(** [parse_today_now(val)]: the texts ["now"] and ["today"] are answered
    with the reading of the wall clock ([Timestamp.now()],
    [Timestamp.today()]), whatever the format is.  [clock] gives that
    reading for each of the two texts. *)
Definition parse_today_now (clock : string -> Timestamp) (val : string)
  : option Timestamp :=
  if String.eqb val "now" || String.eqb val "today" then Some (clock val) else None.

(** [_parse_with_format(val, fmt, ...)] for a format made of a month name, a
    day and a year: the date at midnight, in a resolution that holds every
    date of the calendar, or [None] when parsing fails (no match,
    unconverted data, an impossible date). *)
Definition parse_with_format (format : string) (names : list string) (mdir : ascii)
           (date_str : string) : option Timestamp :=
  match pattern format with
  | None => None
  | Some toks =>
      match exact_match toks date_str with
      | None => None
      | Some g =>
          match group "Y" g, group mdir g, group "d" g with
          | Some ys, Some ms, Some ds =>
              match int_of ys, month_index names (lower ms), int_of ds with
              | Some y, Some m, Some d =>
                  if valid_date y m d
                  then Some (mkTimestamp y m d 0 0 0 0 0 None)
                  else None
              | _, _, _ => None
              end
          | _, _, _ => None
          end
      end
  end.

(** [pd.to_datetime(date_str, format=..., errors="coerce")] on one text:
    ["now"] and ["today"] first, then the format; [None] stands for NaT. *)
Definition to_datetime_format (clock : string -> Timestamp)
           (format : string) (names : list string) (mdir : ascii)
           (date_str : string) : option Timestamp :=
  match parse_today_now clock date_str with
  | Some ts => Some ts
  | None => parse_with_format format names mdir date_str
  end.

(** [pd.to_datetime(date_str, format="%b %d, %Y", errors="coerce")]. *)
Definition to_datetime_abbr (clock : string -> Timestamp) (date_str : string)
  : option Timestamp :=
  to_datetime_format clock "%b %d, %Y" a_month "b" date_str.

(** [pd.to_datetime(date_str, format="%B %d, %Y", errors="coerce")]. *)
Definition to_datetime_full (clock : string -> Timestamp) (date_str : string)
  : option Timestamp :=
  to_datetime_format clock "%B %d, %Y" f_month "B" date_str.

(** Days since 1970-01-01 of a civil date, and back. *)
Definition days_from_civil (y m d : Z) : Z :=
  (let y' := if m <=? 2 then y - 1 else y in
   let era := y' / 400 in
   let yoe := y' - era * 400 in
   let mp := if 2 <? m then m - 3 else m + 9 in
   let doy := (153 * mp + 2) / 5 + d - 1 in
   let doe := yoe * 365 + yoe / 4 - yoe / 100 + doy in
   era * 146097 + doe - 719468)%Z.

Definition civil_from_days (z : Z) : Z * Z * Z :=
  (let z' := z + 719468 in
   let era := z' / 146097 in
   let doe := z' - era * 146097 in
   let yoe := (doe - doe / 1460 + doe / 36524 - doe / 146096) / 365 in
   let doy := doe - (365 * yoe + yoe / 4 - yoe / 100) in
   let mp := (5 * doy + 2) / 153 in
   let d := doy - (153 * mp + 2) / 5 + 1 in
   let m := if mp <? 10 then mp + 3 else mp - 9 in
   let y := yoe + era * 400 in
   (if m <=? 2 then y + 1 else y, m, d))%Z.

(** [x.replace(tzinfo=timezone.utc)]: the same fields, tagged UTC. *)
Definition replace_tzinfo_utc (x : Timestamp) : Timestamp :=
  mkTimestamp (year x) (month x) (day x) (hour x) (minute x) (second x)
              (microsecond x) (nanosecond x) (Some 0%Z).

(** [x.astimezone(timezone.utc)] for an aware [x] of offset [off]: the same
    instant, read in UTC. *)
Definition astimezone_utc (x : Timestamp) (off : Z) : Timestamp :=
  (let mins := hour x * 60 + minute x - off in
   let days := days_from_civil (year x) (month x) (day x) + mins / 1440 in
   let m := mins mod 1440 in
   match civil_from_days days with
   | (y, mo, d) =>
       mkTimestamp y mo d (m / 60) (m mod 60) (second x)
                   (microsecond x) (nanosecond x) (Some 0)
   end)%Z.

(** [w] decimal digits of [n], zero-padded: the rendering of ["%0wd"] for
    [0 <= n < 10^w]. *)
Fixpoint zfill (w : nat) (n : Z) : string :=
  match w with
  | O => EmptyString
  | S w' =>
      (zfill w' (n / 10)
         ++ String (ascii_of_nat (48 + Z.to_nat (n mod 10))) EmptyString)%string
  end.

(** The [+HH:MM] suffix of an aware value. *)
Definition format_offset (off : Z) : string :=
  ((if (off <? 0)%Z then "-" else "+")
     ++ zfill 2 (Z.abs off / 60) ++ ":" ++ zfill 2 (Z.abs off mod 60))%string.

(** [x.isoformat()]: date, [T], time, the fraction when there is one
    (microseconds, and nanoseconds after them), the offset when aware. *)
Definition isoformat (x : Timestamp) : string :=
  (zfill 4 (year x) ++ "-" ++ zfill 2 (month x) ++ "-" ++ zfill 2 (day x)
     ++ "T" ++ zfill 2 (hour x) ++ ":" ++ zfill 2 (minute x) ++ ":" ++ zfill 2 (second x)
     ++ (if (nanosecond x =? 0)%Z
         then (if (microsecond x =? 0)%Z then "" else "." ++ zfill 6 (microsecond x))
         else "." ++ zfill 6 (microsecond x) ++ zfill 3 (nanosecond x))
     ++ match tzinfo x with
        | Some off => format_offset off
        | None => ""
        end)%string.

(** *** The normaliser of [post_process_eol_df] *)

(** [except (ValueError, TypeError, AttributeError)]. *)
Definition caught_by_fallback (e : exn) : bool :=
  match e with
  | ValueError | TypeError | AttributeError => true
  | _ => false
  end.

Section Normalizer.

(** The reading of the wall clock that [pd.to_datetime] gives for the texts
    ["now"] and ["today"]. *)
Variable clock : string -> Timestamp.

(** [pd.to_datetime(date_str, errors="coerce")]: format inference, [None]
    for NaT. *)
Variable to_datetime_infer : string -> option Timestamp.

(** Whether [dateutil] could be imported. *)
Variable HAS_DATEUTIL : bool.

(** [pd.Timestamp(date_parser.parse(date_str, fuzzy=False))]: the value, or
    the exception either call raises.  (The [if dt:] test between the two
    calls always passes: a [datetime] is truthy.) *)
Variable dateutil_timestamp : string -> result Timestamp.

(** [parse_date_robust(date_str)].  A cell is [None] (Python's [None] or
    NaN) or a string. *)
Definition parse_date_robust (date_str : option string) : result (option Timestamp) :=
  match date_str with
  | None => Return None                                (* pd.isna(date_str) *)
  | Some s =>
      if negb (PyStr.truthy s) || String.eqb (PyStr.strip s) "" then Return None
      else
        let date_str := PyStr.strip s in
        match to_datetime_abbr clock date_str with
        | Some dt => Return (Some dt)
        | None =>
            match to_datetime_full clock date_str with
            | Some dt => Return (Some dt)
            | None =>
                match to_datetime_infer date_str with
                | Some dt => Return (Some dt)
                | None =>
                    if HAS_DATEUTIL then
                      match dateutil_timestamp date_str with
                      | Return dt => Return (Some dt)
                      | Raise e =>
                          if caught_by_fallback e then Return None else Raise e
                      end
                    else Return None
                end
            end
        end
  end.

(** [convert_to_utc_iso(x)]. *)
Definition convert_to_utc_iso (x : option Timestamp) : option string :=
  match x with
  | None => None                                       (* pd.isna(x) *)
  | Some ts =>
      let ts' :=
        match tzinfo ts with
        | None => replace_tzinfo_utc ts
        | Some off => astimezone_utc ts off
        end in
      Some (isoformat ts')
  end.

(** The spec's [normalize]: the two [apply] passes on one cell. *)
Definition normalize (date_str : option string) : result (option string) :=
  x <- parse_date_robust date_str ;;
  Return (convert_to_utc_iso x).

End Normalizer.

End Dates.

(** ** Post-processing: normalised dates, then one row per (vendor, model) *)
Module Dedup.

(** A cell of a date column: a string, or [None] for a missing value. *)
Definition Cell : Type := option string.

(** A row of the combined frame (the spec's TaggedRecord, and after
    post-processing its NormalizedRecord). *)
Record Record_ : Type := mkRecord {
  vendor : string;
  model : string;
  eol_date : Cell;
  eosl_date : Cell
}.

Definition DataFrame : Type := list Record_.

(** [df["vendor"] = vendor] on one vendor's scraped frame. *)
Definition tag_vendor (v : string) (df : Html.DataFrame) : DataFrame :=
  map (fun r => mkRecord v (Html.model r) (Some (Html.eol_date r)) (Some (Html.eosl_date r))) df.

(** The grouping key of [df.groupby(["vendor", "model"])]. *)
Definition Key : Type := (string * string)%type.

Definition key_of (r : Record_) : Key := (vendor r, model r).

Definition key_eqb (a b : Key) : bool :=
  String.eqb (fst a) (fst b) && String.eqb (snd a) (snd b).

(** Tuple order: by vendor, then by model, each by code points. *)
Definition key_compare (a b : Key) : comparison :=
  match String.compare (fst a) (fst b) with
  | Eq => String.compare (snd a) (snd b)
  | c => c
  end.

Definition key_leb (a b : Key) : bool :=
  match key_compare a b with Gt => false | _ => true end.

Definition key_lt (a b : Key) : Prop := key_compare a b = Lt.

(** [pd.notna(val) and val is not None and str(val).strip() != ""]. *)
Definition non_blank (val : Cell) : bool :=
  match val with
  | None => false
  | Some s => negb (String.eqb (PyStr.strip s) "")
  end.

(** [first_non_null(series)]. *)
Fixpoint first_non_null (series : list Cell) : Cell :=
  match series with
  | [] => None
  | val :: rest => if non_blank val then val else first_non_null rest
  end.

(** The rows of one group, in the frame's order. *)
Definition group_rows (df : DataFrame) (k : Key) : DataFrame :=
  filter (fun r => key_eqb (key_of r) k) df.

(** The group keys as [groupby] (with its default [sort=True]) lists them:
    each distinct key once, in ascending order. *)
Definition group_keys (df : DataFrame) : list Key :=
  sorted key_leb (unique key_eqb (map key_of df)).

(** [grouped.agg(agg_dict).reset_index()] for one group. *)
Definition merge_group (df : DataFrame) (k : Key) : Record_ :=
  let rows := group_rows df k in
  mkRecord (fst k) (snd k)
           (first_non_null (map eol_date rows))
           (first_non_null (map eosl_date rows)).

(** [remove_duplicates_and_merge(df)] on a frame that has the four columns. *)
Definition remove_duplicates_and_merge (df : DataFrame) : DataFrame :=
  map (merge_group df) (group_keys df).

(** [series.apply(f)] for an [f] that may raise: cells in row order. *)
Fixpoint apply {A B : Type} (f : A -> result B) (series : list A) : result (list B) :=
  match series with
  | [] => Return []
  | x :: rest =>
      y <- f x ;;
      ys <- apply f rest ;;
      Return (y :: ys)
  end.

(** Rows rebuilt from the columns of a frame. *)
Fixpoint from_columns (vendors models : list string) (eols eosls : list Cell) : DataFrame :=
  match vendors, models, eols, eosls with
  | v :: vs, m :: ms, a :: az, b :: bz => mkRecord v m a b :: from_columns vs ms az bz
  | _, _, _, _ => []
  end.

Section PostProcess.

Variable clock : string -> Dates.Timestamp.
Variable to_datetime_infer : string -> option Dates.Timestamp.
Variable HAS_DATEUTIL : bool.
Variable dateutil_timestamp : string -> result Dates.Timestamp.

(** The two [apply] passes over one date column. *)
Definition convert_column (col : list Cell) : result (list Cell) :=
  parsed <- apply (Dates.parse_date_robust clock to_datetime_infer HAS_DATEUTIL
                                           dateutil_timestamp) col ;;
  Return (map Dates.convert_to_utc_iso parsed).

(** [post_process_eol_df(df)]: upper-case vendors, the [eol_date] column and
    then the [eosl_date] column converted, duplicates merged. *)
Definition post_process_eol_df (df : DataFrame) : result DataFrame :=
  let vendors := map (fun r => PyStr.upper (vendor r)) df in
  eols <- convert_column (map eol_date df) ;;
  eosls <- convert_column (map eosl_date df) ;;
  Return (remove_duplicates_and_merge (from_columns vendors (map model df) eols eosls)).

End PostProcess.

End Dedup.

(** ** The harvest over all vendors *)
Module Pipeline.

(** The URL of a vendor section: [f"{BASE_PATH}{vendor}"]. *)
Definition vendor_url (vendor : string) : string := Sitemap.BASE_PATH ++ vendor.

(** The requests of a run: section URL and page number of every call of
    [fetch_page], in call order. *)
Definition Trace : Type := list (string * Z).

Definition requests_of (url : string) (fetched : list Z) : Trace :=
  map (fun p => (url, p)) fetched.

Section WithSite.

(** The HTTP collaborator: for each section URL, the answers to its page
    requests (see [Scraper.fetch_page]). *)
Variable site : string -> option Z -> result Html.Node.

(** The [for vendor in vendors] loop of [scrape_eol_data] and of
    [scraper.scrape_all_vendors], with its [try ... except Exception]: a
    vendor whose scrape raises, or gives no row, adds nothing.  [None] only
    when a scrape ran out of fuel. *)
Fixpoint for_vendors (vendors : list string) (max_pages : Z)
         (all_dfs : list Dedup.DataFrame) (trace : Trace)
  : option (Trace * list Dedup.DataFrame) :=
  match vendors with
  | [] => Some (trace, all_dfs)
  | vendor :: rest =>
      let url := vendor_url vendor in
      match Scraper.scrape_vendor_eol_url (site url) max_pages with
      | None => None
      | Some (fetched, Raise _) =>                      (* except Exception: continue *)
          for_vendors rest max_pages all_dfs (trace ++ requests_of url fetched)
      | Some (fetched, Return df) =>
          if Html.empty df
          then for_vendors rest max_pages all_dfs (trace ++ requests_of url fetched)
          else for_vendors rest max_pages
                           (all_dfs ++ [Dedup.tag_vendor vendor df])
                           (trace ++ requests_of url fetched)
      end
  end.

(** [scraper.scrape_all_vendors(max_pages)]: the vendors come from
    [get_unique_children], outside any [try]; the combined frame is returned
    as it is. *)
Definition scrape_all_vendors (fetched : result Sitemap.Element) (max_pages : Z)
  : option (Trace * result Dedup.DataFrame) :=
  match Sitemap.get_unique_children fetched with
  | Raise e => Some ([], Raise e)
  | Return vendors =>
      match for_vendors vendors max_pages [] [] with
      | None => None
      | Some (trace, all_dfs) =>
          Some (trace,
                Return (match all_dfs with
                        | [] => []
                        | _ => List.concat all_dfs
                        end))
      end
  end.

Variable clock : string -> Dates.Timestamp.
Variable to_datetime_infer : string -> option Dates.Timestamp.
Variable HAS_DATEUTIL : bool.
Variable dateutil_timestamp : string -> result Dates.Timestamp.

(** [relutech_scraper.scrape_eol_data(vendors, max_pages)].  [fetched] is
    the outcome of the sitemap fetch, consulted only when [vendors] is
    [None]. *)
Definition scrape_eol_data (vendors : option (list string))
           (fetched : result Sitemap.Element) (max_pages : Z)
  : option (Trace * result Dedup.DataFrame) :=
  let vendors :=
    match vendors with
    | None => Sitemap.get_unique_eol_vendors fetched
    | Some vs => vs
    end in
  match for_vendors vendors max_pages [] [] with
  | None => None
  | Some (trace, all_dfs) =>
      match all_dfs with
      | [] => Some (trace, Return [])
      | _ =>
          Some (trace,
                Dedup.post_process_eol_df clock to_datetime_infer HAS_DATEUTIL dateutil_timestamp
                                          (List.concat all_dfs))
      end
  end.

(** What one vendor adds to the combined frame. *)
Definition contribution (max_pages : Z) (vendor : string) : Dedup.DataFrame :=
  match Scraper.scrape_vendor_eol_url (site (vendor_url vendor)) max_pages with
  | Some (_, Return df) => Dedup.tag_vendor vendor df
  | _ => []
  end.

End WithSite.

End Pipeline.

(** ** Specification predicates *)

(** A cell that is missing, or blank once stripped. *)
Definition null_or_blank (c : Dedup.Cell) : Prop :=
  c = None \/ exists s, c = Some s /\ PyStr.strip s = "".

(** [first_present vals out]: [out] is the first cell of [vals] that is
    neither missing nor blank, or [None] when every cell is missing or
    blank. *)
Inductive first_present : list Dedup.Cell -> Dedup.Cell -> Prop :=
| first_present_none : forall vals,
    Forall null_or_blank vals -> first_present vals None
| first_present_some : forall pre s post,
    Forall null_or_blank pre ->
    PyStr.strip s <> "" ->
    first_present (pre ++ Some s :: post) (Some s).

(** Every character of [s] is a blank. *)
Fixpoint whitespace_only (s : string) : bool :=
  match s with
  | EmptyString => true
  | String c s' => PyStr.isspace c && whitespace_only s'
  end.

(** [YYYY-MM-DD] at midnight with the UTC offset written out. *)
Definition iso_midnight_utc (y m d : Z) : string :=
  Dates.zfill 4 y ++ "-" ++ Dates.zfill 2 m ++ "-" ++ Dates.zfill 2 d ++ "T00:00:00+00:00".

(** Every strategy of [parse_date_robust] fails on the stripped text: the
    three [to_datetime] calls give NaT, and [dateutil] is absent or raises
    one of the exceptions that the fallback catches. *)
Definition all_strategies_fail (clock : string -> Dates.Timestamp)
           (to_datetime_infer : string -> option Dates.Timestamp)
           (HAS_DATEUTIL : bool) (dateutil_timestamp : string -> result Dates.Timestamp)
           (date_str : string) : Prop :=
  let t := PyStr.strip date_str in
  Dates.to_datetime_abbr clock t = None
  /\ Dates.to_datetime_full clock t = None
  /\ to_datetime_infer t = None
  /\ (HAS_DATEUTIL = false
      \/ exists e, dateutil_timestamp t = Raise e /\ Dates.caught_by_fallback e = true).

(** The value of a decimal digit. *)
Definition digit_value (c : ascii) : Z := Z.of_nat (nat_of_ascii c - 48).

(** [dd] writes the day [d], 1 to 31, with or without a leading zero. *)
Definition day_forms : list (string * Z) :=
  flat_map (fun d => if (d <? 10)%Z
                     then [(Dates.zfill 1 d, d); (Dates.zfill 2 d, d)]
                     else [(Dates.zfill 2 d, d)])
           (map Z.of_nat (seq 1 31)).

(** [s] writes the date [y]-[m]-[d] as a month name of [names] in any case,
    blanks, the day, a comma, blanks and a four-digit year: the texts that
    ["%b %d, %Y"] (for the abbreviated names) and ["%B %d, %Y"] (for the full
    names) describe. *)
Inductive date_text (names : list string) : string -> Z -> Z -> Z -> Prop :=
| date_text_intro : forall mon ws1 dd ws2 c1 c2 c3 c4 m d,
    Dates.month_index names (Dates.lower mon) = Some m ->
    ws1 <> "" -> whitespace_only ws1 = true ->
    In (dd, d) day_forms ->
    ws2 <> "" -> whitespace_only ws2 = true ->
    Dates.is_digit c1 = true -> Dates.is_digit c2 = true ->
    Dates.is_digit c3 = true -> Dates.is_digit c4 = true ->
    date_text names
      (mon ++ ws1 ++ dd ++ "," ++ ws2 ++ String c1 (String c2 (String c3 (String c4 ""))))
      (1000 * digit_value c1 + 100 * digit_value c2 + 10 * digit_value c3 + digit_value c4)
      m d.

(** [n] and [name] agree, up to case, as far as the shorter one goes. *)
Fixpoint clash (n name : string) : bool :=
  match n, name with
  | String a n', String b name' =>
      Ascii.eqb (PyStr.lower_char a) (PyStr.lower_char b) && clash n' name'
  | _, _ => true
  end.

(** No name of the list can be taken for another one. *)
Definition distinct_names (names : list string) : bool :=
  forallb (fun name =>
             forallb (fun n => String.eqb n name || negb (clash n name)) names)
          names.

(** No character of [s] is a blank. *)
Fixpoint no_space (s : string) : bool :=
  match s with
  | EmptyString => true
  | String c s' => negb (PyStr.isspace c) && no_space s'
  end.

(** Strict ascending order of strings by code points. *)
Definition string_lt (a b : string) : Prop := String.compare a b = Lt.

(** ** Sample inputs *)
Module Samples.

(** A sitemap [<url><loc>...</loc></url>] entry. *)
Definition url_entry (loc : string) : Sitemap.Element :=
  Sitemap.mkElement (Sitemap.sm "url") None
    [Sitemap.mkElement (Sitemap.sm "loc") (Some loc) []].

(** A sitemap with two vendor locations and one location outside the base
    path. *)
Definition sitemap_three_urls : Sitemap.Element :=
  Sitemap.mkElement (Sitemap.sm "urlset") None
    [url_entry "https://relutech.com/eol-eosl/cisco/page2";
     url_entry "https://relutech.com/eol-eosl/dell/";
     url_entry "https://relutech.com/about-us/"].


(** A well-formed sitemap without any entry. *)
Definition sitemap_empty : Sitemap.Element :=
  Sitemap.mkElement (Sitemap.sm "urlset") None [].

(** A table cell holding text, and a table row of four cells whose first
    one wraps the model name in a link. *)
Definition cell (tag text : string) : Html.Node :=
  Html.Tag tag [Html.NavigableString text].

Definition table_row (model eol eosl : string) : Html.Node :=
  Html.Tag "tr"
    [Html.Tag "td" [Html.Tag "a" [Html.NavigableString model]];
     cell "td" eol; cell "td" eosl; cell "td" "Details"].

Definition header_row : Html.Node :=
  Html.Tag "tr" [cell "th" "Model"; cell "th" " EOL Date "; cell "th" "EOSL Date";
                 Html.Tag "th" []].

(** A page whose table has a [thead] and a [tbody]. *)
Definition page_with_rows (rows : list Html.Node) : Html.Node :=
  Html.Tag "[document]"
    [Html.Tag "html"
       [Html.Tag "body"
          [Html.Tag "table"
             [Html.Tag "thead" [header_row]; Html.Tag "tbody" rows]]]].

(** A page without any table. *)
Definition page_without_table : Html.Node :=
  Html.Tag "[document]"
    [Html.Tag "html" [Html.Tag "body" [cell "p" "No results."]]].

(** A page whose table has the three headers and one data row, written
    without [thead] and [tbody] elements. *)
Definition page_without_tbody : Html.Node :=
  Html.Tag "[document]"
    [Html.Tag "html"
       [Html.Tag "body"
          [Html.Tag "table"
             [header_row; table_row "WS-C2960-24TT-L" "Oct 31, 2014" "Oct 31, 2019"]]]].

(** A vendor section of three pages; any later page has no table. *)
Definition three_page_site (params : option Z) : result Html.Node :=
  match params with
  | None => Return (page_with_rows [table_row "A1" "Aug 31, 2022" "Aug 31, 2027";
                                    table_row "A2" "" "June 21, 2021"])
  | Some 2%Z => Return (page_with_rows [table_row "B1" "Jan 1, 2020" ""])
  | Some 3%Z => Return (page_with_rows [table_row "C1" "" ""])
  | Some _ => Return page_without_table
  end.

(** A vendor section that answers every page number with the same rows. *)
Definition echoing_site (params : option Z) : result Html.Node :=
  Return (page_with_rows [table_row "Z9" "Mar 3, 2023" "Mar 3, 2028"]).

(** Two partial rows of one model, as the combined frame holds them before
    post-processing. *)
Definition duplicate_rows : Dedup.DataFrame :=
  [Dedup.mkRecord "CISCO" "ModelX" (Some "Aug 1, 2020") (Some "");
   Dedup.mkRecord "CISCO" "ModelX" (Some "") (Some "Sep 1, 2021")].

(** Rows of three models that arrive in an order other than that of their
    keys, one of them twice. *)
Definition unordered_rows : Dedup.DataFrame :=
  [Dedup.mkRecord "HPE" "DL380" (Some "2021-06-21T00:00:00+00:00") None;
   Dedup.mkRecord "CISCO" "WS-C3750" None (Some "2022-08-31T00:00:00+00:00");
   Dedup.mkRecord "CISCO" "ASA5505" None None;
   Dedup.mkRecord "HPE" "DL380" (Some "2019-01-01T00:00:00+00:00")
                  (Some "2024-01-01T00:00:00+00:00")].

(** A clock that reads 2024-03-15 09:30:00.250000, local time without zone,
    whenever it is asked. *)
Definition frozen_clock (val : string) : Dates.Timestamp :=
  Dates.mkTimestamp 2024 3 15 9 30 0 250000 0 None.

(** Format inference that recognises nothing: NaT for every text. *)
Definition infer_nat (date_str : string) : option Dates.Timestamp := None.

(** A last-resort parser as [dateutil] behaves on a long run of digits: the
    digits are read as a year, which does not fit the integer type of
    [datetime], and [OverflowError] is raised; any other text is taken to be
    an unknown format ([ParserError], a [ValueError]). *)
Definition dateutil_overflow (date_str : string) : result Dates.Timestamp :=
  if String.eqb date_str "08335394550" then Raise OverflowError else Raise ValueError.

End Samples.

(** ** Further predicates *)

(** [s] has no blank at either end. *)
Definition trimmed (s : string) : Prop := PyStr.strip s = s.

(** The first character of [s], if any, is not in the class [p]. *)
Definition head_ok (p : ascii -> bool) (s : string) : bool :=
  match s with
  | EmptyString => true
  | String c _ => negb (p c)
  end.

(** A date cell of the final table: null, or a text that ends with the UTC
    offset. *)
Definition utc_iso (c : Dedup.Cell) : Prop :=
  c = None \/ exists base : string, c = Some (base ++ "+00:00")%string.

(** A cell with a blank text read as missing. *)
Definition null_if_blank (c : Dedup.Cell) : Dedup.Cell :=
  if Dedup.non_blank c then c else None.

(** A row whose blank date cells are read as missing. *)
Definition blanks_nulled (r : Dedup.Record_) : Dedup.Record_ :=
  Dedup.mkRecord (Dedup.vendor r) (Dedup.model r)
                 (null_if_blank (Dedup.eol_date r)) (null_if_blank (Dedup.eosl_date r)).

(** Every character of [s] is in the class [p]. *)
Fixpoint all_chars (p : ascii -> bool) (s : string) : bool :=
  match s with
  | EmptyString => true
  | String c s' => p c && all_chars p s'
  end.

(** The text of the [<loc>] of a sitemap entry, if it has one. *)
Definition loc_text (url_elem : Sitemap.Element) : option string :=
  match Sitemap.find url_elem (Sitemap.sm "loc") with
  | Some loc_elem => Sitemap.text loc_elem
  | None => None
  end.

(** The segment that one location text yields: the body of the loop after
    [loc_elem.text] has been read. *)
Definition first_segment (t : string) : option string :=
  let loc := PyStr.strip t in
  if PyStr.startswith loc Sitemap.BASE_PATH then
    let child :=
      PyStr.split1_head "/"
        (PyStr.lstrip_by (Ascii.eqb "/")
                         (PyStr.drop (String.length Sitemap.BASE_PATH) loc)) in
    if PyStr.truthy child then Some child else None
  else None.

(** The location text [t], once stripped, is [BASE_PATH], any number of
    separators, the segment [v] (not empty, without a separator), and then
    nothing or a separator and the rest of the path. *)
Definition names_vendor (t v : string) : Prop :=
  exists slashes rest : string,
    PyStr.strip t = (Sitemap.BASE_PATH ++ slashes ++ v ++ rest)%string
    /\ all_chars (Ascii.eqb "/") slashes = true
    /\ v <> ""%string
    /\ all_chars (fun c => negb (Ascii.eqb c "/")) v = true
    /\ head_ok (fun c => negb (Ascii.eqb c "/")) rest = true.

(** Some entry of the sitemap names the vendor [v]. *)
Definition listed (root : Sitemap.Element) (v : string) : Prop :=
  exists url_elem t,
    In url_elem (Sitemap.findall root (Sitemap.sm "url"))
    /\ loc_text url_elem = Some t /\ names_vendor t v.

(** The requests of one vendor's scrape, in call order. *)
Definition requests_for (site : string -> option Z -> result Html.Node)
           (max_pages : Z) (vendor : string) : Pipeline.Trace :=
  match Scraper.scrape_vendor_eol_url (site (Pipeline.vendor_url vendor)) max_pages with
  | Some (fetched, _) => Pipeline.requests_of (Pipeline.vendor_url vendor) fetched
  | None => []
  end.

(** A frame with at least one row: [not df.empty]. *)
Definition has_rows (df : Dedup.DataFrame) : bool :=
  match df with [] => false | _ => true end.

(** ** Further sample inputs *)
Module Cases.

(** A vendor section whose second page is answered with an error status. *)
Definition failing_site (params : option Z) : result Html.Node :=
  match params with
  | None => Return (Samples.page_with_rows
                      [Samples.table_row "A1" "Aug 31, 2022" "Aug 31, 2027"])
  | Some 2%Z => Raise HTTPError
  | Some _ => Return Samples.page_without_table
  end.

(** [Samples.three_page_site] up to its second page; the third request times
    out. *)
Definition timeout_on_page_three (params : option Z) : result Html.Node :=
  match params with
  | Some 3%Z => Raise Timeout
  | _ => Samples.three_page_site params
  end.

(** A page whose cells hold blanks and line breaks around their texts, and
    a model name split over two text nodes. *)
Definition padded_page : Html.Node :=
  Samples.page_with_rows
    [Html.Tag "tr"
       [Html.Tag "td" [Html.Tag "a" [Html.NavigableString " WS-C2960 ";
                                     Html.NavigableString ("-24TT-L" ++ String "010"%char "")]];
        Samples.cell "td" "  Oct 31, 2014 ";
        Samples.cell "td" "   ";
        Samples.cell "td" "Details"]].

(** The entries of [Samples.sitemap_three_urls] in another order, one of
    them twice. *)
Definition sitemap_reordered : Sitemap.Element :=
  Sitemap.mkElement (Sitemap.sm "urlset") None
    [Samples.url_entry "https://relutech.com/about-us/";
     Samples.url_entry "https://relutech.com/eol-eosl/dell/";
     Samples.url_entry "https://relutech.com/eol-eosl/cisco/page2";
     Samples.url_entry "https://relutech.com/eol-eosl/dell/"].


(** Rows of two models; the rows of [DL380] are apart in the first frame and
    adjacent in the second, in the same order. *)
Definition interleaved_rows : Dedup.DataFrame :=
  [Dedup.mkRecord "HPE" "DL380" (Some "") (Some "2024-01-01T00:00:00+00:00");
   Dedup.mkRecord "CISCO" "ASA5505" None None;
   Dedup.mkRecord "HPE" "DL380" (Some "2019-01-01T00:00:00+00:00") None].

Definition regrouped_rows : Dedup.DataFrame :=
  [Dedup.mkRecord "HPE" "DL380" (Some "") (Some "2024-01-01T00:00:00+00:00");
   Dedup.mkRecord "HPE" "DL380" (Some "2019-01-01T00:00:00+00:00") None;
   Dedup.mkRecord "CISCO" "ASA5505" None None].

(** Rows of distinct models, not in key order, with a blank cell. *)
Definition distinct_rows : Dedup.DataFrame :=
  [Dedup.mkRecord "HPE" "DL380" (Some "  ") (Some "2024-01-01T00:00:00+00:00");
   Dedup.mkRecord "CISCO" "ASA5505" None (Some "")].

(** Tagged rows as the vendor loop combines them. *)
Definition tagged_rows : Dedup.DataFrame :=
  [Dedup.mkRecord "hpe" "DL380" (Some "June 21, 2021") (Some "");
   Dedup.mkRecord "cisco" "ASA5505" (Some " Aug 31, 2022") (Some "Aug 31, 2027");
   Dedup.mkRecord "hpe" "DL380" (Some "") (Some "Jan 1, 2024")].

End Cases.

(** * Properties *)

(** ** Facts about [sorted] and [unique] *)
Section SortedFacts.
Context {A : Type}.
Variable leb : A -> A -> bool.
Hypothesis leb_total : forall x y, leb x y = true \/ leb y x = true.

Lemma insert_sorted_perm (x : A) (l : list A) :
  Permutation (x :: l) (insert_sorted leb x l).
Proof.
  induction l as [|y l IH]; simpl.
  - apply Permutation_refl.
  - destruct (leb x y).
    + apply Permutation_refl.
    + eapply perm_trans; [apply perm_swap|]. now apply perm_skip.
Qed.

Lemma sorted_perm (l : list A) : Permutation l (sorted leb l).
Proof.
  induction l as [|x l IH]; simpl.
  - constructor.
  - eapply perm_trans; [apply perm_skip, IH|]. apply insert_sorted_perm.
Qed.

Lemma sorted_In (l : list A) (x : A) : In x (sorted leb l) <-> In x l.
Proof.
  split; intro H.
  - eapply Permutation_in; [apply Permutation_sym, sorted_perm|exact H].
  - eapply Permutation_in; [apply sorted_perm|exact H].
Qed.

Lemma sorted_NoDup (l : list A) : NoDup l -> NoDup (sorted leb l).
Proof. intro H. eapply Permutation_NoDup; [apply sorted_perm|exact H]. Qed.

Lemma insert_sorted_HdRel (a x : A) (l : list A) :
  leb a x = true -> HdRel (le_of leb) a l -> HdRel (le_of leb) a (insert_sorted leb x l).
Proof.
  intros Hax Hl. destruct l as [|y l]; simpl.
  - now constructor.
  - destruct (leb x y); constructor; auto. now inversion Hl.
Qed.

Lemma insert_sorted_Sorted (x : A) (l : list A) :
  Sorted (le_of leb) l -> Sorted (le_of leb) (insert_sorted leb x l).
Proof.
  induction 1 as [|y l Hs IH Hd]; simpl.
  - repeat constructor.
  - destruct (leb x y) eqn:E.
    + constructor; [now constructor|]. now constructor.
    + constructor; [exact IH|].
      apply insert_sorted_HdRel; [|exact Hd].
      destruct (leb_total x y) as [H|H]; [congruence|exact H].
Qed.

Lemma sorted_Sorted (l : list A) : Sorted (le_of leb) (sorted leb l).
Proof.
  induction l as [|x l IH]; simpl; [constructor|].
  now apply insert_sorted_Sorted.
Qed.

Lemma sorted_fixpoint (l : list A) : Sorted (le_of leb) l -> sorted leb l = l.
Proof.
  induction 1 as [|x l Hs IH Hd]; simpl; [reflexivity|].
  rewrite IH. destruct Hd as [|y l' Hxy]; simpl; [reflexivity|].
  unfold le_of in Hxy. now rewrite Hxy.
Qed.

End SortedFacts.

Section UniqueFacts.
Context {A : Type}.
Variable eqb : A -> A -> bool.
Hypothesis eqb_spec : forall x y, eqb x y = true <-> x = y.

Lemma unique_In (l : list A) (x : A) : In x (unique eqb l) <-> In x l.
Proof.
  induction l as [|y l IH]; simpl; [tauto|].
  rewrite filter_In, IH. split.
  - intros [H|[H _]]; auto.
  - intros [H|H]; auto.
    destruct (eqb y x) eqn:E.
    + left. now apply eqb_spec.
    + right. split; [exact H|]. reflexivity.
Qed.

Lemma unique_NoDup (l : list A) : NoDup (unique eqb l).
Proof.
  induction l as [|y l IH]; simpl; constructor.
  - rewrite filter_In. intros [_ H].
    assert (E : eqb y y = true) by now apply eqb_spec.
    rewrite E in H. discriminate.
  - now apply NoDup_filter.
Qed.

Lemma unique_fixpoint (l : list A) : NoDup l -> unique eqb l = l.
Proof.
  induction 1 as [|x l Hx Hnd IH]; simpl; [reflexivity|].
  rewrite IH. f_equal.
  apply forallb_filter_id. apply forallb_forall. intros y Hy.
  destruct (eqb x y) eqn:E; [|reflexivity].
  apply eqb_spec in E. subst. contradiction.
Qed.

End UniqueFacts.

(** Orders given by a three-way comparison. *)
Section CompareFacts.
Context {A : Type}.
Variable cmp : A -> A -> comparison.
Hypothesis cmp_eq : forall a b, cmp a b = Eq -> a = b.
Hypothesis cmp_antisym : forall a b, cmp a b = CompOpp (cmp b a).
Hypothesis cmp_lt_trans : forall a b c, cmp a b = Lt -> cmp b c = Lt -> cmp a c = Lt.

Let cmp_leb (a b : A) : bool := match cmp a b with Gt => false | _ => true end.

Lemma cmp_leb_total (x y : A) : cmp_leb x y = true \/ cmp_leb y x = true.
Proof.
  unfold cmp_leb. rewrite (cmp_antisym y x).
  destruct (cmp x y); simpl; auto.
Qed.

Lemma Sorted_NoDup_strict (l : list A) :
  Sorted (le_of cmp_leb) l -> NoDup l -> StronglySorted (fun a b => cmp a b = Lt) l.
Proof.
  intros Hs Hnd. apply Sorted_StronglySorted.
  { intros a b c. apply cmp_lt_trans. }
  induction Hs as [|x l Hs IH Hd]; constructor.
  - apply IH. now inversion Hnd.
  - destruct Hd as [|y l' Hxy]; constructor.
    unfold le_of, cmp_leb in Hxy.
    destruct (cmp x y) eqn:E; [|reflexivity|discriminate].
    apply cmp_eq in E. subst. inversion Hnd as [|? ? Hin _]; subst.
    exfalso. apply Hin. now left.
Qed.

Lemma sorted_strict (l : list A) :
  NoDup l -> StronglySorted (fun a b => cmp a b = Lt) (sorted cmp_leb l).
Proof.
  intro Hnd. apply Sorted_NoDup_strict.
  - apply sorted_Sorted. exact cmp_leb_total.
  - now apply sorted_NoDup.
Qed.

Lemma strict_Sorted_le (l : list A) :
  StronglySorted (fun a b => cmp a b = Lt) l -> Sorted (le_of cmp_leb) l.
Proof.
  intro H. apply StronglySorted_Sorted in H.
  induction H as [|x l Hs IH Hd]; constructor; [exact IH|].
  destruct Hd as [|y l' Hxy]; constructor.
  unfold le_of, cmp_leb. now rewrite Hxy.
Qed.

End CompareFacts.

Lemma string_lt_trans (a b c : string) :
  String.compare a b = Lt -> String.compare b c = Lt -> String.compare a c = Lt.
Proof.
  intros H1 H2.
  apply String_as_OT.cmp_lt in H1. apply String_as_OT.cmp_lt in H2.
  apply String_as_OT.cmp_lt. eapply String_as_OT.lt_trans; eassumption.
Qed.

Lemma sorted_strings_strict (l : list string) :
  NoDup l -> StronglySorted string_lt (sorted String.leb l).
Proof.
  intro H.
  exact (sorted_strict String.compare String.compare_eq_iff String.compare_antisym
                       string_lt_trans l H).
Qed.

(** ** Vendor discovery *)
Module SitemapFacts.
Import Sitemap.

Lemma set_add_NoDup (x : string) (s : list string) :
  NoDup s -> NoDup (set_add x s).
Proof.
  intro H. unfold set_add. destruct (existsb (String.eqb x) s) eqn:E; [exact H|].
  apply NoDup_app; [exact H|repeat constructor; simpl; tauto|].
  intros y Hy [Hxy|[]]. subst y.
  assert (existsb (String.eqb x) s = true); [|congruence].
  apply existsb_exists. exists x. split; [exact Hy|apply String.eqb_refl].
Qed.

Lemma visit_url_NoDup (s : list string) (u : Element) :
  NoDup s -> NoDup (visit_url s u).
Proof.
  intro H. unfold visit_url.
  repeat match goal with
         | |- NoDup (match ?x with _ => _ end) => destruct x
         | |- NoDup (if ?x then _ else _) => destruct x
         end; auto using set_add_NoDup.
Qed.

Lemma collect_children_NoDup (root : Element) : NoDup (collect_children root).
Proof.
  unfold collect_children.
  assert (G : forall us s, NoDup s -> NoDup (fold_left visit_url us s)).
  { induction us as [|u us IH]; simpl; intros s Hs; [exact Hs|].
    apply IH. now apply visit_url_NoDup. }
  apply G. constructor.
Qed.

Lemma fallback_vendors_sorted : StronglySorted string_lt fallback_vendors.
Proof.
  unfold fallback_vendors, string_lt.
  repeat (constructor; [|repeat (constructor; [reflexivity|]); constructor]).
  constructor.
Qed.

End SitemapFacts.

Section VendorDiscovery.
Import Sitemap SitemapFacts.

(** C6: whatever the sitemap fetch and parse do, vendor discovery returns a
    list (it cannot raise) that is non-empty and in strictly ascending
    alphabetical order; when the fetch or the parse raises, and when the
    parse succeeds without finding any vendor, the list is the hardcoded
    fallback list. *)
Theorem discover_vendors_never_empty (fetched : result Element) :
  get_unique_eol_vendors fetched <> []
  /\ StronglySorted string_lt (get_unique_eol_vendors fetched)
  /\ (raises fetched -> get_unique_eol_vendors fetched = fallback_vendors)
  /\ (forall root, fetched = Return root -> collect_children root = [] ->
      get_unique_eol_vendors fetched = fallback_vendors).
Proof.
  repeat split.
  - destruct fetched as [root|e]; simpl; [|discriminate].
    destruct (collect_children root) as [|c cs] eqn:E; [discriminate|].
    intro H.
    assert (Hin : In c (sorted String.leb (c :: cs))).
    { apply sorted_In. now left. }
    rewrite H in Hin. exact Hin.
  - destruct fetched as [root|e]; simpl; [|apply fallback_vendors_sorted].
    destruct (collect_children root) as [|c cs] eqn:E; [apply fallback_vendors_sorted|].
    apply sorted_strings_strict. rewrite <- E. apply collect_children_NoDup.
  - intros [e ->]. reflexivity.
  - intros root -> E. simpl. now rewrite E.
Qed.

Lemma discover_vendors_never_empty_witness :
  raises (Raise (A := Element) Timeout)
  /\ get_unique_eol_vendors (Raise Timeout) = fallback_vendors
  /\ collect_children Samples.sitemap_empty = []
  /\ get_unique_eol_vendors (Return Samples.sitemap_empty) = fallback_vendors.
Proof.
  assert (R : raises (Raise (A := Element) Timeout)) by (exists Timeout; reflexivity).
  split; [exact R|]. split.
  - exact (proj1 (proj2 (proj2 (discover_vendors_never_empty (Raise Timeout)))) R).
  - split; [reflexivity|].
    exact (proj2 (proj2 (proj2 (discover_vendors_never_empty (Return Samples.sitemap_empty))))
                 Samples.sitemap_empty eq_refl eq_refl).
Defined.


End VendorDiscovery.

(** ** Table extraction *)
Section TableExtraction.
Import Html.

Lemma extract_table_no_table (soup : Node) :
  main_table soup = None -> extract_table soup = Return [].
Proof. intro H. unfold extract_table. now rewrite H. Qed.

(** C5 (the code departs from it): a page whose matching table has no
    [tbody] element makes table extraction raise [AttributeError] instead of
    giving an empty result; a page without a matching table does give the
    empty frame. *)
Theorem extract_table_raises_without_tbody :
  (exists t, main_table Samples.page_without_tbody = Some t /\ find t "tbody" = None)
  /\ extract_table Samples.page_without_tbody = Raise AttributeError
  /\ extract_table Samples.page_without_table = Return [].
Proof.
  split; [|split; reflexivity].
  eexists. split; reflexivity.
Qed.

End TableExtraction.

(** ** Paginated scraping *)
Section Pagination.
Import Html Scraper.

Variable http_get : option Z -> result Node.
Variable max_pages : Z.

Local Abbreviation fetch := (fetch_page http_get).
Local Abbreviation rows := (page_rows http_get).
Local Abbreviation loop := (while_loop http_get).

Lemma page_rows_fetched (p : Z) (df : DataFrame) :
  fetch p = Return df -> rows p = df.
Proof. intro H. unfold page_rows. now rewrite H. Qed.

Lemma nonempty_page_step (p : Z) :
  nonempty_page http_get p ->
  exists df, fetch p = Return df /\ empty df = false /\ rows p = df.
Proof.
  intros [df [Hf Hne]]. exists df. repeat split; auto using page_rows_fetched.
  destruct df; [contradiction|reflexivity].
Qed.

(** The loop stops at the first empty page when that page is within reach. *)
Lemma while_loop_first_empty (n : nat) :
  forall fuel page all_dfs fetched,
    (n < fuel)%nat ->
    (page + Z.of_nat n <= max_pages)%Z ->
    (forall p, (page <= p < page + Z.of_nat n)%Z -> nonempty_page http_get p) ->
    fetch (page + Z.of_nat n)%Z = Return [] ->
    loop fuel max_pages page all_dfs fetched
    = Some (fetched ++ pages_from page (S n),
            Return (all_dfs ++ map rows (pages_from page n))).
Proof.
  induction n as [|n IH]; intros fuel page all_dfs fetched Hfuel Hmax Hne Hempty;
    (destruct fuel as [|fuel]; [lia|]); simpl.
  - rewrite Z.add_0_r in *.
    replace (page <=? max_pages)%Z with true by (symmetry; apply Z.leb_le; lia).
    rewrite Hempty. simpl. now rewrite app_nil_r.
  - replace (page <=? max_pages)%Z with true by (symmetry; apply Z.leb_le; lia).
    destruct (nonempty_page_step page) as [df [Hf [He Hr]]]; [apply Hne; lia|].
    rewrite Hf, He.
    rewrite (IH fuel (page + 1)%Z); try lia.
    + rewrite Hr. simpl. now rewrite <- !app_assoc.
    + intros p Hp. apply Hne. lia.
    + rewrite <- Hempty. f_equal. lia.
Qed.

(** Without an empty page the loop runs until [page] exceeds [max_pages]. *)
Lemma while_loop_all_nonempty (n : nat) :
  forall fuel page all_dfs fetched,
    (n <= fuel)%nat ->
    (page + Z.of_nat n = max_pages + 1)%Z ->
    (forall p, (page <= p <= max_pages)%Z -> nonempty_page http_get p) ->
    loop fuel max_pages page all_dfs fetched
    = Some (fetched ++ pages_from page n,
            Return (all_dfs ++ map rows (pages_from page n))).
Proof.
  induction n as [|n IH]; intros fuel page all_dfs fetched Hfuel Hmax Hne.
  - assert (E : (page <=? max_pages)%Z = false) by (apply Z.leb_gt; lia).
    destruct fuel; simpl; rewrite E; now rewrite !app_nil_r.
  - destruct fuel as [|fuel]; [lia|]. simpl.
    replace (page <=? max_pages)%Z with true by (symmetry; apply Z.leb_le; lia).
    destruct (nonempty_page_step page) as [df [Hf [He Hr]]]; [apply Hne; lia|].
    rewrite Hf, He.
    rewrite (IH fuel (page + 1)%Z); try lia.
    + rewrite Hr. simpl. now rewrite <- !app_assoc.
    + intros p Hp. apply Hne. lia.
Qed.

(** The fuel that [scrape_vendor_eol_url] passes is never exhausted. *)
Lemma while_loop_total (fuel : nat) :
  forall page all_dfs fetched,
    (Z.to_nat (max_pages + 1 - page) <= fuel)%nat ->
    exists out, loop fuel max_pages page all_dfs fetched = Some out.
Proof.
  induction fuel as [|fuel IH]; intros page all_dfs fetched Hfuel; simpl.
  - assert (E : (page <=? max_pages)%Z = false) by (apply Z.leb_gt; lia).
    rewrite E. eauto.
  - destruct (page <=? max_pages)%Z eqn:E; [|eauto].
    apply Z.leb_le in E.
    destruct (fetch page) as [df|e]; [|eauto].
    destruct (empty df); [eauto|].
    apply IH. lia.
Qed.

Lemma scrape_of_loop (fetched : list Z) (all_dfs : list DataFrame) :
  loop (Z.to_nat max_pages) max_pages 1%Z [] [] = Some (fetched, Return all_dfs) ->
  scrape_vendor_eol_url http_get max_pages = Some (fetched, Return (List.concat all_dfs)).
Proof.
  intro H. unfold scrape_vendor_eol_url. rewrite H. now destruct all_dfs.
Qed.

Lemma scrape_total :
  exists out, scrape_vendor_eol_url http_get max_pages = Some out.
Proof.
  unfold scrape_vendor_eol_url.
  destruct (while_loop_total (Z.to_nat max_pages) 1%Z [] []) as [[f r] H]; [lia|].
  rewrite H. destruct r; eauto.
Qed.

Lemma scrape_first_empty (k : Z) :
  (1 <= k <= max_pages)%Z ->
  (forall p, (1 <= p < k)%Z -> nonempty_page http_get p) ->
  fetch k = Return [] ->
  scrape_vendor_eol_url http_get max_pages
  = Some (pages_from 1%Z (Z.to_nat k),
          Return (List.concat (map rows (pages_from 1%Z (Z.to_nat (k - 1)))))).
Proof.
  intros Hk Hne Hempty. apply scrape_of_loop.
  replace (Z.to_nat k) with (S (Z.to_nat (k - 1))) by lia.
  apply (while_loop_first_empty (Z.to_nat (k - 1)) (Z.to_nat max_pages) 1%Z [] []);
    try lia.
  - intros p Hp. apply Hne. lia.
  - rewrite <- Hempty. f_equal. lia.
Qed.

Lemma scrape_all_nonempty :
  (1 <= max_pages)%Z ->
  (forall p, (1 <= p <= max_pages)%Z -> nonempty_page http_get p) ->
  scrape_vendor_eol_url http_get max_pages
  = Some (pages_from 1%Z (Z.to_nat max_pages),
          Return (List.concat (map rows (pages_from 1%Z (Z.to_nat max_pages))))).
Proof.
  intros Hm Hne. apply scrape_of_loop.
  apply (while_loop_all_nonempty (Z.to_nat max_pages) (Z.to_nat max_pages) 1%Z [] []);
    try lia.
  exact Hne.
Qed.

End Pagination.

Section PaginationProperties.
Import Html Scraper.

(** C1 (amended): for every vendor section and every [max_pages >= 1] the
    scraper ends with an outcome; it fetches pages 1, 2, ... in order and
    stops at the first page whose table is empty, or once the page number
    exceeds [max_pages], and returns the rows of the non-empty pages fetched,
    in page order.  With three non-empty pages followed by an empty page 4
    and [max_pages >= 4] it performs exactly the fetches 1, 2, 3, 4 and
    returns the rows of pages 1 to 3; with [max_pages = 2] and pages that are
    never empty it performs exactly the fetches 1, 2 and returns the rows of
    pages 1 and 2. *)
Theorem scrape_vendor_pagination (http_get : option Z -> result Node) (max_pages : Z) :
  (1 <= max_pages)%Z ->
  (exists out, scrape_vendor_eol_url http_get max_pages = Some out)
  /\ (forall k,
        (1 <= k <= max_pages)%Z ->
        (forall p, (1 <= p < k)%Z -> nonempty_page http_get p) ->
        fetch_page http_get k = Return [] ->
        scrape_vendor_eol_url http_get max_pages
        = Some (pages_from 1%Z (Z.to_nat k),
                Return (List.concat (map (page_rows http_get)
                                         (pages_from 1%Z (Z.to_nat (k - 1)))))))
  /\ ((forall p, (1 <= p <= max_pages)%Z -> nonempty_page http_get p) ->
      scrape_vendor_eol_url http_get max_pages
      = Some (pages_from 1%Z (Z.to_nat max_pages),
              Return (List.concat (map (page_rows http_get)
                                       (pages_from 1%Z (Z.to_nat max_pages))))))
  /\ ((4 <= max_pages)%Z ->
      nonempty_page http_get 1%Z -> nonempty_page http_get 2%Z ->
      nonempty_page http_get 3%Z -> fetch_page http_get 4%Z = Return [] ->
      scrape_vendor_eol_url http_get max_pages
      = Some ([1; 2; 3; 4]%Z,
              Return (page_rows http_get 1%Z ++ page_rows http_get 2%Z
                        ++ page_rows http_get 3%Z)))
  /\ (max_pages = 2%Z ->
      (forall p, (1 <= p)%Z -> nonempty_page http_get p) ->
      scrape_vendor_eol_url http_get max_pages
      = Some ([1; 2]%Z, Return (page_rows http_get 1%Z ++ page_rows http_get 2%Z))).
Proof.
  intro Hmax. split; [apply scrape_total|]. split; [|split; [|split]].
  - intros k. apply scrape_first_empty.
  - now apply scrape_all_nonempty.
  - intros H4 H1 H2 H3 He.
    rewrite (scrape_first_empty http_get max_pages 4%Z); try lia; try exact He.
    + simpl. now rewrite app_nil_r.
    + intros p Hp.
      assert (C : p = 1%Z \/ p = 2%Z \/ p = 3%Z) by lia.
      destruct C as [->|[->| ->]]; assumption.
  - intros -> Hne.
    rewrite scrape_all_nonempty; try lia.
    + simpl. now rewrite app_nil_r.
    + intros p Hp. apply Hne. lia.
Qed.

Lemma three_page_site_pages :
  nonempty_page Samples.three_page_site 1%Z
  /\ nonempty_page Samples.three_page_site 2%Z
  /\ nonempty_page Samples.three_page_site 3%Z
  /\ fetch_page Samples.three_page_site 4%Z = Return [].
Proof.
  repeat split; try (eexists; split; [reflexivity|discriminate]).
Defined.

Lemma echoing_site_pages (p : Z) : nonempty_page Samples.echoing_site p.
Proof. eexists. split; [reflexivity|discriminate]. Defined.

Lemma scrape_vendor_pagination_witness :
  scrape_vendor_eol_url Samples.three_page_site 50%Z
  = Some ([1; 2; 3; 4]%Z,
          Return (page_rows Samples.three_page_site 1%Z
                    ++ page_rows Samples.three_page_site 2%Z
                    ++ page_rows Samples.three_page_site 3%Z))
  /\ scrape_vendor_eol_url Samples.echoing_site 2%Z
     = Some ([1; 2]%Z,
             Return (page_rows Samples.echoing_site 1%Z
                       ++ page_rows Samples.echoing_site 2%Z)).
Proof.
  assert (H50 : (1 <= 50)%Z) by lia.
  assert (H2 : (1 <= 2)%Z) by lia.
  assert (H4 : (4 <= 50)%Z) by lia.
  destruct three_page_site_pages as [P1 [P2 [P3 P4]]].
  split.
  - exact (proj1 (proj2 (proj2 (proj2
             (scrape_vendor_pagination Samples.three_page_site 50%Z H50))))
                 H4 P1 P2 P3 P4).
  - exact (proj2 (proj2 (proj2 (proj2
             (scrape_vendor_pagination Samples.echoing_site 2%Z H2))))
                 eq_refl (fun p _ => echoing_site_pages p)).
Defined.

(** C1 as first stated fails when [max_pages] is below 4: on a section with
    three non-empty pages followed by an empty page 4 and [max_pages = 3],
    the scraper performs the three fetches 1, 2, 3 and never asks for
    page 4. *)
Lemma scrape_three_fetches_when_max_pages_is_three :
  (1 <= 3)%Z
  /\ nonempty_page Samples.three_page_site 1%Z
  /\ nonempty_page Samples.three_page_site 2%Z
  /\ nonempty_page Samples.three_page_site 3%Z
  /\ fetch_page Samples.three_page_site 4%Z = Return []
  /\ scrape_vendor_eol_url Samples.three_page_site 3%Z
     = Some ([1; 2; 3]%Z,
             Return (page_rows Samples.three_page_site 1%Z
                       ++ page_rows Samples.three_page_site 2%Z
                       ++ page_rows Samples.three_page_site 3%Z))
  /\ scrape_vendor_eol_url Samples.three_page_site 3%Z
     <> Some ([1; 2; 3; 4]%Z,
              Return (page_rows Samples.three_page_site 1%Z
                        ++ page_rows Samples.three_page_site 2%Z
                        ++ page_rows Samples.three_page_site 3%Z)).
Proof.
  split; [lia|].
  destruct three_page_site_pages as [H1 [H2 [H3 H4]]].
  repeat (split; [assumption|]).
  assert (E : scrape_vendor_eol_url Samples.three_page_site 3%Z
              = Some ([1; 2; 3]%Z,
                      Return (page_rows Samples.three_page_site 1%Z
                                ++ page_rows Samples.three_page_site 2%Z
                                ++ page_rows Samples.three_page_site 3%Z)))
    by reflexivity.
  split; [exact E|]. rewrite E. discriminate.
Qed.

End PaginationProperties.

(** ** Date normalisation *)
Module DatesFacts.
Import Dates.

Lemma digit_not_space (c : ascii) : is_digit c = true -> PyStr.isspace c = false.
Proof. destruct c as [[] [] [] [] [] [] [] []]; vm_compute; congruence. Qed.

Lemma letter_not_space (c : ascii) :
  PyStr.is_lower (PyStr.lower_char c) = true -> PyStr.isspace c = false.
Proof. destruct c as [[] [] [] [] [] [] [] []]; vm_compute; congruence. Qed.

Lemma lstrip_head (c : ascii) (s : string) :
  PyStr.isspace c = false -> PyStr.lstrip_by PyStr.isspace (String c s) = String c s.
Proof. intro H. simpl. now rewrite H. Qed.

Lemma rstrip_app (p : ascii -> bool) (a b : string) :
  b <> "" -> PyStr.rstrip_by p b = b -> PyStr.rstrip_by p (a ++ b) = (a ++ b)%string.
Proof.
  intros Hb Hr. induction a as [|c a IH]; simpl; [exact Hr|].
  rewrite IH. destruct (a ++ b)%string eqn:E; [|reflexivity].
  destruct a; simpl in E; [contradiction|discriminate].
Qed.

Lemma string_app_assoc (a b c : string) : ((a ++ b) ++ c = a ++ (b ++ c))%string.
Proof. induction a as [|x a IH]; simpl; [reflexivity|now rewrite IH]. Qed.

Lemma plus_matches_sound (p : ascii -> bool) (s m r : string) :
  In (m, r) (plus_matches p s) -> s = (m ++ r)%string.
Proof.
  revert m r. induction s as [|c s IH]; simpl; intros m r H; [contradiction|].
  destruct (p c); [|contradiction].
  apply in_app_or in H. destruct H as [H|[H|[]]].
  - apply in_map_iff in H. destruct H as [[m' r'] [E H]]. inversion E; subst.
    simpl. f_equal. now apply IH.
  - now inversion H.
Qed.

Lemma str_match_sound (lit s m r : string) :
  str_match lit s = Some (m, r) -> s = (m ++ r)%string.
Proof.
  revert s m r. induction lit as [|a lit IH]; simpl; intros s m r H.
  - now inversion H.
  - destruct s as [|c s]; [discriminate|].
    destruct (Ascii.eqb _ _); [|discriminate].
    destruct (str_match lit s) as [[m' r']|] eqn:E; [|discriminate].
    inversion H; subst. simpl. f_equal. now apply IH.
Qed.

Lemma re_match_sound (r : regex) :
  forall s m rest, In (m, rest) (re_match r s) -> s = (m ++ rest)%string.
Proof.
  induction r as [p|p|lit|r1 IH1 r2 IH2|r1 IH1 r2 IH2|]; simpl; intros s m rest H.
  - destruct s as [|c s]; [contradiction|].
    destruct (p c); [|contradiction]. destruct H as [H|[]]. now inversion H.
  - now apply plus_matches_sound with (p := p).
  - destruct (str_match lit s) as [mr|] eqn:E; [|contradiction].
    destruct H as [->|[]]. now apply str_match_sound in E.
  - apply in_flat_map in H. destruct H as [[m1 s1] [H1 H]].
    apply in_map_iff in H. destruct H as [[m2 s2] [E H2]]. inversion E; subst.
    simpl. apply IH1 in H1. apply IH2 in H2. simpl in *. subst.
    now rewrite string_app_assoc.
  - apply in_app_or in H. destruct H; auto.
  - contradiction.
Qed.

Lemma format_matches_cons (t : token) (toks : list token) (s : string) (g : groups) (rest : string) :
  In (g, rest) (format_matches (t :: toks) s) ->
  exists m r1 g1, In (m, r1) (re_match (token_re t) s)
                  /\ In (g1, rest) (format_matches toks r1).
Proof.
  simpl. intro H. apply in_flat_map in H. destruct H as [[m r1] [H1 H]].
  apply in_map_iff in H. destruct H as [[g1 r2] [E H2]]. inversion E; subst.
  exists m, r1, g1. auto.
Qed.

Lemma exact_match_In (toks : list token) (s : string) (g : groups) :
  exact_match toks s = Some g -> In (g, "") (format_matches toks s).
Proof.
  unfold exact_match. destruct (format_matches toks s) as [|[g' r] l]; [discriminate|].
  destruct r; [|discriminate]. intro H. inversion H. now left.
Qed.


Lemma chr_match_inv (p : ascii -> bool) (s m rest : string) :
  In (m, rest) (re_match (Chr p) s) ->
  exists c, s = String c rest /\ m = String c "" /\ p c = true.
Proof.
  simpl. destruct s as [|c s]; [contradiction|].
  destruct (p c) eqn:E; [|contradiction].
  intros [H|[]]. inversion H; subst. eauto.
Qed.

Lemma seq_chr_match_inv (p : ascii -> bool) (r : regex) (s m rest : string) :
  In (m, rest) (re_match (Seq (Chr p) r) s) ->
  exists c s' m', s = String c s' /\ m = String c m' /\ p c = true
                  /\ In (m', rest) (re_match r s').
Proof.
  intro H. change (re_match (Seq (Chr p) r) s) with
      (flat_map (fun mr1 => map (fun mr2 => ((fst mr1 ++ fst mr2)%string, snd mr2))
                                (re_match r (snd mr1))) (re_match (Chr p) s)) in H.
  apply in_flat_map in H. destruct H as [[m1 s1] [H1 H]].
  apply chr_match_inv in H1. destruct H1 as [c [-> [-> Hp]]].
  apply in_map_iff in H. destruct H as [[m2 s2] [E H2]]. inversion E; subst.
  exists c, s1, m2. auto.
Qed.

(** A format that ends with a year leaves no blank at the end. *)
Lemma year_matches_end (s : string) (g : groups) :
  In (g, "") (format_matches [Directive "Y" re_Y] s) ->
  s <> "" /\ PyStr.rstrip_by PyStr.isspace s = s.
Proof.
  intro H. apply format_matches_cons in H. destruct H as [m [r1 [g1 [H1 H2]]]].
  simpl in H2. destruct H2 as [H2|[]]. inversion H2; subst. clear H2.
  simpl token_re in H1. unfold re_Y in H1.
  apply seq_chr_match_inv in H1. destruct H1 as [c1 [s1 [m1 [-> [-> [_ H1]]]]]].
  apply seq_chr_match_inv in H1. destruct H1 as [c2 [s2 [m2 [-> [-> [_ H1]]]]]].
  apply seq_chr_match_inv in H1. destruct H1 as [c3 [s3 [m3 [-> [-> [_ H1]]]]]].
  apply chr_match_inv in H1. destruct H1 as [c4 [-> [-> H4]]].
  split; [discriminate|].
  apply (rstrip_app PyStr.isspace (String c1 (String c2 (String c3 ""))) (String c4 ""));
    [discriminate|].
  simpl. now rewrite (digit_not_space c4 H4).
Qed.

Lemma format_matches_end (t : token) (toks : list token) (s : string) (g : groups) :
  (forall s' g', In (g', "") (format_matches toks s') ->
                 s' <> "" /\ PyStr.rstrip_by PyStr.isspace s' = s') ->
  In (g, "") (format_matches (t :: toks) s) ->
  s <> "" /\ PyStr.rstrip_by PyStr.isspace s = s.
Proof.
  intros IH H. apply format_matches_cons in H. destruct H as [m [r1 [g1 [H1 H2]]]].
  apply IH in H2. destruct H2 as [Hne Hr].
  apply re_match_sound in H1. subst s. split.
  - destruct m; simpl; [exact Hne|discriminate].
  - now apply rstrip_app.
Qed.

(** A month name starts with a letter, so the text it matches does not start
    with a blank. *)
Lemma names_match_inv (l : list string) (s m rest : string) :
  In (m, rest) (re_match (fold_right (fun name r => Alt (Str name) r) Never l) s) ->
  exists name, In name l /\ str_match name s = Some (m, rest).
Proof.
  induction l as [|n l IH]; simpl; [contradiction|].
  intro H. apply in_app_or in H. destruct H as [H|H].
  - destruct (str_match n s) as [mr|] eqn:E; [|contradiction].
    destruct H as [->|[]]. eauto.
  - destruct (IH H) as [name [Hin Hm]]. eauto.
Qed.

Lemma month_matches_start (names : list string) (s m rest : string) :
  forallb Dates.starts_with_letter names = true ->
  In (m, rest) (re_match (seqToRE names) s) ->
  exists c s', s = String c s' /\ PyStr.isspace c = false.
Proof.
  intros Hn H. unfold seqToRE in H. apply names_match_inv in H.
  destruct H as [name [Hin Hm]].
  eapply Permutation_in in Hin; [|apply Permutation_sym, sorted_perm].
  rewrite forallb_forall in Hn. specialize (Hn name Hin).
  destruct name as [|a name]; [discriminate|]. simpl in Hn, Hm.
  destruct s as [|c s]; [discriminate|].
  destruct (Ascii.eqb (PyStr.lower_char a) (PyStr.lower_char c)) eqn:E; [|discriminate].
  apply Ascii.eqb_eq in E. rewrite E in Hn.
  exists c, s. split; [reflexivity|]. now apply letter_not_space.
Qed.

Lemma pattern_abbr : pattern "%b %d, %Y" = Some (Dates.month_day_year_tokens "b" a_month).
Proof. reflexivity. Qed.

Lemma pattern_full : pattern "%B %d, %Y" = Some (Dates.month_day_year_tokens "B" f_month).
Proof. reflexivity. Qed.

Lemma month_day_year_stripped (mdir : ascii) (names : list string) (s : string) (g : groups) :
  forallb Dates.starts_with_letter names = true ->
  exact_match (Dates.month_day_year_tokens mdir names) s = Some g ->
  s <> "" /\ PyStr.strip s = s.
Proof.
  intros Hn H. apply exact_match_In in H. unfold Dates.month_day_year_tokens in H.
  assert (E : s <> "" /\ PyStr.rstrip_by PyStr.isspace s = s).
  { revert H. apply format_matches_end. intros s1 g1.
    apply format_matches_end. intros s2 g2.
    apply format_matches_end. intros s3 g3.
    apply format_matches_end. intros s4 g4.
    apply format_matches_end. intros s5 g5.
    apply year_matches_end. }
  destruct E as [Hne Hr]. split; [exact Hne|].
  apply format_matches_cons in H. destruct H as [m [r1 [g1 [H1 _]]]].
  apply month_matches_start in H1; [|exact Hn].
  destruct H1 as [c [s' [-> Hc]]].
  unfold PyStr.strip. rewrite (lstrip_head c s' Hc). exact Hr.
Qed.

Lemma parse_with_format_inv (format : string) (names : list string) (mdir : ascii)
      (toks : list token) (s : string) (ts : Timestamp) :
  pattern format = Some toks ->
  parse_with_format format names mdir s = Some ts ->
  (exists g, exact_match toks s = Some g)
  /\ exists y m d, ts = mkTimestamp y m d 0 0 0 0 0 None /\ valid_date y m d = true.
Proof.
  intros Hp H. unfold parse_with_format in H. rewrite Hp in H.
  destruct (exact_match toks s) as [g|]; [|discriminate].
  split; [eauto|].
  destruct (group "Y" g); [|discriminate].
  destruct (group mdir g); [|discriminate].
  destruct (group "d" g); [|discriminate].
  destruct (int_of _) as [y|]; [|discriminate].
  destruct (month_index _ _) as [m|]; [|discriminate].
  destruct (int_of _) as [d|]; [|discriminate].
  destruct (valid_date y m d) eqn:V; [|discriminate].
  inversion H. exists y, m, d. auto.
Qed.

(** A text that either format parses is not empty and has no blank at
    either end. *)
Lemma parse_abbr_stripped (s : string) (ts : Timestamp) :
  parse_with_format "%b %d, %Y" a_month "b" s = Some ts ->
  s <> "" /\ PyStr.strip s = s.
Proof.
  intro H. destruct (parse_with_format_inv _ _ _ _ _ _ pattern_abbr H) as [[g Hg] _].
  exact (month_day_year_stripped "b" a_month s g eq_refl Hg).
Qed.

Lemma parse_full_stripped (s : string) (ts : Timestamp) :
  parse_with_format "%B %d, %Y" f_month "B" s = Some ts ->
  s <> "" /\ PyStr.strip s = s.
Proof.
  intro H. destruct (parse_with_format_inv _ _ _ _ _ _ pattern_full H) as [[g Hg] _].
  exact (month_day_year_stripped "B" f_month s g eq_refl Hg).
Qed.

(** Neither format parses the texts ["now"] and ["today"]: for them the
    clock answers. *)
Lemma parsed_text_not_today_now (s : string) (ts : Timestamp) :
  parse_with_format "%b %d, %Y" a_month "b" s = Some ts
  \/ parse_with_format "%B %d, %Y" f_month "B" s = Some ts ->
  forall clock, parse_today_now clock s = None.
Proof.
  intros H clock. unfold parse_today_now.
  destruct (String.eqb s "now") eqn:E1.
  { apply String.eqb_eq in E1. subst s. destruct H as [H|H]; vm_compute in H; discriminate. }
  destruct (String.eqb s "today") eqn:E2; [|reflexivity].
  apply String.eqb_eq in E2. subst s. destruct H as [H|H]; vm_compute in H; discriminate.
Qed.

Lemma to_datetime_format_parsed (clock : string -> Timestamp) (format : string)
      (names : list string) (mdir : ascii) (s : string) :
  parse_today_now clock s = None ->
  to_datetime_format clock format names mdir s = parse_with_format format names mdir s.
Proof. intro H. unfold to_datetime_format. now rewrite H. Qed.

Lemma whitespace_only_strip (s : string) :
  whitespace_only s = true -> PyStr.strip s = "".
Proof.
  unfold PyStr.strip. induction s as [|c s IH]; simpl; [reflexivity|].
  intro H. apply andb_true_iff in H. destruct H as [Hc Hs]. rewrite Hc. auto.
Qed.

Lemma lower_char_idem (c : ascii) : PyStr.lower_char (PyStr.lower_char c) = PyStr.lower_char c.
Proof. destruct c as [[] [] [] [] [] [] [] []]; reflexivity. Qed.

Lemma lower_app (a b : string) : lower (a ++ b) = (lower a ++ lower b)%string.
Proof. induction a as [|c a IH]; simpl; [reflexivity|now rewrite IH]. Qed.

Lemma str_match_same (lit : string) :
  forall mon r, lower mon = lower lit -> str_match lit (mon ++ r) = Some (mon, r).
Proof.
  induction lit as [|a lit IH]; intros [|c mon] r H; simpl in *; try discriminate.
  - reflexivity.
  - inversion H as [[Hc Hm]]. rewrite Hc, Ascii.eqb_refl.
    now rewrite (IH mon r Hm).
Qed.

Lemma str_match_lower_none (lit : string) :
  forall s, str_match lit (lower s) = None -> str_match lit s = None.
Proof.
  induction lit as [|a lit IH]; intros [|c s] H; simpl in *; try discriminate; auto.
  rewrite lower_char_idem in H.
  destruct (Ascii.eqb _ _); [|reflexivity].
  destruct (str_match lit (lower s)) as [[m r]|] eqn:E; [discriminate|].
  now rewrite (IH s E).
Qed.

Lemma names_match_unique (l : list string) (name s : string) (mr : string * string) :
  NoDup l -> In name l ->
  str_match name s = Some mr ->
  (forall n, In n l -> n <> name -> str_match n s = None) ->
  re_match (fold_right (fun n r => Alt (Str n) r) Never l) s = [mr].
Proof.
  intros Hnd Hin Hm Hother.
  assert (G : forall l', (forall n, In n l' -> n <> name /\ str_match n s = None) ->
                         re_match (fold_right (fun n r => Alt (Str n) r) Never l') s = []).
  { induction l' as [|n l' IH]; simpl; intro H; [reflexivity|].
    rewrite (proj2 (H n (or_introl eq_refl))). simpl. apply IH. intros; apply H; now right. }
  induction Hnd as [|n l Hn Hnd IH]; simpl in *; [contradiction|].
  destruct Hin as [->|Hin].
  - rewrite Hm. simpl. f_equal. apply G. intros n Hn'. split.
    + intro. subst. contradiction.
    + apply Hother; [now right|]. intro. subst. contradiction.
  - assert (n <> name) by (intro; subst; contradiction).
    rewrite (Hother n (or_introl eq_refl) H). simpl. apply IH; auto.
Qed.

Lemma no_clash_none (n : string) :
  forall name r, clash n name = false -> str_match n (name ++ r) = None.
Proof.
  induction n as [|a n IH]; intros [|b name] r H; simpl in *; try discriminate.
  destruct (Ascii.eqb _ _); [|reflexivity].
  simpl in H. now rewrite (IH name r H).
Qed.

Lemma lower_idem (s : string) : lower (lower s) = lower s.
Proof.
  induction s as [|c s IH]; simpl; [reflexivity|].
  now rewrite lower_char_idem, IH.
Qed.

Lemma distinct_names_spec (names : list string) (n name : string) :
  distinct_names names = true -> In n names -> In name names -> n <> name ->
  clash n name = false.
Proof.
  unfold distinct_names. rewrite forallb_forall. intros H Hn Hname Hne.
  specialize (H name Hname). rewrite forallb_forall in H. specialize (H n Hn).
  apply orb_true_iff in H. destruct H as [H|H].
  - apply String.eqb_eq in H. contradiction.
  - now apply negb_true_iff in H.
Qed.

(** Among distinct names, the month group matches the text of the month and
    nothing else. *)
Lemma month_match (names : list string) (mon r : string) :
  distinct_names names = true -> NoDup names -> In (lower mon) names ->
  re_match (seqToRE names) (mon ++ r) = [(mon, r)].
Proof.
  intros Hd Hnd Hin. unfold seqToRE.
  apply names_match_unique with (name := lower mon).
  - eapply Permutation_NoDup; [apply sorted_perm|exact Hnd].
  - eapply Permutation_in; [apply sorted_perm|exact Hin].
  - apply str_match_same. symmetry. apply lower_idem.
  - intros n Hn Hne.
    eapply Permutation_in in Hn; [|apply Permutation_sym, sorted_perm].
    apply str_match_lower_none. rewrite lower_app.
    apply no_clash_none. now apply (distinct_names_spec names).
Qed.

Lemma month_index_In (names : list string) (x : string) (m : Z) :
  month_index names x = Some m -> In x names.
Proof.
  revert m. induction names as [|n names IH]; simpl; intros m H; [discriminate|].
  destruct (String.eqb n x) eqn:E.
  - left. now apply String.eqb_eq.
  - right. destruct (month_index names x); [|discriminate]. eapply IH. reflexivity.
Qed.

Lemma NoDup_a_month : NoDup a_month.
Proof.
  unfold a_month. repeat (constructor; [simpl; intuition discriminate|]). constructor.
Qed.

Lemma NoDup_f_month : NoDup f_month.
Proof.
  unfold f_month. repeat (constructor; [simpl; intuition discriminate|]). constructor.
Qed.

(** Greedy blanks take the whole run when a non-blank follows. *)
Lemma plus_matches_head (ws : string) (c : ascii) (rest : string) :
  ws <> "" -> whitespace_only ws = true -> PyStr.isspace c = false ->
  exists tl, plus_matches PyStr.isspace (ws ++ String c rest) = (ws, String c rest) :: tl.
Proof.
  induction ws as [|w ws IH]; intros Hne Hws Hc; [contradiction|].
  simpl in Hws. apply andb_true_iff in Hws. destruct Hws as [Hw Hws].
  simpl. rewrite Hw. destruct ws as [|w' ws].
  - simpl. rewrite Hc. simpl. eauto.
  - destruct IH as [tl E]; [discriminate|exact Hws|exact Hc|].
    rewrite E. simpl. eauto.
Qed.

Lemma day_match (dd : string) (d : Z) (rest : string) :
  In (dd, d) day_forms ->
  (exists tl, re_match re_d (dd ++ String "," rest) = (dd, String "," rest) :: tl)
  /\ int_of dd = Some d
  /\ exists c dd', dd = String c dd' /\ PyStr.isspace c = false.
Proof.
  intro H. cbv in H.
  repeat (destruct H as [H|H];
          [inversion H; subst; clear H;
           split; [eexists; reflexivity|split; [reflexivity|eexists; eexists; split; reflexivity]]|]).
  contradiction.
Qed.

Lemma year_match (c1 c2 c3 c4 : ascii) :
  is_digit c1 = true -> is_digit c2 = true -> is_digit c3 = true -> is_digit c4 = true ->
  re_match re_Y (String c1 (String c2 (String c3 (String c4 ""))))
  = [(String c1 (String c2 (String c3 (String c4 ""))), "")]
  /\ int_of (String c1 (String c2 (String c3 (String c4 ""))))
     = Some (1000 * digit_value c1 + 100 * digit_value c2
             + 10 * digit_value c3 + digit_value c4)%Z.
Proof.
  intros H1 H2 H3 H4. split.
  - unfold re_Y. simpl. rewrite H1. simpl. rewrite H2. simpl. rewrite H3. simpl.
    rewrite H4. reflexivity.
  - assert (E : PyStr.strip (String c1 (String c2 (String c3 (String c4 ""))))
               = String c1 (String c2 (String c3 (String c4 "")))).
    { unfold PyStr.strip. rewrite (lstrip_head c1 _ (digit_not_space c1 H1)).
      apply (rstrip_app PyStr.isspace (String c1 (String c2 (String c3 ""))) (String c4 ""));
        [discriminate|].
      simpl. now rewrite (digit_not_space c4 H4). }
    unfold int_of. rewrite E. rewrite H1, H2, H3, H4.
    f_equal. unfold digit_value. lia.
Qed.

Lemma format_matches_head (t : token) (toks : list token) (s m r : string)
      (tl : list (string * string)) (g : groups) (r' : string) (tl' : list (groups * string)) :
  re_match (token_re t) s = (m, r) :: tl ->
  format_matches toks r = (g, r') :: tl' ->
  exists tl'',
    format_matches (t :: toks) s
    = (match t with Directive d _ => (d, m) :: g | _ => g end, r') :: tl''.
Proof.
  intros H1 H2. simpl. rewrite H1. simpl. rewrite H2. simpl. eauto.
Qed.

Lemma exact_match_date_text (names : list string) (mdir : ascii) (s : string) (y m d : Z) :
  distinct_names names = true -> NoDup names ->
  date_text names s y m d ->
  exists mon dd yyyy,
    exact_match (month_day_year_tokens mdir names) s
    = Some [(mdir, mon); ("d"%char, dd); ("Y"%char, yyyy)]
    /\ month_index names (lower mon) = Some m
    /\ int_of dd = Some d
    /\ int_of yyyy = Some y.
Proof.
  intros Hd Hnd H.
  destruct H as [mon ws1 dd ws2 c1 c2 c3 c4 m d Hm Hn1 Hw1 Hdd Hn2 Hw2 H1 H2 H3 H4].
  set (yyyy := String c1 (String c2 (String c3 (String c4 "")))).
  destruct (year_match c1 c2 c3 c4 H1 H2 H3 H4) as [Hy Hyv]. fold yyyy in Hy, Hyv.
  destruct (day_match dd d (ws2 ++ yyyy) Hdd) as [[tld Hday] [Hdv [c [dd' [Edd Hc]]]]].
  exists mon, dd, yyyy. repeat split; auto.
  (* the year, then backwards to the month *)
  destruct (format_matches_head (Directive "Y" re_Y) [] yyyy yyyy "" [] [] "" []
              Hy eq_refl) as [t5 F5].
  destruct (plus_matches_head ws2 c1 (String c2 (String c3 (String c4 ""))) Hn2 Hw2
              (digit_not_space c1 H1)) as [tw2 W2].
  fold yyyy in W2.
  destruct (format_matches_head Whitespace _ (ws2 ++ yyyy) ws2 yyyy tw2 _ _ _ W2 F5)
    as [t4 F4].
  destruct (format_matches_head (Literal ",") _ (String "," (ws2 ++ yyyy)) "," (ws2 ++ yyyy)
              [] _ _ _ eq_refl F4) as [t3 F3].
  destruct (format_matches_head (Directive "d" re_d) _ _ _ _ _ _ _ _ Hday F3) as [t2 F2].
  assert (W1 : exists tl, plus_matches PyStr.isspace (ws1 ++ dd ++ String "," (ws2 ++ yyyy))
                          = (ws1, (dd ++ String "," (ws2 ++ yyyy))%string) :: tl).
  { rewrite Edd. apply plus_matches_head; assumption. }
  destruct W1 as [tw1 W1].
  destruct (format_matches_head Whitespace _ _ _ _ _ _ _ _ W1 F2) as [t1 F1].
  assert (M := month_match names mon (ws1 ++ dd ++ String "," (ws2 ++ yyyy)) Hd Hnd
                           (month_index_In _ _ _ Hm)).
  destruct (format_matches_head (Directive mdir (seqToRE names)) _ _ _ _ _ _ _ _ M F1)
    as [t0 F0].
  unfold exact_match, month_day_year_tokens.
  change (mon ++ ws1 ++ dd ++ "," ++ ws2 ++ yyyy)%string
    with (mon ++ ws1 ++ dd ++ String "," (ws2 ++ yyyy))%string.
  now rewrite F0.
Qed.

Lemma parse_with_format_complete (format : string) (names : list string) (mdir : ascii)
      (s : string) (y m d : Z) :
  pattern format = Some (month_day_year_tokens mdir names) ->
  Ascii.eqb mdir "d" = false -> Ascii.eqb mdir "Y" = false ->
  distinct_names names = true -> NoDup names ->
  date_text names s y m d ->
  valid_date y m d = true ->
  parse_with_format format names mdir s = Some (mkTimestamp y m d 0 0 0 0 0 None).
Proof.
  intros Hp Hmd HmY Hd Hnd Ht Hv.
  destruct (exact_match_date_text names mdir s y m d Hd Hnd Ht)
    as [mon [dd [yyyy [He [Hm [Hdv Hyv]]]]]].
  unfold parse_with_format. rewrite Hp, He. cbn [group].
  rewrite (Ascii.eqb_sym "Y" mdir), HmY, (Ascii.eqb_sym "d" mdir), Hmd, !Ascii.eqb_refl.
  change (Ascii.eqb "Y" "d") with false. cbv iota.
  rewrite Hyv, Hm, Hdv, Hv. reflexivity.
Qed.

Lemma parse_abbr_complete (s : string) (y m d : Z) :
  date_text a_month s y m d -> valid_date y m d = true ->
  parse_with_format "%b %d, %Y" a_month "b" s = Some (mkTimestamp y m d 0 0 0 0 0 None).
Proof.
  apply parse_with_format_complete; auto using NoDup_a_month, pattern_abbr.
Qed.

Lemma parse_full_complete (s : string) (y m d : Z) :
  date_text f_month s y m d -> valid_date y m d = true ->
  parse_with_format "%B %d, %Y" f_month "B" s = Some (mkTimestamp y m d 0 0 0 0 0 None).
Proof.
  apply parse_with_format_complete; auto using NoDup_f_month, pattern_full.
Qed.

Lemma isspace_lower_char (c : ascii) :
  PyStr.isspace (PyStr.lower_char c) = PyStr.isspace c.
Proof. destruct c as [[] [] [] [] [] [] [] []]; reflexivity. Qed.

Lemma no_space_lower (s : string) : no_space (lower s) = no_space s.
Proof.
  induction s as [|c s IH]; simpl; [reflexivity|].
  now rewrite isspace_lower_char, IH.
Qed.

Lemma str_match_matched (lit : string) :
  forall s m r, str_match lit s = Some (m, r) -> lower m = lower lit.
Proof.
  induction lit as [|a lit IH]; simpl; intros s m r H.
  - now inversion H.
  - destruct s as [|c s]; [discriminate|].
    destruct (Ascii.eqb _ _) eqn:E; [|discriminate].
    destruct (str_match lit s) as [[m' r']|] eqn:E'; [|discriminate].
    inversion H; subst. simpl. apply Ascii.eqb_eq in E. rewrite <- E.
    f_equal. eapply IH. eassumption.
Qed.

Lemma plus_matches_first (p : ascii -> bool) (s m r : string) :
  In (m, r) (plus_matches p s) -> exists c s', s = String c s' /\ p c = true.
Proof.
  destruct s as [|c s]; simpl; [contradiction|].
  destruct (p c) eqn:E; [|contradiction]. eauto.
Qed.

(** Two splittings of one text at a blank, each after a blank-free word, are
    the same splitting. *)
Lemma word_prefix_unique (a : string) :
  forall b w r w' r',
    (a ++ String w r = b ++ String w' r')%string ->
    no_space a = true -> no_space b = true ->
    PyStr.isspace w = true -> PyStr.isspace w' = true ->
    a = b.
Proof.
  induction a as [|x a IH]; intros [|y b] w r w' r' E Ha Hb Hw Hw'; simpl in *.
  - reflexivity.
  - inversion E; subst. apply andb_true_iff in Hb. destruct Hb as [Hy _].
    rewrite Hw in Hy. discriminate.
  - inversion E; subst. apply andb_true_iff in Ha. destruct Ha as [Hx _].
    rewrite Hw' in Hx. discriminate.
  - inversion E; subst. f_equal.
    apply andb_true_iff in Ha, Hb. destruct Ha as [_ Ha], Hb as [_ Hb].
    eapply IH; eassumption.
Qed.

Lemma whitespace_first (ws : string) :
  ws <> "" -> whitespace_only ws = true ->
  exists w ws', ws = String w ws' /\ PyStr.isspace w = true.
Proof.
  destruct ws as [|w ws]; [contradiction|]. simpl. intros _ H.
  apply andb_true_iff in H. destruct H. eauto.
Qed.

(** The month group of either format, followed by blanks, takes the whole
    first word of a date text. *)
Lemma month_group_is_first_word (names names' : list string) (mdir : ascii)
      (toks : list token) (mon : string) (w : ascii) (rest : string)
      (g : groups) (r : string) :
  forallb no_space names = true -> forallb no_space names' = true ->
  forallb (fun n => String.eqb (lower n) n) names = true ->
  In (lower mon) names' ->
  PyStr.isspace w = true ->
  In (g, r) (format_matches (Directive mdir (seqToRE names) :: Whitespace :: toks)
                            (mon ++ String w rest)) ->
  In (lower mon) names.
Proof.
  intros Hns Hns' Hlow Hmon Hw H.
  apply format_matches_cons in H. destruct H as [m1 [r1 [g1 [H1 H2]]]].
  apply format_matches_cons in H2. destruct H2 as [m2 [r2 [g2 [H2 _]]]].
  simpl token_re in H1, H2. unfold seqToRE in H1.
  apply names_match_inv in H1. destruct H1 as [name [Hin Hm]].
  eapply Permutation_in in Hin; [|apply Permutation_sym, sorted_perm].
  assert (Es := str_match_sound _ _ _ _ Hm).
  assert (El := str_match_matched _ _ _ _ Hm).
  apply plus_matches_first in H2. destruct H2 as [w' [r1' [-> Hw']]].
  rewrite forallb_forall in Hns, Hns', Hlow.
  assert (Hname : lower name = name) by (apply String.eqb_eq, Hlow, Hin).
  assert (E : mon = m1).
  { eapply word_prefix_unique; try eassumption.
    - rewrite <- no_space_lower. now apply Hns'.
    - rewrite <- no_space_lower, El, Hname. now apply Hns. }
  subst m1. now rewrite El, Hname.
Qed.

Lemma abbr_agrees_on_full_text (s : string) (y m d : Z) (ts : Timestamp) :
  date_text f_month s y m d ->
  valid_date y m d = true ->
  parse_with_format "%b %d, %Y" a_month "b" s = Some ts ->
  ts = mkTimestamp y m d 0 0 0 0 0 None.
Proof.
  intros Ht Hv Ha.
  assert (Hab : date_text a_month s y m d).
  { destruct (parse_with_format_inv _ _ _ _ _ _ pattern_abbr Ha) as [[g Hg] _].
    apply exact_match_In in Hg. clear Ha Hv. revert g Hg.
    destruct Ht as [mon ws1 dd ws2 c1 c2 c3 c4 m d Hm Hn1 Hw1 Hdd Hn2 Hw2 H1 H2 H3 H4].
    intros g Hg.
    destruct (whitespace_first ws1 Hn1 Hw1) as [w [ws1' [E Hw]]].
    assert (Hin : In (lower mon) a_month).
    { subst ws1. unfold month_day_year_tokens in Hg.
      apply (month_group_is_first_word a_month f_month) in Hg; auto.
      eapply month_index_In; eassumption. }
    constructor; auto.
    simpl in Hin.
    repeat (destruct Hin as [Hin|Hin];
            [rewrite <- Hin in Hm |- *; vm_compute in Hm; try discriminate; exact Hm|]).
    contradiction. }
  rewrite (parse_abbr_complete s y m d Hab Hv) in Ha. now inversion Ha.
Qed.

Section NormalizerFacts.
Variable clock : string -> Timestamp.
Variable to_datetime_infer : string -> option Timestamp.
Variable HAS_DATEUTIL : bool.
Variable dateutil_timestamp : string -> result Timestamp.

Local Abbreviation parse :=
  (parse_date_robust clock to_datetime_infer HAS_DATEUTIL dateutil_timestamp).
Local Abbreviation norm := (normalize clock to_datetime_infer HAS_DATEUTIL dateutil_timestamp).

Lemma convert_midnight (y m d : Z) :
  convert_to_utc_iso (Some (mkTimestamp y m d 0 0 0 0 0 None))
  = Some (iso_midnight_utc y m d).
Proof. reflexivity. Qed.

Lemma parse_nonblank (s : string) :
  s <> "" -> PyStr.strip s = s ->
  negb (PyStr.truthy s) || String.eqb (PyStr.strip s) "" = false.
Proof.
  intros Hne Hs. rewrite Hs. destruct s; [contradiction|reflexivity].
Qed.

Lemma normalize_blank (s : string) : PyStr.strip s = "" -> norm (Some s) = Return None.
Proof.
  intro H. unfold normalize, parse_date_robust. rewrite H. simpl.
  now rewrite orb_true_r.
Qed.

Lemma normalize_all_fail (s : string) :
  all_strategies_fail clock to_datetime_infer HAS_DATEUTIL dateutil_timestamp s ->
  norm (Some s) = Return None.
Proof.
  intros [Ha [Hf [Hi Hd]]]. unfold normalize, parse_date_robust.
  destruct (negb (PyStr.truthy s) || String.eqb (PyStr.strip s) ""); [reflexivity|].
  rewrite Ha, Hf, Hi.
  destruct Hd as [->|[e [-> He]]]; [reflexivity|].
  destruct HAS_DATEUTIL; [|reflexivity]. now rewrite He.
Qed.

Lemma normalize_date_text (s : string) (y m d : Z) :
  date_text a_month s y m d \/ date_text f_month s y m d ->
  valid_date y m d = true ->
  norm (Some s)
  = Return (Some (iso_midnight_utc y m d)).
Proof.
  intros Ht Hv.
  assert (P : parse_with_format "%b %d, %Y" a_month "b" s
              = Some (mkTimestamp y m d 0 0 0 0 0 None)
              \/ parse_with_format "%B %d, %Y" f_month "B" s
                 = Some (mkTimestamp y m d 0 0 0 0 0 None)).
  { destruct Ht as [Ht|Ht];
      [left; now apply parse_abbr_complete|right; now apply parse_full_complete]. }
  assert (Hs : s <> "" /\ PyStr.strip s = s).
  { destruct P as [P|P];
      [exact (parse_abbr_stripped s _ P)|exact (parse_full_stripped s _ P)]. }
  destruct Hs as [Hne Hs].
  pose proof (parsed_text_not_today_now s _ P clock) as Hc.
  unfold normalize, parse_date_robust. rewrite (parse_nonblank s Hne Hs), Hs.
  cbv zeta. unfold to_datetime_abbr, to_datetime_full.
  rewrite !(to_datetime_format_parsed clock _ _ _ s Hc).
  destruct Ht as [Ht|Ht].
  - now rewrite (parse_abbr_complete s y m d Ht Hv).
  - destruct (parse_with_format "%b %d, %Y" a_month "b" s) as [ts|] eqn:Ea.
    + now rewrite (abbr_agrees_on_full_text s y m d ts Ht Hv Ea).
    + now rewrite (parse_full_complete s y m d Ht Hv).
Qed.

(** The same for a raw text with blanks around the date. *)
Lemma normalize_padded_date_text (raw : string) (y m d : Z) :
  date_text a_month (PyStr.strip raw) y m d \/ date_text f_month (PyStr.strip raw) y m d ->
  valid_date y m d = true ->
  norm (Some raw)
  = Return (Some (iso_midnight_utc y m d)).
Proof.
  intros Ht Hv. rewrite <- (normalize_date_text (PyStr.strip raw) y m d Ht Hv).
  unfold normalize, parse_date_robust.
  assert (Hs : PyStr.strip raw <> "" /\ PyStr.strip (PyStr.strip raw) = PyStr.strip raw).
  { destruct Ht as [Ht|Ht].
    - exact (parse_abbr_stripped _ _ (parse_abbr_complete _ y m d Ht Hv)).
    - exact (parse_full_stripped _ _ (parse_full_complete _ y m d Ht Hv)). }
  destruct Hs as [Hne Hs]. rewrite (parse_nonblank _ Hne Hs), Hs.
  replace (negb (PyStr.truthy raw) || String.eqb (PyStr.strip raw) "") with false;
    [reflexivity|].
  symmetry. apply orb_false_iff. split.
  - destruct raw; [contradiction Hne; reflexivity|reflexivity].
  - now apply String.eqb_neq.
Qed.

End NormalizerFacts.

End DatesFacts.

Section NormalizerProperties.
Import Dates DatesFacts.

(** C2: every raw date string that matches the abbreviated month format
    ["%b %d, %Y"] or the full month format ["%B %d, %Y"] is normalised to a
    non-null ISO-8601 string: the date it names, at midnight, with the UTC
    offset [+00:00] written out.  A string matches when it is a month name
    (abbreviated or full, in any case), blanks, a day of one or two digits, a
    comma, blanks and a four-digit year, and names a date of the calendar
    (years 1 to 9999).  Blanks around such a text do not matter.
    ["Aug 31, 2022"] and ["August 31, 2022"] both give
    ["2022-08-31T00:00:00+00:00"].  All of this holds whatever the clock and
    the two later strategies are. *)
Theorem normalize_month_name_dates
        (clock : string -> Timestamp)
        (to_datetime_infer : string -> option Timestamp) (HAS_DATEUTIL : bool)
        (dateutil_timestamp : string -> result Timestamp) :
  (forall s y m d,
      date_text a_month s y m d \/ date_text f_month s y m d ->
      valid_date y m d = true ->
      normalize clock to_datetime_infer HAS_DATEUTIL dateutil_timestamp (Some s)
      = Return (Some (iso_midnight_utc y m d)))
  /\ (forall raw y m d,
         date_text a_month (PyStr.strip raw) y m d
         \/ date_text f_month (PyStr.strip raw) y m d ->
         valid_date y m d = true ->
         normalize clock to_datetime_infer HAS_DATEUTIL dateutil_timestamp (Some raw)
         = Return (Some (iso_midnight_utc y m d)))
  /\ normalize clock to_datetime_infer HAS_DATEUTIL dateutil_timestamp (Some "Aug 31, 2022")
     = Return (Some "2022-08-31T00:00:00+00:00")
  /\ normalize clock to_datetime_infer HAS_DATEUTIL dateutil_timestamp (Some "August 31, 2022")
     = Return (Some "2022-08-31T00:00:00+00:00").
Proof.
  split; [|split; [|split]].
  - intros s y m d. apply normalize_date_text.
  - intros raw y m d. apply normalize_padded_date_text.
  - apply (normalize_date_text clock _ _ _ "Aug 31, 2022" 2022 8 31); [left|reflexivity].
    apply (date_text_intro a_month "Aug" " " "31" " " "2" "0" "2" "2" 8 31);
      try reflexivity; try discriminate.
    vm_compute. tauto.
  - apply (normalize_date_text clock _ _ _ "August 31, 2022" 2022 8 31); [right|reflexivity].
    apply (date_text_intro f_month "August" " " "31" " " "2" "0" "2" "2" 8 31);
      try reflexivity; try discriminate.
    vm_compute. tauto.
Qed.

(** The text ["JUNE  21, 2021"] (upper case, two blanks) is a date text of the
    full month names. *)
Lemma june_21_2021_text : date_text f_month "JUNE  21, 2021" 2021 6 21.
Proof.
  apply (date_text_intro f_month "JUNE" "  " "21" " " "2" "0" "2" "1" 6 21);
    try reflexivity; try discriminate.
  vm_compute. tauto.
Defined.

(** Dates long before and long after the present: ["Jan 1, 1500"] and
    ["Dec 31, 9999"]. *)
Lemma jan_1_1500_text : date_text a_month "Jan 1, 1500" 1500 1 1.
Proof.
  apply (date_text_intro a_month "Jan" " " "1" " " "1" "5" "0" "0" 1 1);
    try reflexivity; try discriminate.
  vm_compute. tauto.
Defined.

Lemma dec_31_9999_text : date_text a_month "Dec 31, 9999" 9999 12 31.
Proof.
  apply (date_text_intro a_month "Dec" " " "31" " " "9" "9" "9" "9" 12 31);
    try reflexivity; try discriminate.
  vm_compute. tauto.
Defined.

(** A no-break space (U+00A0) between the month and the day. *)
Lemma aug_nbsp_31_2022_text :
  date_text a_month ("Aug" ++ String "160" "31, 2022")%string 2022 8 31.
Proof.
  apply (date_text_intro a_month "Aug" (String "160" "") "31" " " "2" "0" "2" "2" 8 31);
    try reflexivity; try discriminate.
  vm_compute. tauto.
Defined.

Lemma normalize_month_name_dates_witness :
  normalize Samples.frozen_clock Samples.infer_nat true Samples.dateutil_overflow
            (Some "JUNE  21, 2021")
  = Return (Some "2021-06-21T00:00:00+00:00")
  /\ normalize Samples.frozen_clock Samples.infer_nat true Samples.dateutil_overflow
               (Some "Jan 1, 1500")
     = Return (Some "1500-01-01T00:00:00+00:00")
  /\ normalize Samples.frozen_clock Samples.infer_nat true Samples.dateutil_overflow
               (Some "Dec 31, 9999")
     = Return (Some "9999-12-31T00:00:00+00:00")
  /\ normalize Samples.frozen_clock Samples.infer_nat true Samples.dateutil_overflow
               (Some ("Aug" ++ String "160" "31, 2022")%string)
     = Return (Some "2022-08-31T00:00:00+00:00")
  /\ normalize Samples.frozen_clock Samples.infer_nat true Samples.dateutil_overflow
               (Some "  June 21, 2021 ")
     = Return (Some "2021-06-21T00:00:00+00:00").
Proof.
  pose (T := normalize_month_name_dates Samples.frozen_clock Samples.infer_nat true
                                        Samples.dateutil_overflow).
  split; [|split; [|split; [|split]]].
  - exact (proj1 T "JUNE  21, 2021" 2021%Z 6%Z 21%Z (or_intror june_21_2021_text) eq_refl).
  - exact (proj1 T "Jan 1, 1500" 1500%Z 1%Z 1%Z (or_introl jan_1_1500_text) eq_refl).
  - exact (proj1 T "Dec 31, 9999" 9999%Z 12%Z 31%Z (or_introl dec_31_9999_text) eq_refl).
  - exact (proj1 T ("Aug" ++ String "160" "31, 2022")%string 2022%Z 8%Z 31%Z
                 (or_introl aug_nbsp_31_2022_text) eq_refl).
  - refine (proj1 (proj2 T) "  June 21, 2021 " 2021%Z 6%Z 21%Z (or_intror _) eq_refl).
    apply (date_text_intro f_month "June" " " "21" " " "2" "0" "2" "1" 6 21);
      try reflexivity; try discriminate.
    vm_compute. tauto.
Defined.

(** The inputs on which [normalize] returns null: [None], the empty string,
    a string of blanks (any whitespace-only string), and any string on which
    the three [to_datetime] calls give NaT while [dateutil] is absent or
    raises [ValueError], [TypeError] or [AttributeError]. *)
Lemma normalize_null_cases
      (clock : string -> Timestamp)
      (to_datetime_infer : string -> option Timestamp) (HAS_DATEUTIL : bool)
      (dateutil_timestamp : string -> result Timestamp) :
  normalize clock to_datetime_infer HAS_DATEUTIL dateutil_timestamp None = Return None
  /\ normalize clock to_datetime_infer HAS_DATEUTIL dateutil_timestamp (Some "") = Return None
  /\ normalize clock to_datetime_infer HAS_DATEUTIL dateutil_timestamp (Some "   ") = Return None
  /\ (forall s, whitespace_only s = true ->
                normalize clock to_datetime_infer HAS_DATEUTIL dateutil_timestamp (Some s)
                = Return None)
  /\ (forall s, all_strategies_fail clock to_datetime_infer HAS_DATEUTIL dateutil_timestamp s ->
                normalize clock to_datetime_infer HAS_DATEUTIL dateutil_timestamp (Some s)
                = Return None).
Proof.
  repeat split.
  - intros s H. apply normalize_blank. now apply whitespace_only_strip.
  - intro s. apply normalize_all_fail.
Qed.

Lemma normalize_null_examples :
  normalize Samples.frozen_clock (fun _ => None) true (fun _ => Raise ValueError)
            (Some (String "009" " ")) = Return None
  /\ normalize Samples.frozen_clock (fun _ => None) true (fun _ => Raise ValueError)
               (Some "Feb 30, 2022") = Return None
  /\ normalize Samples.frozen_clock (fun _ => None) false
               (fun s => Return (mkTimestamp 1 1 1 0 0 0 0 0 None))
               (Some "to be announced") = Return None.
Proof.
  split; [|split].
  - apply (proj1 (proj2 (proj2 (proj2
             (normalize_null_cases Samples.frozen_clock (fun _ => None) true
                                   (fun _ => Raise ValueError)))))).
    reflexivity.
  - apply (proj2 (proj2 (proj2 (proj2
             (normalize_null_cases Samples.frozen_clock (fun _ => None) true
                                   (fun _ => Raise ValueError)))))).
    unfold all_strategies_fail. cbv zeta.
    repeat split; try (vm_compute; reflexivity).
    right. exists ValueError. split; reflexivity.
  - apply (proj2 (proj2 (proj2 (proj2
             (normalize_null_cases Samples.frozen_clock (fun _ => None) false
                (fun s => Return (mkTimestamp 1 1 1 0 0 0 0 0 None))))))).
    unfold all_strategies_fail. cbv zeta.
    repeat split; try (vm_compute; reflexivity). now left.
Qed.

(** When the three [to_datetime] calls give NaT and the last-resort parser
    raises an exception that the [except] clause does not name, that
    exception leaves [normalize]. *)
Lemma normalize_uncaught
      (clock : string -> Timestamp)
      (to_datetime_infer : string -> option Timestamp)
      (dateutil_timestamp : string -> result Timestamp) (s : string) (e : exn) :
  PyStr.strip s <> "" ->
  to_datetime_abbr clock (PyStr.strip s) = None ->
  to_datetime_full clock (PyStr.strip s) = None ->
  to_datetime_infer (PyStr.strip s) = None ->
  dateutil_timestamp (PyStr.strip s) = Raise e ->
  caught_by_fallback e = false ->
  normalize clock to_datetime_infer true dateutil_timestamp (Some s) = Raise e.
Proof.
  intros Hne Ha Hf Hi Hd He. unfold normalize, parse_date_robust.
  replace (negb (PyStr.truthy s) || String.eqb (PyStr.strip s) "") with false.
  - now rewrite Ha, Hf, Hi, Hd, He.
  - symmetry. apply orb_false_iff. split.
    + destruct s; [contradiction Hne; reflexivity|reflexivity].
    + now apply String.eqb_neq.
Qed.

(** C8 (the code departs from it): [normalize] does return null for [None],
    for the empty string and for a string of blanks, but a string on which
    every strategy fails can make it raise.  On the cell text
    ["08335394550"] the three [to_datetime] calls give NaT and [dateutil]
    raises [OverflowError], which the clause
    [except (ValueError, TypeError, AttributeError)] does not catch: the
    exception leaves [normalize]. *)
Theorem normalize_raises_on_overflow (clock : string -> Timestamp) :
  normalize clock Samples.infer_nat true Samples.dateutil_overflow None = Return None
  /\ normalize clock Samples.infer_nat true Samples.dateutil_overflow (Some "") = Return None
  /\ normalize clock Samples.infer_nat true Samples.dateutil_overflow (Some "   ") = Return None
  /\ to_datetime_abbr clock "08335394550" = None
  /\ to_datetime_full clock "08335394550" = None
  /\ Samples.infer_nat "08335394550" = None
  /\ Samples.dateutil_overflow "08335394550" = Raise OverflowError
  /\ normalize clock Samples.infer_nat true Samples.dateutil_overflow (Some "08335394550")
     = Raise OverflowError.
Proof.
  do 7 (split; [reflexivity|]).
  apply normalize_uncaught; try reflexivity. discriminate.
Qed.

End NormalizerProperties.

(** ** Deduplication and merge *)
Module DedupFacts.
Import Dedup.

Lemma key_eqb_spec (a b : Key) : key_eqb a b = true <-> a = b.
Proof.
  destruct a as [v1 m1], b as [v2 m2]. unfold key_eqb. simpl.
  rewrite andb_true_iff, !String.eqb_eq. split.
  - intros [-> ->]. reflexivity.
  - intro H. inversion H. auto.
Qed.

Lemma key_eqb_refl (a : Key) : key_eqb a a = true.
Proof. now apply key_eqb_spec. Qed.

Lemma string_compare_refl (a : string) : String.compare a a = Eq.
Proof. now apply String_as_OT.cmp_eq. Qed.

Lemma key_compare_eq (a b : Key) : key_compare a b = Eq -> a = b.
Proof.
  destruct a as [v1 m1], b as [v2 m2]. unfold key_compare. simpl.
  destruct (String.compare v1 v2) eqn:E; try discriminate.
  intro H. apply String.compare_eq_iff in E, H. now subst.
Qed.

Lemma key_compare_antisym (a b : Key) : key_compare a b = CompOpp (key_compare b a).
Proof.
  destruct a as [v1 m1], b as [v2 m2]. unfold key_compare. simpl.
  rewrite (String.compare_antisym v1 v2).
  destruct (String.compare v2 v1); simpl; auto using String.compare_antisym.
Qed.

Lemma key_lt_trans (a b c : Key) :
  key_compare a b = Lt -> key_compare b c = Lt -> key_compare a c = Lt.
Proof.
  destruct a as [v1 m1], b as [v2 m2], c as [v3 m3]. unfold key_compare. simpl.
  destruct (String.compare v1 v2) eqn:E12; try discriminate;
    destruct (String.compare v2 v3) eqn:E23; try discriminate; intros H1 H2.
  - apply String.compare_eq_iff in E12, E23. subst.
    rewrite string_compare_refl. eapply string_lt_trans; eassumption.
  - apply String.compare_eq_iff in E12. subst. now rewrite E23.
  - apply String.compare_eq_iff in E23. subst. now rewrite E12.
  - now rewrite (string_lt_trans _ _ _ E12 E23).
Qed.

Lemma group_keys_NoDup (df : DataFrame) : NoDup (group_keys df).
Proof. apply sorted_NoDup, unique_NoDup, key_eqb_spec. Qed.

Lemma group_keys_In (df : DataFrame) (k : Key) :
  In k (group_keys df) <-> In k (map key_of df).
Proof.
  unfold group_keys. rewrite sorted_In. apply unique_In, key_eqb_spec.
Qed.

Lemma group_keys_sorted (df : DataFrame) : StronglySorted key_lt (group_keys df).
Proof.
  apply (sorted_strict key_compare key_compare_eq key_compare_antisym key_lt_trans).
  apply unique_NoDup, key_eqb_spec.
Qed.

Lemma key_of_merge_group (df : DataFrame) (k : Key) : key_of (merge_group df k) = k.
Proof. now destruct k. Qed.

Lemma merged_keys (df : DataFrame) :
  map key_of (remove_duplicates_and_merge df) = group_keys df.
Proof.
  unfold remove_duplicates_and_merge. rewrite map_map.
  rewrite (map_ext _ (fun k => k)); [apply map_id|]. apply key_of_merge_group.
Qed.

(** A frame whose keys are already distinct and ascending keeps its keys. *)
Lemma group_keys_fixpoint (df : DataFrame) :
  StronglySorted key_lt (map key_of df) -> NoDup (map key_of df) ->
  group_keys df = map key_of df.
Proof.
  intros Hs Hnd. unfold group_keys.
  rewrite (unique_fixpoint key_eqb key_eqb_spec _ Hnd).
  apply sorted_fixpoint. now apply (strict_Sorted_le key_compare).
Qed.

Lemma filter_none {A : Type} (f : A -> bool) (l : list A) :
  (forall x, In x l -> f x = false) -> filter f l = [].
Proof.
  induction l as [|x l IH]; simpl; intro H; [reflexivity|].
  rewrite (H x (or_introl eq_refl)). apply IH. intros y Hy. apply H. now right.
Qed.

(** In a frame built from distinct keys, the group of a key is its one row. *)
Lemma group_rows_single (f : Key -> Record_) (ks : list Key) (k : Key) :
  (forall k', key_of (f k') = k') -> NoDup ks -> In k ks ->
  group_rows (map f ks) k = [f k].
Proof.
  intros Hf Hnd. unfold group_rows.
  induction Hnd as [|k0 ks Hnotin Hnd IH]; simpl; [contradiction|].
  rewrite Hf. intros [->|Hin].
  - rewrite key_eqb_refl. f_equal.
    apply filter_none. intros x Hx.
    apply in_map_iff in Hx. destruct Hx as [k' [<- Hk']]. rewrite Hf.
    destruct (key_eqb k' k) eqn:E; [|reflexivity].
    apply key_eqb_spec in E. subst. contradiction.
  - destruct (key_eqb k0 k) eqn:E; [|now apply IH].
    apply key_eqb_spec in E. subst. contradiction.
Qed.

Lemma first_non_null_single (series : list Cell) :
  first_non_null [first_non_null series] = first_non_null series.
Proof.
  induction series as [|val rest IH]; simpl; [reflexivity|].
  destruct (non_blank val) eqn:E; [|exact IH].
  simpl. now rewrite E.
Qed.

Lemma non_blank_false (val : Cell) : non_blank val = false -> null_or_blank val.
Proof.
  destruct val as [s|]; simpl; intro H; [|now left].
  right. exists s. split; [reflexivity|].
  apply negb_false_iff in H. now apply String.eqb_eq in H.
Qed.

Lemma first_non_null_spec (series : list Cell) :
  first_present series (first_non_null series).
Proof.
  induction series as [|val rest IH]; simpl.
  - constructor. constructor.
  - destruct (non_blank val) eqn:E.
    + destruct val as [s|]; [|discriminate]. simpl in E.
      apply (first_present_some [] s rest); [constructor|].
      apply negb_true_iff, String.eqb_neq in E. exact E.
    + apply non_blank_false in E.
      inversion IH as [vals Hall|pre s post Hall Hs]; subst.
      * constructor. now constructor.
      * apply (first_present_some (val :: pre) s post); [now constructor|exact Hs].
Qed.

Lemma merge_group_of_single (df out : DataFrame) (k : Key) :
  group_rows out k = [merge_group df k] -> merge_group out k = merge_group df k.
Proof.
  intro H. unfold merge_group at 1. rewrite H.
  unfold merge_group. cbn [map eol_date eosl_date].
  now rewrite !first_non_null_single.
Qed.

Lemma merged_row_inv (df : DataFrame) (row : Record_) :
  In row (remove_duplicates_and_merge df) ->
  row = merge_group df (key_of row) /\ In (key_of row) (map key_of df).
Proof.
  unfold remove_duplicates_and_merge. intro H.
  apply in_map_iff in H. destruct H as [k [<- Hk]].
  rewrite key_of_merge_group. split; [reflexivity|]. now apply group_keys_In.
Qed.

Lemma group_rows_nonempty (df : DataFrame) (k : Key) :
  In k (map key_of df) -> group_rows df k <> [].
Proof.
  intros H E. apply in_map_iff in H. destruct H as [r [<- Hr]].
  assert (Hin : In r (group_rows df (key_of r))).
  { apply filter_In. split; [exact Hr|apply key_eqb_refl]. }
  rewrite E in Hin. exact Hin.
Qed.

End DedupFacts.

Section DedupProperties.
Import Dedup DedupFacts.

(** C3: every (vendor, model) group of the input has a row in the merged
    frame, and every row of the merged frame comes from such a group; in each
    date field the row carries the first value that is neither null nor blank
    among the rows of the group, taken in the frame's original order, and
    null when every value of the group is null or blank.  Post-processing the
    duplicate rows [{CISCO, ModelX, "Aug 1, 2020", ""}] and
    [{CISCO, ModelX, "", "Sep 1, 2021"}] gives the single row
    [{CISCO, ModelX, 2020-08-01T00:00:00+00:00, 2021-09-01T00:00:00+00:00}]. *)
Theorem merge_takes_first_present :
  (forall df k,
      In k (map key_of df) ->
      exists row,
        In row (remove_duplicates_and_merge df)
        /\ key_of row = k
        /\ first_present (map eol_date (group_rows df k)) (eol_date row)
        /\ first_present (map eosl_date (group_rows df k)) (eosl_date row))
  /\ (forall df row,
         In row (remove_duplicates_and_merge df) ->
         group_rows df (key_of row) <> []
         /\ first_present (map eol_date (group_rows df (key_of row))) (eol_date row)
         /\ first_present (map eosl_date (group_rows df (key_of row))) (eosl_date row))
  /\ (forall clock to_datetime_infer HAS_DATEUTIL dateutil_timestamp,
         post_process_eol_df clock to_datetime_infer HAS_DATEUTIL dateutil_timestamp
                             Samples.duplicate_rows
         = Return [mkRecord "CISCO" "ModelX"
                            (Some "2020-08-01T00:00:00+00:00")
                            (Some "2021-09-01T00:00:00+00:00")]).
Proof.
  split; [|split].
  - intros df k Hk. exists (merge_group df k). split; [|split; [|split]].
    + unfold remove_duplicates_and_merge. apply in_map. now apply group_keys_In.
    + apply key_of_merge_group.
    + apply first_non_null_spec.
    + apply first_non_null_spec.
  - intros df row H. apply merged_row_inv in H. destruct H as [E Hin].
    split; [now apply group_rows_nonempty|].
    rewrite E at 2 4. simpl. split; apply first_non_null_spec.
  - intros. vm_compute. reflexivity.
Qed.

Lemma merge_takes_first_present_witness :
  (exists row,
      In row (remove_duplicates_and_merge Samples.unordered_rows)
      /\ key_of row = ("CISCO", "ASA5505")
      /\ first_present
           (map eol_date (group_rows Samples.unordered_rows ("CISCO", "ASA5505")))
           (eol_date row)
      /\ first_present
           (map eosl_date (group_rows Samples.unordered_rows ("CISCO", "ASA5505")))
           (eosl_date row))
  /\ first_present
       (map eol_date (group_rows Samples.unordered_rows ("HPE", "DL380")))
       (Some "2021-06-21T00:00:00+00:00")
  /\ first_present
       (map eosl_date (group_rows Samples.unordered_rows ("HPE", "DL380")))
       (Some "2024-01-01T00:00:00+00:00").
Proof.
  assert (K : In ("CISCO", "ASA5505") (map key_of Samples.unordered_rows)).
  { simpl. right. right. left. reflexivity. }
  assert (H : In (mkRecord "HPE" "DL380" (Some "2021-06-21T00:00:00+00:00")
                           (Some "2024-01-01T00:00:00+00:00"))
                 (remove_duplicates_and_merge Samples.unordered_rows)).
  { vm_compute. right. right. left. reflexivity. }
  split.
  - exact (proj1 merge_takes_first_present Samples.unordered_rows _ K).
  - exact (proj2 (proj1 (proj2 merge_takes_first_present) Samples.unordered_rows _ H)).
Defined.

(** C4: the merged frame holds exactly one row per distinct (vendor, model)
    pair of its input: no key occurs twice, the keys that occur are those of
    the input, and the group of each input key in the output is a single
    row. *)
Theorem merged_keys_exactly_once (df : DataFrame) :
  NoDup (map key_of (remove_duplicates_and_merge df))
  /\ (forall k, In k (map key_of df) <-> In k (map key_of (remove_duplicates_and_merge df)))
  /\ (forall k, In k (map key_of df) ->
                group_rows (remove_duplicates_and_merge df) k = [merge_group df k]).
Proof.
  rewrite merged_keys. split; [apply group_keys_NoDup|]. split.
  - intro k. symmetry. apply group_keys_In.
  - intros k Hk. unfold remove_duplicates_and_merge.
    apply group_rows_single.
    + apply key_of_merge_group.
    + apply group_keys_NoDup.
    + now apply group_keys_In.
Qed.

Lemma merged_keys_exactly_once_witness :
  group_rows (remove_duplicates_and_merge Samples.unordered_rows) ("HPE", "DL380")
  = [merge_group Samples.unordered_rows ("HPE", "DL380")].
Proof.
  apply (proj2 (proj2 (merged_keys_exactly_once Samples.unordered_rows))).
  vm_compute. left. reflexivity.
Defined.

(** C9: deduplication is idempotent: merging the merged frame again gives
    the same frame. *)
Theorem remove_duplicates_and_merge_idempotent (df : DataFrame) :
  remove_duplicates_and_merge (remove_duplicates_and_merge df)
  = remove_duplicates_and_merge df.
Proof.
  assert (K : group_keys (remove_duplicates_and_merge df) = group_keys df).
  { rewrite group_keys_fixpoint; rewrite merged_keys;
      auto using group_keys_sorted, group_keys_NoDup. }
  unfold remove_duplicates_and_merge at 1. rewrite K.
  unfold remove_duplicates_and_merge at 2.
  apply map_ext_in. intros k Hk.
  apply merge_group_of_single. unfold remove_duplicates_and_merge.
  apply group_rows_single; auto using key_of_merge_group, group_keys_NoDup.
Qed.

(** C10: whatever the order in which the rows arrive, the rows of the merged
    frame are in strictly ascending lexicographic order of their
    (vendor, model) key; on a sample frame that order differs from the order
    of arrival. *)
Theorem merged_rows_sorted_by_key :
  (forall df, StronglySorted key_lt (map key_of (remove_duplicates_and_merge df)))
  /\ map key_of Samples.unordered_rows
     = [("HPE", "DL380"); ("CISCO", "WS-C3750"); ("CISCO", "ASA5505"); ("HPE", "DL380")]
  /\ map key_of (remove_duplicates_and_merge Samples.unordered_rows)
     = [("CISCO", "ASA5505"); ("CISCO", "WS-C3750"); ("HPE", "DL380")].
Proof.
  split; [|split; reflexivity].
  intro df. rewrite merged_keys. apply group_keys_sorted.
Qed.

End DedupProperties.

(** ** More on paginated scraping *)
Section PaginationRuns.
Import Html Scraper.

Variable http_get : option Z -> result Node.
Variable max_pages : Z.

Local Abbreviation fetch := (fetch_page http_get).
Local Abbreviation rows := (page_rows http_get).
Local Abbreviation loop := (while_loop http_get).

Lemma pages_from_app (n m : nat) :
  forall start, pages_from start (n + m)
                = pages_from start n ++ pages_from (start + Z.of_nat n)%Z m.
Proof.
  induction n as [|n IH]; intro start; simpl.
  - now rewrite Z.add_0_r.
  - rewrite IH. do 3 f_equal. lia.
Qed.

Lemma pages_from_snoc (n : nat) (start : Z) :
  pages_from start (S n) = (pages_from start n ++ [(start + Z.of_nat n)%Z])%list.
Proof.
  replace (S n) with (n + 1)%nat by lia. now rewrite pages_from_app.
Qed.

Lemma pages_from_length (n : nat) (start : Z) : List.length (pages_from start n) = n.
Proof. revert start. induction n; intro; simpl; auto. Qed.

(** What a finished loop has done: it asked for consecutive pages, never
    beyond [max_pages]; the frames it holds are those of the pages asked for
    (an empty last page adds no row); an exception is that of the last page
    asked for. *)
Lemma while_loop_run (fuel : nat) :
  forall page all_dfs fetched out r,
    loop fuel max_pages page all_dfs fetched = Some (out, r) ->
    exists n,
      out = fetched ++ pages_from page n
      /\ (n = 0%nat \/ (page + Z.of_nat n <= max_pages + 1)%Z)
      /\ match r with
         | Return dfs =>
             List.concat dfs
             = List.concat all_dfs ++ List.concat (map rows (pages_from page n))
         | Raise e =>
             exists k, n = S k /\ fetch (page + Z.of_nat k)%Z = Raise e
         end.
Proof.
  induction fuel as [|fuel IH]; intros page all_dfs fetched out r H; simpl in H.
  - destruct (page <=? max_pages)%Z; [discriminate|].
    inversion H; subst. exists 0%nat. simpl. rewrite !app_nil_r. auto.
  - destruct (page <=? max_pages)%Z eqn:E.
    2:{ inversion H; subst. exists 0%nat. simpl. rewrite !app_nil_r. auto. }
    apply Z.leb_le in E.
    destruct (fetch page) as [df|e] eqn:F.
    + destruct (empty df) eqn:Em.
      * inversion H; subst. exists 1%nat. simpl. split; [reflexivity|].
        split; [right; lia|].
        rewrite (page_rows_fetched http_get page df F).
        destruct df; [|discriminate]. simpl. now rewrite app_nil_r.
      * apply IH in H. destruct H as [n [Ho [Hb Hr]]].
        exists (S n). simpl. split; [now rewrite Ho, <- app_assoc|].
        split; [right; destruct Hb as [->|Hb]; lia|].
        destruct r as [dfs|e].
        -- rewrite Hr, concat_app. simpl.
           rewrite (page_rows_fetched http_get page df F).
           now rewrite app_nil_r, <- app_assoc.
        -- destruct Hr as [k [-> Hk]]. exists (S k). split; [reflexivity|].
           rewrite <- Hk. f_equal. lia.
    + inversion H; subst. exists 1%nat. simpl. split; [reflexivity|].
      split; [right; lia|]. exists 0%nat. split; [reflexivity|].
      now rewrite Z.add_0_r.
Qed.

(** The loop stops at the first page whose fetch raises. *)
Lemma while_loop_first_error (n : nat) :
  forall fuel page all_dfs fetched e,
    (n < fuel)%nat ->
    (page + Z.of_nat n <= max_pages)%Z ->
    (forall p, (page <= p < page + Z.of_nat n)%Z -> nonempty_page http_get p) ->
    fetch (page + Z.of_nat n)%Z = Raise e ->
    loop fuel max_pages page all_dfs fetched
    = Some (fetched ++ pages_from page (S n), Raise e).
Proof.
  induction n as [|n IH]; intros fuel page all_dfs fetched e Hfuel Hmax Hne Herr;
    (destruct fuel as [|fuel]; [lia|]); simpl.
  - rewrite Z.add_0_r in *.
    replace (page <=? max_pages)%Z with true by (symmetry; apply Z.leb_le; lia).
    now rewrite Herr.
  - replace (page <=? max_pages)%Z with true by (symmetry; apply Z.leb_le; lia).
    destruct (nonempty_page_step http_get page) as [df [Hf [He Hr]]]; [apply Hne; lia|].
    rewrite Hf, He.
    rewrite (IH fuel (page + 1)%Z _ _ e); try lia.
    + simpl. now rewrite <- !app_assoc.
    + intros p Hp. apply Hne. lia.
    + rewrite <- Herr. f_equal. lia.
Qed.

End PaginationRuns.

Section PaginationExtras.
Import Html Scraper.

(** X1: whatever a run of [scrape_vendor_eol_url] (or of [scraper.scrape_url])
    ends with, the pages it asked for are 1, 2, ..., n in this order, with n at
    most [max_pages] (no page when [max_pages] is below 1).  When the run
    returns, its rows are those of the pages asked for, in page order; when it
    raises, the exception is that of page n, the last one asked for. *)
Theorem scrape_run_shape (http_get : option Z -> result Node) (max_pages : Z)
        (fetched : list Z) (r : result DataFrame) :
  scrape_vendor_eol_url http_get max_pages = Some (fetched, r) ->
  exists n,
    fetched = pages_from 1%Z n
    /\ (Z.of_nat n <= Z.max 0 max_pages)%Z
    /\ match r with
       | Return rows => rows = List.concat (map (page_rows http_get) fetched)
       | Raise e => (1 <= n)%nat /\ fetch_page http_get (Z.of_nat n) = Raise e
       end.
Proof.
  unfold scrape_vendor_eol_url.
  destruct (while_loop http_get (Z.to_nat max_pages) max_pages 1%Z [] [])
    as [[out r']|] eqn:E; [|discriminate].
  apply while_loop_run in E. destruct E as [n [Ho [Hb Hr]]]. simpl in Ho.
  intro H. exists n.
  assert (Hn : (Z.of_nat n <= Z.max 0 max_pages)%Z) by (destruct Hb as [->|Hb]; lia).
  destruct r' as [dfs|e]; inversion H; subst; (split; [reflexivity|split; [exact Hn|]]).
  - simpl in Hr. rewrite <- Hr. now destruct dfs.
  - destruct Hr as [k [-> Hk]]. split; [lia|].
    rewrite <- Hk. f_equal. lia.
Qed.

Lemma scrape_run_shape_witness :
  Scraper.scrape_vendor_eol_url Cases.failing_site 5
  = Some ([1; 2]%Z, Raise HTTPError)
  /\ exists n,
       [1; 2]%Z = Scraper.pages_from 1%Z n
       /\ (Z.of_nat n <= Z.max 0 5)%Z
       /\ (1 <= n)%nat
       /\ Scraper.fetch_page Cases.failing_site (Z.of_nat n) = Raise HTTPError.
Proof.
  assert (H : Scraper.scrape_vendor_eol_url Cases.failing_site 5
              = Some ([1; 2]%Z, Raise HTTPError)) by (vm_compute; reflexivity).
  split; [exact H|].
  exact (scrape_run_shape Cases.failing_site 5 [1; 2]%Z (Raise HTTPError) H).
Defined.

(** X2: the scraper does not catch what [fetch_page] raises (a network
    failure, an error status, a table without [tbody]).  When the pages before
    [k] have rows, [k] is within [max_pages] and fetching page [k] raises, the
    scrape asks for the pages 1 to [k] and raises that exception: the rows of
    the earlier pages are not returned. *)
Theorem scrape_stops_at_error (http_get : option Z -> result Node) (max_pages k : Z)
        (e : exn) :
  (1 <= k <= max_pages)%Z ->
  (forall p, (1 <= p < k)%Z -> nonempty_page http_get p) ->
  fetch_page http_get k = Raise e ->
  scrape_vendor_eol_url http_get max_pages = Some (pages_from 1%Z (Z.to_nat k), Raise e).
Proof.
  intros Hk Hne Herr. unfold scrape_vendor_eol_url.
  replace (Z.to_nat k) with (S (Z.to_nat (k - 1))) by lia.
  rewrite (while_loop_first_error http_get max_pages (Z.to_nat (k - 1))
             (Z.to_nat max_pages) 1%Z [] [] e); try lia; try reflexivity.
  - intros p Hp. apply Hne. lia.
  - rewrite <- Herr. f_equal. lia.
Qed.

Lemma scrape_stops_at_error_witness :
  Scraper.scrape_vendor_eol_url Cases.failing_site 5
  = Some ([1; 2]%Z, Raise HTTPError).
Proof.
  apply (scrape_stops_at_error Cases.failing_site 5 2 HTTPError).
  - lia.
  - intros p Hp. assert (p = 1%Z) by lia. subst p.
    eexists. split; [vm_compute; reflexivity|discriminate].
  - reflexivity.
Defined.

Lemma while_loop_ext (http1 http2 : option Z -> result Node) (max_pages : Z) (fuel : nat) :
  (forall p, (1 <= p <= max_pages)%Z -> fetch_page http1 p = fetch_page http2 p) ->
  forall page all_dfs fetched,
    (1 <= page)%Z ->
    while_loop http1 fuel max_pages page all_dfs fetched
    = while_loop http2 fuel max_pages page all_dfs fetched.
Proof.
  intro Hf. induction fuel as [|fuel IH]; intros page all_dfs fetched Hp; simpl.
  - reflexivity.
  - destruct (page <=? max_pages)%Z eqn:E; [|reflexivity].
    apply Z.leb_le in E. rewrite (Hf page) by lia.
    destruct (fetch_page http2 page) as [df|e]; [|reflexivity].
    destruct (empty df); [reflexivity|]. apply IH. lia.
Qed.

(** X3: a scrape reads a section only through the requests it makes: the
    base URL without a [page] parameter for page 1, and [page=p] for each
    [2 <= p <= max_pages].  Two sections that answer these requests alike give
    the same run; what a section answers to [page=1], or beyond [max_pages],
    does not matter. *)
Theorem scrape_depends_on_requests (http1 http2 : option Z -> result Node) (max_pages : Z) :
  http1 None = http2 None ->
  (forall p, (2 <= p <= max_pages)%Z -> http1 (Some p) = http2 (Some p)) ->
  scrape_vendor_eol_url http1 max_pages = scrape_vendor_eol_url http2 max_pages.
Proof.
  intros H1 Hp. unfold scrape_vendor_eol_url.
  rewrite (while_loop_ext http1 http2 max_pages); [reflexivity| |lia].
  intros p Hr. unfold fetch_page, page_params.
  destruct (1 <? p)%Z eqn:E.
  - apply Z.ltb_lt in E. rewrite Hp by lia. reflexivity.
  - now rewrite H1.
Qed.

Lemma scrape_depends_on_requests_witness :
  Samples.three_page_site (Some 3%Z) <> Cases.timeout_on_page_three (Some 3%Z)
  /\ Scraper.scrape_vendor_eol_url Samples.three_page_site 2
     = Scraper.scrape_vendor_eol_url Cases.timeout_on_page_three 2.
Proof.
  split; [discriminate|].
  apply (scrape_depends_on_requests Samples.three_page_site Cases.timeout_on_page_three 2).
  - reflexivity.
  - intros p Hp. assert (p = 2%Z) by lia. subst p. reflexivity.
Defined.

End PaginationExtras.

(** ** Stripped text *)
Module StripFacts.
Import PyStr.

Lemma lstrip_head_ok (p : ascii -> bool) (s : string) : head_ok p (lstrip_by p s) = true.
Proof.
  induction s as [|c s IH]; simpl; [reflexivity|].
  destruct (p c) eqn:E; [exact IH|]. simpl. now rewrite E.
Qed.

Lemma head_ok_lstrip (p : ascii -> bool) (s : string) :
  head_ok p s = true -> lstrip_by p s = s.
Proof.
  destruct s as [|c s]; simpl; [reflexivity|].
  intro H. apply negb_true_iff in H. now rewrite H.
Qed.

Lemma rstrip_head_ok (p : ascii -> bool) (s : string) :
  head_ok p s = true -> head_ok p (rstrip_by p s) = true.
Proof.
  destruct s as [|c s]; simpl; [reflexivity|].
  intro H. destruct (rstrip_by p s); [|exact H].
  apply negb_true_iff in H. rewrite H. simpl. now rewrite H.
Qed.

Lemma rstrip_idem (p : ascii -> bool) (s : string) :
  rstrip_by p (rstrip_by p s) = rstrip_by p s.
Proof.
  induction s as [|c s IH]; simpl; [reflexivity|].
  destruct (rstrip_by p s) as [|c' r] eqn:E.
  - destruct (p c) eqn:Ec; simpl; [reflexivity|]. now rewrite Ec.
  - change (rstrip_by p (String c (String c' r)))
      with (match rstrip_by p (String c' r) with
            | EmptyString => if p c then EmptyString else String c EmptyString
            | r0 => String c r0
            end).
    now rewrite IH.
Qed.

Lemma strip_idem (s : string) : strip (strip s) = strip s.
Proof.
  unfold strip.
  rewrite (head_ok_lstrip isspace (rstrip_by isspace (lstrip_by isspace s))).
  - apply rstrip_idem.
  - apply rstrip_head_ok, lstrip_head_ok.
Qed.

Lemma strip_empty : strip "" = "".
Proof. reflexivity. Qed.

Lemma trimmed_parts (s : string) :
  strip s = s -> head_ok isspace s = true /\ rstrip_by isspace s = s.
Proof.
  intro H. split.
  - rewrite <- H. unfold strip. apply rstrip_head_ok, lstrip_head_ok.
  - rewrite <- H at 1. unfold strip. rewrite rstrip_idem. exact H.
Qed.

Lemma trimmed_of_parts (s : string) :
  head_ok isspace s = true -> rstrip_by isspace s = s -> strip s = s.
Proof. intros H1 H2. unfold strip. now rewrite (head_ok_lstrip _ _ H1). Qed.

Lemma trimmed_app (a b : string) :
  a <> "" -> b <> "" -> strip a = a -> strip b = b -> strip (a ++ b) = (a ++ b)%string.
Proof.
  intros Ha Hb Sa Sb.
  destruct (trimmed_parts a Sa) as [Ha1 _]. destruct (trimmed_parts b Sb) as [_ Hb2].
  apply trimmed_of_parts.
  - destruct a; [contradiction|exact Ha1].
  - now apply DatesFacts.rstrip_app.
Qed.

End StripFacts.

Section ExtractedText.
Import Html StripFacts.

Lemma stripped_strings_trimmed (l : list Node) :
  Forall (fun t => t <> "" /\ PyStr.strip t = t) (stripped_strings l).
Proof.
  induction l as [|n l IH]; simpl; [constructor|].
  destruct n as [name cs|s]; [exact IH|].
  destruct (PyStr.truthy (PyStr.strip s)) eqn:E; [|exact IH].
  constructor; [|exact IH]. split.
  - intro H. rewrite H in E. discriminate.
  - apply strip_idem.
Qed.

Lemma concat_trimmed (l : list string) :
  Forall (fun t => t <> "" /\ PyStr.strip t = t) l ->
  PyStr.strip (String.concat "" l) = String.concat "" l
  /\ (l <> [] -> String.concat "" l <> "").
Proof.
  induction 1 as [|t l [Hne Ht] Hl IH]; simpl.
  - split; [reflexivity|]. intro H. now contradiction H.
  - destruct l as [|t' l'].
    + split; [exact Ht|]. intros _. exact Hne.
    + destruct IH as [IH1 IH2]. split.
      * apply trimmed_app; auto. apply IH2. discriminate.
      * intros _ H. destruct t; [now contradiction Hne|discriminate].
Qed.

Lemma get_text_strip_trimmed (n : Node) : trimmed (get_text_strip n).
Proof.
  unfold trimmed. destruct n as [name cs|s].
  - apply concat_trimmed, stripped_strings_trimmed.
  - apply strip_idem.
Qed.

(** X4: every text of a row that table extraction returns (model, EOL date,
    EOSL date) is stripped: it has no blank at either end, as
    [get_text(strip=True)] builds it from stripped, non-empty pieces. *)
Theorem extracted_rows_are_trimmed (soup : Node) (rows : DataFrame) (r : Row) :
  extract_table soup = Return rows -> In r rows ->
  trimmed (model r) /\ trimmed (eol_date r) /\ trimmed (eosl_date r).
Proof.
  unfold extract_table. destruct (main_table soup) as [table|].
  2:{ intros H. inversion H; subst. contradiction. }
  destruct (find table "tbody") as [tbody|]; [|discriminate].
  intros H Hin. inversion H; subst. clear H.
  apply in_flat_map in Hin. destruct Hin as [tr [_ Hr]].
  unfold row_of_tr in Hr.
  destruct (find_all tr "td") as [|td0 [|td1 [|td2 [|td3 tds]]]]; try contradiction.
  destruct Hr as [<-|[]]. simpl. auto using get_text_strip_trimmed.
Qed.

Lemma extracted_rows_are_trimmed_witness :
  Html.extract_table Cases.padded_page
  = Return [Html.mkRow "WS-C2960-24TT-L" "Oct 31, 2014" ""]
  /\ trimmed "WS-C2960-24TT-L" /\ trimmed "Oct 31, 2014" /\ trimmed "".
Proof.
  assert (H : Html.extract_table Cases.padded_page
              = Return [Html.mkRow "WS-C2960-24TT-L" "Oct 31, 2014" ""])
    by (vm_compute; reflexivity).
  split; [exact H|].
  exact (extracted_rows_are_trimmed Cases.padded_page _
           (Html.mkRow "WS-C2960-24TT-L" "Oct 31, 2014" "") H (or_introl eq_refl)).
Defined.

End ExtractedText.

(** ** More on date normalisation *)
Section NormalizerRuns.
Import Dates DatesFacts StripFacts.

Variable clock : string -> Timestamp.
Variable to_datetime_infer : string -> option Timestamp.
Variable HAS_DATEUTIL : bool.
Variable dateutil_timestamp : string -> result Timestamp.

Local Abbreviation parse :=
  (parse_date_robust clock to_datetime_infer HAS_DATEUTIL dateutil_timestamp).
Local Abbreviation norm := (normalize clock to_datetime_infer HAS_DATEUTIL dateutil_timestamp).

Lemma blank_guard_strip (s : string) :
  negb (PyStr.truthy (PyStr.strip s)) || String.eqb (PyStr.strip (PyStr.strip s)) ""
  = negb (PyStr.truthy s) || String.eqb (PyStr.strip s) "".
Proof.
  rewrite strip_idem. destruct s as [|c s]; [reflexivity|].
  destruct (PyStr.strip (String c s)); reflexivity.
Qed.

Lemma parse_strip (s : string) : parse (Some (PyStr.strip s)) = parse (Some s).
Proof.
  unfold parse_date_robust. rewrite blank_guard_strip. now rewrite strip_idem.
Qed.

(** What [parse_date_robust] does on a text that is not blank, read on the
    stripped text [t]. *)
Lemma parse_nonblank_text (s : string) :
  PyStr.strip s <> "" ->
  parse (Some s)
  = let t := PyStr.strip s in
    match to_datetime_abbr clock t with
    | Some dt => Return (Some dt)
    | None =>
        match to_datetime_full clock t with
        | Some dt => Return (Some dt)
        | None =>
            match to_datetime_infer t with
            | Some dt => Return (Some dt)
            | None =>
                if HAS_DATEUTIL then
                  match dateutil_timestamp t with
                  | Return dt => Return (Some dt)
                  | Raise e => if caught_by_fallback e then Return None else Raise e
                  end
                else Return None
            end
        end
    end.
Proof.
  intro H. unfold parse_date_robust.
  replace (negb (PyStr.truthy s) || String.eqb (PyStr.strip s) "") with false; [reflexivity|].
  symmetry. apply orb_false_iff. split.
  - destruct s; [now contradiction H|reflexivity].
  - now apply String.eqb_neq.
Qed.

Lemma parse_blank_text (s : string) : PyStr.strip s = "" -> parse (Some s) = Return None.
Proof.
  intro H. unfold parse_date_robust. rewrite H. simpl. now rewrite orb_true_r.
Qed.

Lemma normalize_raise_parse (c : option string) (e : exn) :
  norm c = Raise e <-> parse c = Raise e.
Proof.
  unfold normalize. destruct (parse c); simpl; split; intro H; congruence.
Qed.

End NormalizerRuns.

Section NormalizerExtras.
Import Dates DatesFacts StripFacts.

(** X5: blanks around a date text do not change its normalisation: a cell
    and its stripped text give the same result, or raise the same
    exception. *)
Theorem normalize_ignores_surrounding_blanks
        (clock : string -> Timestamp)
        (to_datetime_infer : string -> option Timestamp) (HAS_DATEUTIL : bool)
        (dateutil_timestamp : string -> result Timestamp) (s : string) :
  normalize clock to_datetime_infer HAS_DATEUTIL dateutil_timestamp (Some (PyStr.strip s))
  = normalize clock to_datetime_infer HAS_DATEUTIL dateutil_timestamp (Some s).
Proof. unfold normalize. now rewrite parse_strip. Qed.

(** X6: date normalisation raises in exactly one situation: the cell holds a
    text that is not blank once stripped, the three [pd.to_datetime]
    strategies give NaT on the stripped text, [dateutil] is installed, and its
    parser raises an exception that is none of [ValueError], [TypeError],
    [AttributeError].  The exception that leaves [parse_date_robust] is that
    one. *)
Theorem normalize_raises_iff
        (clock : string -> Timestamp)
        (to_datetime_infer : string -> option Timestamp) (HAS_DATEUTIL : bool)
        (dateutil_timestamp : string -> result Timestamp) (c : option string) (e : exn) :
  normalize clock to_datetime_infer HAS_DATEUTIL dateutil_timestamp c = Raise e
  <-> exists s,
      c = Some s
      /\ PyStr.strip s <> ""
      /\ to_datetime_abbr clock (PyStr.strip s) = None
      /\ to_datetime_full clock (PyStr.strip s) = None
      /\ to_datetime_infer (PyStr.strip s) = None
      /\ HAS_DATEUTIL = true
      /\ dateutil_timestamp (PyStr.strip s) = Raise e
      /\ caught_by_fallback e = false.
Proof.
  rewrite normalize_raise_parse. split.
  - destruct c as [s|]; [|discriminate]. intro H. exists s. split; [reflexivity|].
    destruct (String.eqb (PyStr.strip s) "") eqn:E.
    + apply String.eqb_eq in E. rewrite parse_blank_text in H by exact E. discriminate.
    + apply String.eqb_neq in E. rewrite parse_nonblank_text in H by exact E.
      cbv zeta in H. split; [exact E|].
      destruct (to_datetime_abbr clock (PyStr.strip s)); [discriminate|].
      destruct (to_datetime_full clock (PyStr.strip s)); [discriminate|].
      destruct (to_datetime_infer (PyStr.strip s)); [discriminate|].
      destruct HAS_DATEUTIL; [|discriminate].
      destruct (dateutil_timestamp (PyStr.strip s)) as [dt|e']; [discriminate|].
      destruct (caught_by_fallback e') eqn:C; [discriminate|].
      inversion H; subst. auto 10.
  - intros [s [-> [Hne [Ha [Hf [Hi [Hd [Hr Hc]]]]]]]].
    rewrite parse_nonblank_text by exact Hne. cbv zeta.
    now rewrite Ha, Hf, Hi, Hd, Hr, Hc.
Qed.

(** X7: the strategies are tried in order and the first success decides:
    when one of the three [pd.to_datetime] strategies parses the stripped
    text, the result depends neither on whether [dateutil] is installed nor on
    what its parser would answer. *)
Theorem normalize_first_success_wins
        (clock : string -> Timestamp)
        (to_datetime_infer : string -> option Timestamp)
        (has1 has2 : bool) (du1 du2 : string -> result Timestamp) (s : string) :
  to_datetime_abbr clock (PyStr.strip s) <> None
  \/ to_datetime_full clock (PyStr.strip s) <> None
  \/ to_datetime_infer (PyStr.strip s) <> None ->
  normalize clock to_datetime_infer has1 du1 (Some s)
  = normalize clock to_datetime_infer has2 du2 (Some s).
Proof.
  intro H. unfold normalize.
  destruct (String.eqb (PyStr.strip s) "") eqn:E.
  - apply String.eqb_eq in E. now rewrite !parse_blank_text.
  - apply String.eqb_neq in E. rewrite !parse_nonblank_text by exact E. cbv zeta.
    destruct (to_datetime_abbr clock (PyStr.strip s)); [reflexivity|].
    destruct (to_datetime_full clock (PyStr.strip s)); [reflexivity|].
    destruct (to_datetime_infer (PyStr.strip s)); [reflexivity|].
    destruct H as [H|[H|H]]; now contradiction H.
Qed.

Lemma normalize_first_success_wins_witness :
  Dates.normalize Samples.frozen_clock Samples.infer_nat true Samples.dateutil_overflow
                  (Some " Aug 31, 2022 ")
  = Dates.normalize Samples.frozen_clock Samples.infer_nat false Samples.dateutil_overflow
                    (Some " Aug 31, 2022 ").
Proof.
  apply (normalize_first_success_wins Samples.frozen_clock Samples.infer_nat true false
           Samples.dateutil_overflow Samples.dateutil_overflow " Aug 31, 2022 ").
  left. vm_compute. discriminate.
Defined.

End NormalizerExtras.

Section ConvertExtras.
Import Dates DatesFacts.

Lemma app_empty_r (s : string) : (s ++ "")%string = s.
Proof. induction s as [|c s IH]; simpl; [reflexivity|now rewrite IH]. Qed.

Lemma isoformat_utc (y mo d h mi sec us ns : Z) :
  isoformat (mkTimestamp y mo d h mi sec us ns (Some 0%Z))
  = (isoformat (mkTimestamp y mo d h mi sec us ns None) ++ "+00:00")%string.
Proof.
  unfold isoformat. simpl tzinfo. cbn [year month day hour minute second microsecond nanosecond].
  change (format_offset 0) with "+00:00".
  rewrite !string_app_assoc. repeat f_equal.
Qed.

(** X8: [convert_to_utc_iso] turns every timestamp, naive or zone-aware,
    into a text that ends with the offset [+00:00]; a naive timestamp keeps
    its clock reading and only gains the offset (it is taken to be UTC). *)
Theorem convert_to_utc_iso_offset (ts : Timestamp) :
  utc_iso (convert_to_utc_iso (Some ts))
  /\ (tzinfo ts = None ->
      convert_to_utc_iso (Some ts) = Some (isoformat ts ++ "+00:00")%string).
Proof.
  split.
  - right. unfold convert_to_utc_iso. destruct (tzinfo ts) as [off|].
    + unfold astimezone_utc.
      destruct (civil_from_days _) as [[y mo] d]. eexists. now rewrite isoformat_utc.
    + unfold replace_tzinfo_utc. eexists. now rewrite isoformat_utc.
  - intro H. unfold convert_to_utc_iso. rewrite H. unfold replace_tzinfo_utc.
    rewrite isoformat_utc. destruct ts; simpl in *. now subst.
Qed.

End ConvertExtras.

(** ** Post-processing as a whole *)
Module PostProcessFacts.
Import Dedup DedupFacts.

Lemma apply_Forall2 {A B : Type} (f : A -> result B) (series : list A) :
  forall out, apply f series = Return out ->
              Forall2 (fun x y => f x = Return y) series out.
Proof.
  induction series as [|x rest IH]; simpl; intros out H.
  - inversion H. constructor.
  - destruct (f x) as [y|e] eqn:E; [|discriminate]. simpl in H.
    destruct (apply f rest) as [ys|e]; [|discriminate]. simpl in H.
    inversion H; subst. constructor; auto.
Qed.

Lemma apply_returns {A B : Type} (f : A -> result B) (series : list A) :
  (forall x, In x series -> exists y, f x = Return y) ->
  exists out, apply f series = Return out.
Proof.
  induction series as [|x rest IH]; simpl; intro H; [eauto|].
  destruct (H x (or_introl eq_refl)) as [y ->]. simpl.
  destruct IH as [ys ->]; [intros; apply H; now right|]. simpl. eauto.
Qed.

Lemma apply_raises {A B : Type} (f : A -> result B) (series : list A) (e : exn) :
  apply f series = Raise e -> exists x, In x series /\ f x = Raise e.
Proof.
  induction series as [|x rest IH]; simpl; intro H; [discriminate|].
  destruct (f x) as [y|e'] eqn:E; simpl in H.
  - destruct (apply f rest) as [ys|e'']; simpl in H; [discriminate|].
    inversion H; subst. destruct IH as [x' [Hin Hx]]; [reflexivity|]. eauto.
  - inversion H; subst. eauto.
Qed.

Lemma first_non_null_In (series : list Cell) :
  first_non_null series = None \/ In (first_non_null series) series.
Proof.
  induction series as [|val rest IH]; simpl; [now left|].
  destruct (non_blank val); [right; now left|].
  destruct IH; [now left|right; now right].
Qed.

Lemma unique_length {A : Type} (eqb : A -> A -> bool) (l : list A) :
  (List.length (unique eqb l) <= List.length l)%nat.
Proof.
  induction l as [|x l IH]; simpl; [lia|].
  pose proof (filter_length_le (fun y => negb (eqb x y)) (unique eqb l)). lia.
Qed.

Lemma merged_length (df : DataFrame) :
  (List.length (remove_duplicates_and_merge df) <= List.length df)%nat.
Proof.
  unfold remove_duplicates_and_merge, group_keys. rewrite length_map.
  rewrite <- (Permutation_length (sorted_perm key_leb _)).
  eapply Nat.le_trans; [apply unique_length|]. now rewrite length_map.
Qed.

(** Every row of the merged frame takes its key from a row of the input and
    each of its date cells is null or a cell of the input. *)
Lemma merged_row_cells (df : DataFrame) (row : Record_) :
  In row (remove_duplicates_and_merge df) ->
  (exists r, In r df /\ vendor row = vendor r /\ model row = model r)
  /\ (eol_date row = None \/ exists r, In r df /\ eol_date row = eol_date r)
  /\ (eosl_date row = None \/ exists r, In r df /\ eosl_date row = eosl_date r).
Proof.
  intro H. apply merged_row_inv in H. destruct H as [E Hk].
  assert (G : forall (col : Record_ -> Cell),
             first_non_null (map col (group_rows df (key_of row))) = None
             \/ exists r, In r df
                          /\ first_non_null (map col (group_rows df (key_of row))) = col r).
  { intro col. destruct (first_non_null_In (map col (group_rows df (key_of row)))) as [N|I];
      [now left|right].
    apply in_map_iff in I. destruct I as [r [Hr Hin]].
    apply filter_In in Hin. exists r. split; [tauto|now symmetry]. }
  split; [|split].
  - apply in_map_iff in Hk. destruct Hk as [r [Hr Hin]]. exists r.
    unfold key_of in Hr. inversion Hr. auto.
  - rewrite E. simpl. apply G.
  - rewrite E. simpl. apply G.
Qed.

Section WithParsers.
Variable clock : string -> Dates.Timestamp.
Variable to_datetime_infer : string -> option Dates.Timestamp.
Variable HAS_DATEUTIL : bool.
Variable dateutil_timestamp : string -> result Dates.Timestamp.

Local Abbreviation parse :=
  (Dates.parse_date_robust clock to_datetime_infer HAS_DATEUTIL dateutil_timestamp).
Local Abbreviation norm :=
  (Dates.normalize clock to_datetime_infer HAS_DATEUTIL dateutil_timestamp).
Local Abbreviation column :=
  (convert_column clock to_datetime_infer HAS_DATEUTIL dateutil_timestamp).
Local Abbreviation post :=
  (post_process_eol_df clock to_datetime_infer HAS_DATEUTIL dateutil_timestamp).

Lemma convert_column_cells (col out : list Cell) :
  column col = Return out -> Forall2 (fun c c' => norm c = Return c') col out.
Proof.
  unfold convert_column. destruct (apply parse col) as [parsed|e] eqn:E; [|discriminate].
  simpl. intro H. inversion H; subst. clear H.
  apply apply_Forall2 in E. induction E as [|c x col parsed Hc _ IH]; simpl; constructor; auto.
  unfold Dates.normalize. now rewrite Hc.
Qed.

Lemma convert_column_returns (col : list Cell) :
  (forall c, In c col -> exists c', norm c = Return c') ->
  exists out, column col = Return out.
Proof.
  intro H. unfold convert_column.
  destruct (apply_returns parse col) as [parsed ->]; [|simpl; eauto].
  intros c Hc. destruct (H c Hc) as [c' Hn]. unfold Dates.normalize in Hn.
  destruct (parse c); [eauto|discriminate].
Qed.

Lemma convert_column_raises (col : list Cell) (e : exn) :
  column col = Raise e -> exists c, In c col /\ norm c = Raise e.
Proof.
  unfold convert_column. destruct (apply parse col) as [parsed|e'] eqn:E; [discriminate|].
  simpl. intro H. inversion H; subst. apply apply_raises in E.
  destruct E as [c [Hin Hc]]. exists c. split; [exact Hin|].
  unfold Dates.normalize. now rewrite Hc.
Qed.

(** The frame that [post_process_eol_df] hands to the merge: row by row,
    the vendor in upper case, the model, and the two cells normalised. *)
Lemma from_columns_rows (df : DataFrame) :
  forall eols eosls,
    Forall2 (fun c c' => norm c = Return c') (map eol_date df) eols ->
    Forall2 (fun c c' => norm c = Return c') (map eosl_date df) eosls ->
    Forall2 (fun r row =>
               vendor row = PyStr.upper (vendor r) /\ model row = model r
               /\ norm (eol_date r) = Return (eol_date row)
               /\ norm (eosl_date r) = Return (eosl_date row))
            df
            (from_columns (map (fun r => PyStr.upper (vendor r)) df) (map model df)
                          eols eosls).
Proof.
  induction df as [|r df IH]; simpl; intros eols eosls H1 H2.
  - constructor.
  - inversion H1; subst. inversion H2; subst. constructor; auto.
Qed.

Lemma post_process_inv (df out : DataFrame) :
  post df = Return out ->
  exists normalised,
    out = remove_duplicates_and_merge normalised
    /\ Forall2 (fun r row =>
                  vendor row = PyStr.upper (vendor r) /\ model row = model r
                  /\ norm (eol_date r) = Return (eol_date row)
                  /\ norm (eosl_date r) = Return (eosl_date row))
               df normalised.
Proof.
  unfold post_process_eol_df.
  destruct (column (map eol_date df)) as [eols|e] eqn:E1; [|discriminate]. simpl.
  destruct (column (map eosl_date df)) as [eosls|e] eqn:E2; [|discriminate]. simpl.
  intro H. inversion H; subst. eexists. split; [reflexivity|].
  apply from_columns_rows; now apply convert_column_cells.
Qed.

Lemma normalize_utc_iso (c c' : Cell) : norm c = Return c' -> utc_iso c'.
Proof.
  unfold Dates.normalize. destruct (parse c) as [x|e]; [|discriminate].
  simpl. intro H. inversion H; subst. destruct x as [ts|]; [|now left].
  right. unfold Dates.convert_to_utc_iso. destruct (Dates.tzinfo ts) as [off|].
  - unfold Dates.astimezone_utc.
    destruct (Dates.civil_from_days _) as [[y mo] d]. eexists. now rewrite isoformat_utc.
  - unfold Dates.replace_tzinfo_utc. eexists. now rewrite isoformat_utc.
Qed.

End WithParsers.

End PostProcessFacts.

Section PostProcessExtras.
Import Dedup DedupFacts PostProcessFacts.

Variable clock : string -> Dates.Timestamp.
Variable to_datetime_infer : string -> option Dates.Timestamp.
Variable HAS_DATEUTIL : bool.
Variable dateutil_timestamp : string -> result Dates.Timestamp.

Local Abbreviation norm :=
  (Dates.normalize clock to_datetime_infer HAS_DATEUTIL dateutil_timestamp).
Local Abbreviation post :=
  (post_process_eol_df clock to_datetime_infer HAS_DATEUTIL dateutil_timestamp).

(** X9: when [post_process_eol_df] returns, the rows of its result have
    strictly ascending (vendor, model) keys and are no more than the input
    rows; each row carries the upper-cased vendor and the model of some input
    row, and each of its date cells is null or a text that ends with
    [+00:00]. *)
Theorem post_process_output_invariant (df out : DataFrame) :
  post df = Return out ->
  StronglySorted key_lt (map key_of out)
  /\ (List.length out <= List.length df)%nat
  /\ forall row, In row out ->
       (exists r, In r df /\ vendor row = PyStr.upper (vendor r) /\ model row = model r)
       /\ utc_iso (eol_date row) /\ utc_iso (eosl_date row).
Proof.
  intro H. apply post_process_inv in H. destruct H as [normalised [-> F]].
  split; [rewrite merged_keys; apply group_keys_sorted|]. split.
  - rewrite (Forall2_length F). apply merged_length.
  - assert (G : forall row', In row' normalised ->
                  exists r, In r df
                    /\ vendor row' = PyStr.upper (vendor r) /\ model row' = model r
                    /\ utc_iso (eol_date row') /\ utc_iso (eosl_date row')).
    { intros row' Hin. revert Hin.
      induction F as [|r x df normalised [Hv [Hm [He Ho]]] _ IH]; simpl; [contradiction|].
      intros [<-|Hin].
      - exists r. repeat split; auto; eapply normalize_utc_iso; eassumption.
      - destruct (IH Hin) as [r' [Hr' P]]. exists r'. split; [now right|exact P]. }
    intros row Hin. apply merged_row_cells in Hin.
    destruct Hin as [[r' [Hr' [Hv Hm]]] [He Ho]].
    split; [|split].
    + destruct (G r' Hr') as [r [Hr [Hv' [Hm' _]]]]. exists r.
      repeat split; [exact Hr|congruence|congruence].
    + destruct He as [->|[r1 [Hr1 ->]]]; [now left|]. destruct (G r1 Hr1); tauto.
    + destruct Ho as [->|[r1 [Hr1 ->]]]; [now left|]. destruct (G r1 Hr1); tauto.
Qed.

(** X10: [post_process_eol_df] returns exactly when every date cell of the
    frame normalises without an exception; when it raises, the exception is
    one that normalising a date cell of some row raises. *)
Theorem post_process_returns_iff (df : DataFrame) :
  ((exists out, post df = Return out)
   <-> forall r, In r df ->
         (exists c, norm (eol_date r) = Return c)
         /\ (exists c, norm (eosl_date r) = Return c))
  /\ (forall e, post df = Raise e ->
        exists r, In r df /\ (norm (eol_date r) = Raise e \/ norm (eosl_date r) = Raise e)).
Proof.
  split; [split|].
  - intros [out H] r Hr. apply post_process_inv in H. destruct H as [normalised [_ F]].
    clear out. induction F as [|r0 x df normalised [_ [_ [He Ho]]] _ IH]; [contradiction|].
    destruct Hr as [<-|Hr]; [eauto|auto].
  - intro H. unfold post_process_eol_df.
    destruct (convert_column_returns clock to_datetime_infer HAS_DATEUTIL dateutil_timestamp
                (map eol_date df)) as [eols ->].
    { intros c Hc. apply in_map_iff in Hc. destruct Hc as [r [<- Hr]]. now apply H. }
    destruct (convert_column_returns clock to_datetime_infer HAS_DATEUTIL dateutil_timestamp
                (map eosl_date df)) as [eosls ->].
    { intros c Hc. apply in_map_iff in Hc. destruct Hc as [r [<- Hr]]. now apply H. }
    simpl. eauto.
  - intros e H. unfold post_process_eol_df in H.
    destruct (convert_column clock to_datetime_infer HAS_DATEUTIL dateutil_timestamp
                (map eol_date df)) as [eols|e1] eqn:E1.
    + destruct (convert_column clock to_datetime_infer HAS_DATEUTIL dateutil_timestamp
                  (map eosl_date df)) as [eosls|e2] eqn:E2; simpl in H; [discriminate|].
      inversion H; subst. apply convert_column_raises in E2.
      destruct E2 as [c [Hc Hn]]. apply in_map_iff in Hc. destruct Hc as [r [<- Hr]]. eauto.
    + simpl in H. inversion H; subst. apply convert_column_raises in E1.
      destruct E1 as [c [Hc Hn]]. apply in_map_iff in Hc. destruct Hc as [r [<- Hr]]. eauto.
Qed.

End PostProcessExtras.

Lemma post_process_output_invariant_witness :
  StronglySorted Dedup.key_lt [("CISCO", "ASA5505"); ("HPE", "DL380")]
  /\ (2 <= 3)%nat
  /\ forall row,
       In row [Dedup.mkRecord "CISCO" "ASA5505" (Some "2022-08-31T00:00:00+00:00")
                              (Some "2027-08-31T00:00:00+00:00");
               Dedup.mkRecord "HPE" "DL380" (Some "2021-06-21T00:00:00+00:00")
                              (Some "2024-01-01T00:00:00+00:00")] ->
       (exists r, In r Cases.tagged_rows
                  /\ Dedup.vendor row = PyStr.upper (Dedup.vendor r)
                  /\ Dedup.model row = Dedup.model r)
       /\ utc_iso (Dedup.eol_date row) /\ utc_iso (Dedup.eosl_date row).
Proof.
  assert (H : Dedup.post_process_eol_df Samples.frozen_clock Samples.infer_nat false
                                        Samples.dateutil_overflow
                                        Cases.tagged_rows
              = Return [Dedup.mkRecord "CISCO" "ASA5505" (Some "2022-08-31T00:00:00+00:00")
                                       (Some "2027-08-31T00:00:00+00:00");
                        Dedup.mkRecord "HPE" "DL380" (Some "2021-06-21T00:00:00+00:00")
                                       (Some "2024-01-01T00:00:00+00:00")])
    by (vm_compute; reflexivity).
  exact (post_process_output_invariant Samples.frozen_clock Samples.infer_nat false
           Samples.dateutil_overflow
           Cases.tagged_rows _ H).
Defined.

(** ** Grouping and the order of arrival *)
Section StrictOrder.
Context {A : Type}.
Variable lt : A -> A -> Prop.
Hypothesis lt_irrefl : forall a, ~ lt a a.
Hypothesis lt_trans : forall a b c, lt a b -> lt b c -> lt a c.

(** A strictly ascending list is determined by its elements. *)
Lemma strictly_sorted_unique (l1 : list A) :
  forall l2, StronglySorted lt l1 -> StronglySorted lt l2 ->
             (forall x, In x l1 <-> In x l2) -> l1 = l2.
Proof.
  induction l1 as [|x l1 IH]; intros [|y l2] H1 H2 Hin.
  - reflexivity.
  - destruct (proj2 (Hin y) (or_introl eq_refl)).
  - destruct (proj1 (Hin x) (or_introl eq_refl)).
  - inversion H1 as [|? ? S1 F1]; subst. inversion H2 as [|? ? S2 F2]; subst.
    rewrite Forall_forall in F1, F2.
    assert (E : x = y).
    { destruct (proj1 (Hin x) (or_introl eq_refl)) as [E|Hx]; [now symmetry|].
      destruct (proj2 (Hin y) (or_introl eq_refl)) as [E|Hy]; [exact E|].
      exfalso. apply (lt_irrefl x). eapply lt_trans; [apply F1, Hy|apply F2, Hx]. }
    subst y. f_equal. apply IH; auto.
    intro z. split; intro Hz.
    + destruct (proj1 (Hin z) (or_intror Hz)) as [E|Hz']; [|exact Hz'].
      subst z. exfalso. exact (lt_irrefl x (F1 x Hz)).
    + destruct (proj2 (Hin z) (or_intror Hz)) as [E|Hz']; [|exact Hz'].
      subst z. exfalso. exact (lt_irrefl x (F2 x Hz)).
Qed.

End StrictOrder.

Module GroupFacts.
Import Dedup DedupFacts.

Lemma key_lt_irrefl (a : Key) : ~ key_lt a a.
Proof.
  unfold key_lt. intro H. pose proof (key_compare_antisym a a) as E.
  rewrite H in E. discriminate.
Qed.

Lemma group_keys_ext (df1 df2 : DataFrame) :
  (forall k, In k (map key_of df1) <-> In k (map key_of df2)) ->
  group_keys df1 = group_keys df2.
Proof.
  intro H. apply (strictly_sorted_unique key_lt key_lt_irrefl key_lt_trans);
    try apply group_keys_sorted.
  intro k. rewrite !group_keys_In. apply H.
Qed.

Lemma key_in_iff_group (df : DataFrame) (k : Key) :
  In k (map key_of df) <-> group_rows df k <> [].
Proof.
  split; [apply group_rows_nonempty|].
  intro H. destruct (group_rows df k) as [|r rows] eqn:E; [contradiction|].
  assert (Hr : In r (group_rows df k)) by (rewrite E; now left).
  apply filter_In in Hr. destruct Hr as [Hr Hk]. apply key_eqb_spec in Hk.
  apply in_map_iff. eauto.
Qed.

Lemma first_non_null_None (series : list Cell) :
  first_non_null series = None <-> forall c, In c series -> non_blank c = false.
Proof.
  induction series as [|val rest IH]; simpl.
  - split; [intros _ c []|reflexivity].
  - destruct (non_blank val) eqn:E.
    + split.
      * intro H. subst val. discriminate.
      * intro H. rewrite (H val (or_introl eq_refl)) in E. discriminate.
    + rewrite IH. split.
      * intros H c [<-|Hc]; auto.
      * intros H c Hc. apply H. now right.
Qed.

Lemma group_rows_perm (df1 df2 : DataFrame) (k : Key) :
  Permutation df1 df2 -> Permutation (group_rows df1 k) (group_rows df2 k).
Proof.
  unfold group_rows. induction 1 as [|x l l' _ IH|x y l|l l' l'' _ IH1 _ IH2]; simpl.
  - constructor.
  - destruct (key_eqb (key_of x) k); [now constructor|exact IH].
  - destruct (key_eqb (key_of x) k), (key_eqb (key_of y) k);
      try apply Permutation_refl. apply perm_swap.
  - eapply Permutation_trans; eassumption.
Qed.

(** The one row of its key. *)
Lemma group_rows_of_distinct (df : DataFrame) (r : Record_) :
  NoDup (map key_of df) -> In r df -> group_rows df (key_of r) = [r].
Proof.
  unfold group_rows. induction df as [|r0 df IH]; simpl; intros Hnd Hin; [contradiction|].
  inversion Hnd as [|? ? Hnotin Hnd']; subst. destruct Hin as [->|Hin].
  - rewrite key_eqb_refl. f_equal. apply filter_none. intros x Hx.
    destruct (key_eqb (key_of x) (key_of r)) eqn:E; [|reflexivity].
    apply key_eqb_spec in E. exfalso. apply Hnotin. rewrite <- E. now apply in_map.
  - destruct (key_eqb (key_of r0) (key_of r)) eqn:E; [|now apply IH].
    apply key_eqb_spec in E. exfalso. apply Hnotin. rewrite E. now apply in_map.
Qed.

Lemma merge_group_of_distinct (df : DataFrame) (r : Record_) :
  NoDup (map key_of df) -> In r df -> merge_group df (key_of r) = blanks_nulled r.
Proof.
  intros Hnd Hin. unfold merge_group. rewrite (group_rows_of_distinct df r Hnd Hin).
  unfold blanks_nulled, null_if_blank. simpl.
  destruct (non_blank (eol_date r)), (non_blank (eosl_date r)); reflexivity.
Qed.

Lemma strictly_sorted_NoDup (ks : list Key) : StronglySorted key_lt ks -> NoDup ks.
Proof.
  induction 1 as [|k ks _ IH F]; constructor; [|exact IH].
  intro Hin. rewrite Forall_forall in F. exact (key_lt_irrefl k (F k Hin)).
Qed.

End GroupFacts.

Section GroupingExtras.
Import Dedup DedupFacts GroupFacts.

(** X11: the merged frame depends on the groups only: two frames in which
    every key has the same rows in the same order merge to the same frame,
    however the rows of different keys are interleaved. *)
Theorem merge_depends_on_groups (df1 df2 : DataFrame) :
  (forall k, group_rows df1 k = group_rows df2 k) ->
  remove_duplicates_and_merge df1 = remove_duplicates_and_merge df2.
Proof.
  intro H. unfold remove_duplicates_and_merge.
  rewrite (group_keys_ext df1 df2).
  - apply map_ext. intro k. unfold merge_group. now rewrite H.
  - intro k. rewrite !key_in_iff_group. now rewrite H.
Qed.

Lemma merge_depends_on_groups_witness :
  Dedup.remove_duplicates_and_merge Cases.interleaved_rows
  = Dedup.remove_duplicates_and_merge Cases.regrouped_rows.
Proof.
  apply (merge_depends_on_groups Cases.interleaved_rows Cases.regrouped_rows).
  intro k. unfold Dedup.group_rows, Cases.interleaved_rows, Cases.regrouped_rows.
  cbn [filter]. unfold Dedup.key_of. cbn [Dedup.vendor Dedup.model].
  destruct (Dedup.key_eqb ("HPE", "DL380") k) eqn:E1;
    destruct (Dedup.key_eqb ("CISCO", "ASA5505") k) eqn:E2; try reflexivity.
  apply DedupFacts.key_eqb_spec in E1. apply DedupFacts.key_eqb_spec in E2.
  rewrite <- E1 in E2. discriminate.
Defined.

(** X12: reordering the rows of a frame changes neither the keys of the
    merged frame, nor their order, nor which of its date cells are null: the
    two merged frames agree row by row on the key and on each date cell being
    null. *)
Theorem merge_of_reordered_frame (df1 df2 : DataFrame) :
  Permutation df1 df2 ->
  Forall2 (fun a b => key_of a = key_of b
                      /\ (eol_date a = None <-> eol_date b = None)
                      /\ (eosl_date a = None <-> eosl_date b = None))
          (remove_duplicates_and_merge df1) (remove_duplicates_and_merge df2).
Proof.
  intro P. unfold remove_duplicates_and_merge.
  rewrite (group_keys_ext df1 df2).
  2:{ intro k. split; apply Permutation_in; [|symmetry]; now apply Permutation_map. }
  induction (group_keys df2) as [|k ks IH]; simpl; constructor; [|exact IH].
  split; [reflexivity|]. simpl.
  pose proof (group_rows_perm df1 df2 k P) as G.
  split; rewrite !first_non_null_None; split; intros H c Hc; apply H;
    (eapply Permutation_in; [|exact Hc]);
    apply Permutation_map; (exact G || (symmetry; exact G)).
Qed.

Lemma merge_of_reordered_frame_witness :
  Permutation Cases.interleaved_rows (rev Cases.interleaved_rows)
  /\ Forall2 (fun a b => Dedup.key_of a = Dedup.key_of b
                         /\ (Dedup.eol_date a = None <-> Dedup.eol_date b = None)
                         /\ (Dedup.eosl_date a = None <-> Dedup.eosl_date b = None))
             (Dedup.remove_duplicates_and_merge Cases.interleaved_rows)
             (Dedup.remove_duplicates_and_merge (rev Cases.interleaved_rows)).
Proof.
  assert (P : Permutation Cases.interleaved_rows (rev Cases.interleaved_rows))
    by apply Permutation_rev.
  split; [exact P|].
  exact (merge_of_reordered_frame Cases.interleaved_rows (rev Cases.interleaved_rows) P).
Defined.

(** X13: on a frame without duplicate keys the merge only sorts the rows by
    key and reads blank date cells as null: the result is a permutation of the
    input rows with their blank cells nulled, and it is that very list when
    the keys were already ascending. *)
Theorem merge_without_duplicates (df : DataFrame) :
  NoDup (map key_of df) ->
  Permutation (remove_duplicates_and_merge df) (map blanks_nulled df)
  /\ (StronglySorted key_lt (map key_of df) ->
      remove_duplicates_and_merge df = map blanks_nulled df).
Proof.
  intro Hnd.
  assert (E : map (merge_group df) (map key_of df) = map blanks_nulled df).
  { rewrite map_map. apply map_ext_in. intros r Hr. now apply merge_group_of_distinct. }
  split.
  - rewrite <- E. unfold remove_duplicates_and_merge. apply Permutation_map.
    unfold group_keys. rewrite (unique_fixpoint key_eqb key_eqb_spec _ Hnd).
    symmetry. apply sorted_perm.
  - intro Hs. unfold remove_duplicates_and_merge.
    now rewrite (group_keys_fixpoint df Hs Hnd).
Qed.

Lemma merge_without_duplicates_witness :
  NoDup (map Dedup.key_of Cases.distinct_rows)
  /\ Permutation (Dedup.remove_duplicates_and_merge Cases.distinct_rows)
                 [Dedup.mkRecord "HPE" "DL380" None (Some "2024-01-01T00:00:00+00:00");
                  Dedup.mkRecord "CISCO" "ASA5505" None None].
Proof.
  assert (N : NoDup (map Dedup.key_of Cases.distinct_rows)).
  { repeat constructor; simpl; intuition discriminate. }
  split; [exact N|].
  exact (proj1 (merge_without_duplicates Cases.distinct_rows N)).
Defined.

End GroupingExtras.

(** ** What the sitemap walk collects *)
Module SegmentFacts.
Import PyStr Sitemap SitemapFacts.

Lemma sorted_perm_strings (l : list string) : Permutation l (sorted String.leb l).
Proof.
  apply sorted_perm.
Qed.

Lemma prefix_app (pre s : string) : String.prefix pre (pre ++ s)%string = true.
Proof.
  induction pre as [|c pre IH]; simpl; [now destruct s|].
  rewrite IH. now destruct (ascii_dec c c).
Qed.

Lemma prefix_drop (pre : string) :
  forall s, String.prefix pre s = true -> s = (pre ++ drop (String.length pre) s)%string.
Proof.
  induction pre as [|c pre IH]; intros s H; simpl; [reflexivity|].
  destruct s as [|d s]; simpl in H; [discriminate|].
  destruct (ascii_dec c d) as [->|]; [|discriminate].
  simpl. f_equal. now apply IH.
Qed.

Lemma drop_app (pre s : string) : drop (String.length pre) (pre ++ s)%string = s.
Proof. induction pre as [|c pre IH]; simpl; [reflexivity|exact IH]. Qed.

(** What [lstrip] removes and what it leaves. *)
Lemma lstrip_split (p : ascii -> bool) (s : string) :
  exists gone : string,
    s = (gone ++ lstrip_by p s)%string /\ all_chars p gone = true.
Proof.
  induction s as [|c s [gone [E H]]]; simpl.
  - exists "". split; reflexivity.
  - destruct (p c) eqn:Ec.
    + exists (String c gone). simpl. rewrite Ec, H. split; [now f_equal|reflexivity].
    + exists "". split; reflexivity.
Qed.

Lemma lstrip_app (p : ascii -> bool) (gone s : string) :
  all_chars p gone = true -> lstrip_by p (gone ++ s)%string = lstrip_by p s.
Proof.
  induction gone as [|c gone IH]; simpl; [reflexivity|].
  intro H. apply andb_true_iff in H. destruct H as [-> H]. now apply IH.
Qed.

(** The head that [split] cuts off and what follows it. *)
Lemma split1_head_split (sep : ascii) (s : string) :
  exists rest : string,
    s = (split1_head sep s ++ rest)%string
    /\ all_chars (fun c => negb (Ascii.eqb c sep)) (split1_head sep s) = true
    /\ head_ok (fun c => negb (Ascii.eqb c sep)) rest = true.
Proof.
  induction s as [|c s [rest [E [H1 H2]]]]; simpl.
  - exists "". repeat split.
  - destruct (Ascii.eqb c sep) eqn:Ec.
    + exists (String c s). simpl. rewrite Ec. repeat split.
    + exists rest. simpl. rewrite Ec, H1. repeat split; [now f_equal|exact H2].
Qed.

Lemma split1_head_app (sep : ascii) (v rest : string) :
  all_chars (fun c => negb (Ascii.eqb c sep)) v = true ->
  head_ok (fun c => negb (Ascii.eqb c sep)) rest = true ->
  split1_head sep (v ++ rest)%string = v.
Proof.
  induction v as [|c v IH]; simpl; intros Hv Hrest.
  - destruct rest as [|d rest]; simpl; [reflexivity|].
    simpl in Hrest. apply negb_true_iff, negb_false_iff in Hrest. now rewrite Hrest.
  - apply andb_true_iff in Hv. destruct Hv as [Hc Hv].
    apply negb_true_iff in Hc. rewrite Hc. f_equal. now apply IH.
Qed.

Lemma visit_url_segment (children : list string) (url_elem : Element) :
  visit_url children url_elem
  = match loc_text url_elem with
    | Some t =>
        match first_segment t with
        | Some child => set_add child children
        | None => children
        end
    | None => children
    end.
Proof.
  unfold visit_url, loc_text, first_segment.
  destruct (find url_elem (sm "loc")) as [loc_elem|]; [|reflexivity].
  destruct (text loc_elem) as [t|]; [|reflexivity].
  destruct (truthy t) eqn:Et; cbn [negb].
  - destruct (startswith (strip t) BASE_PATH); cbn [negb]; [|reflexivity].
    destruct (lstrip_by (Ascii.eqb "/") (drop (String.length BASE_PATH) (strip t)))
      as [|c tail]; [reflexivity|].
    cbn [truthy negb]. now destruct (truthy (split1_head "/" (String c tail))).
  - destruct t; [|discriminate]. reflexivity.
Qed.

Lemma eqb_slash_sym (c : ascii) : Ascii.eqb "/" c = Ascii.eqb c "/".
Proof. apply Ascii.eqb_sym. Qed.

Lemma first_segment_names (t v : string) :
  first_segment t = Some v <-> names_vendor t v.
Proof.
  unfold first_segment, names_vendor, startswith. generalize BASE_PATH as base.
  intro base. split.
  - destruct (String.prefix base (strip t)) eqn:P; [|discriminate].
    apply prefix_drop in P. revert P.
    generalize (drop (String.length base) (strip t)) as tail0. intros tail0 P.
    destruct (lstrip_split (Ascii.eqb "/") tail0) as [slashes [E1 H1]].
    revert E1. generalize (lstrip_by (Ascii.eqb "/") tail0) as tail. intros tail E1.
    destruct (split1_head_split "/" tail) as [rest [E2 [H2 H3]]].
    destruct (split1_head "/" tail) as [|c child] eqn:E; simpl; [discriminate|].
    intro H. inversion H; subst v. exists slashes, rest.
    split; [now rewrite P, E1, E2|]. repeat split; auto. discriminate.
  - intros [slashes [rest [E [H1 [Hv [H2 H3]]]]]]. rewrite E.
    rewrite prefix_app, drop_app, (lstrip_app _ _ _ H1).
    rewrite (StripFacts.head_ok_lstrip (Ascii.eqb "/") (v ++ rest)%string).
    + rewrite (split1_head_app "/" v rest H2 H3). destruct v; [contradiction|reflexivity].
    + destruct v as [|c v]; [contradiction|]. cbn [all_chars] in H2. cbn [append head_ok].
      apply andb_true_iff in H2. destruct H2 as [H2 _]. now rewrite eqb_slash_sym.
Qed.

Lemma set_add_In (x v : string) (s : list string) :
  In v (set_add x s) <-> In v s \/ v = x.
Proof.
  unfold set_add. destruct (existsb (String.eqb x) s) eqn:E.
  - split; [auto|]. intros [H| ->]; [exact H|].
    apply existsb_exists in E. destruct E as [y [Hy Hxy]].
    apply String.eqb_eq in Hxy. now subst.
  - rewrite in_app_iff. simpl. intuition.
Qed.

Lemma visit_url_In (children : list string) (url_elem : Element) (v : string) :
  In v (visit_url children url_elem)
  <-> In v children \/ exists t, loc_text url_elem = Some t /\ names_vendor t v.
Proof.
  rewrite visit_url_segment. destruct (loc_text url_elem) as [t|].
  - destruct (first_segment t) as [child|] eqn:E.
    + rewrite set_add_In. split.
      * intros [H| ->]; [now left|]. right. exists t. split; [reflexivity|].
        now apply first_segment_names.
      * intros [H|[t' [Ht H]]]; [now left|]. right. inversion Ht; subst t'.
        apply first_segment_names in H. congruence.
    + split; [auto|]. intros [H|[t' [Ht H]]]; [exact H|]. inversion Ht; subst t'.
      apply first_segment_names in H. congruence.
  - split; [auto|]. intros [H|[t' [Ht _]]]; [exact H|discriminate].
Qed.

Lemma collect_children_In (root : Element) (v : string) :
  In v (collect_children root) <-> listed root v.
Proof.
  unfold collect_children, listed.
  assert (G : forall us s,
             In v (fold_left visit_url us s)
             <-> In v s \/ exists u t, In u us /\ loc_text u = Some t /\ names_vendor t v).
  { induction us as [|u us IH]; intro s; simpl.
    - split; [auto|]. intros [H|[u [t [[] _]]]]. exact H.
    - rewrite IH, visit_url_In. split.
      + intros [[H|[t [Ht H]]]|[u' [t [Hu H]]]]; [now left| |].
        * right. exists u, t. auto.
        * right. exists u', t. tauto.
      + intros [H|[u' [t [[<-|Hu] H]]]]; [now left; left| |].
        * left. right. exists t. exact H.
        * right. exists u', t. tauto. }
  rewrite G. simpl. tauto.
Qed.

Lemma string_lt_irrefl (a : string) : ~ string_lt a a.
Proof.
  unfold string_lt. rewrite DedupFacts.string_compare_refl. discriminate.
Qed.

(** Two collected sets with the same members are listed alike. *)
Lemma sorted_children_ext (s1 s2 : list string) :
  NoDup s1 -> NoDup s2 -> (forall v, In v s1 <-> In v s2) ->
  sorted String.leb s1 = sorted String.leb s2.
Proof.
  intros N1 N2 H.
  apply (strictly_sorted_unique string_lt string_lt_irrefl string_lt_trans);
    try now apply sorted_strings_strict.
  intro v.
  assert (P1 := Permutation_sym (sorted_perm_strings s1)).
  assert (P2 := sorted_perm_strings s2).
  split; intro Hv.
  - eapply Permutation_in; [exact P2|]. apply H. eapply Permutation_in; [exact P1|exact Hv].
  - eapply Permutation_in; [exact (Permutation_sym P1)|]. apply H.
    eapply Permutation_in; [exact (Permutation_sym P2)|exact Hv].
Qed.

End SegmentFacts.

Section DiscoveryExtras.
Import Sitemap SitemapFacts SegmentFacts.

(** X14: [get_unique_children] returns exactly the vendors that some
    sitemap entry names: the first path segment (not empty, without [/]) that
    follows [BASE_PATH] and any further [/] in the stripped text of the
    entry's first [loc].  [get_unique_eol_vendors] returns the same list, and
    the fallback list when no entry names a vendor. *)
Theorem discovered_vendors_are_first_segments (root : Element) :
  exists vs,
    get_unique_children (Return root) = Return vs
    /\ (forall v, In v vs <-> listed root v)
    /\ get_unique_eol_vendors (Return root)
       = match vs with [] => fallback_vendors | _ => vs end.
Proof.
  exists (sorted String.leb (collect_children root)). split; [reflexivity|]. split.
  - intro v. rewrite <- collect_children_In. split; intro H.
    + eapply Permutation_in; [symmetry; apply sorted_perm_strings|exact H].
    + eapply Permutation_in; [apply sorted_perm_strings|exact H].
  - simpl. destruct (collect_children root) as [|c cs] eqn:E; [reflexivity|].
    destruct (sorted String.leb (c :: cs)) eqn:S; [|reflexivity].
    exfalso. assert (Hin : In c (sorted String.leb (c :: cs))).
    { eapply Permutation_in; [apply sorted_perm_strings|now left]. }
    rewrite S in Hin. exact Hin.
Qed.

(** X15: vendor discovery depends neither on the order of the sitemap
    entries nor on an entry being repeated: two sitemaps with the same set of
    [url] entries give the same vendor list, in both source files. *)
Theorem discovery_ignores_order_and_repeats (root1 root2 : Element) :
  (forall url_elem, In url_elem (findall root1 (sm "url"))
                    <-> In url_elem (findall root2 (sm "url"))) ->
  get_unique_children (Return root1) = get_unique_children (Return root2)
  /\ get_unique_eol_vendors (Return root1) = get_unique_eol_vendors (Return root2).
Proof.
  intro H.
  assert (M : forall v, In v (collect_children root1) <-> In v (collect_children root2)).
  { intro v. rewrite !collect_children_In. unfold listed.
    split; intros [u [t [Hu P]]]; exists u, t; (split; [now apply H|exact P]). }
  assert (E : sorted String.leb (collect_children root1)
              = sorted String.leb (collect_children root2)).
  { apply sorted_children_ext; auto using collect_children_NoDup. }
  split; [simpl; now rewrite E|]. simpl.
  destruct (collect_children root1) as [|c1 s1] eqn:E1;
    destruct (collect_children root2) as [|c2 s2] eqn:E2.
  - reflexivity.
  - destruct (proj2 (M c2) (or_introl eq_refl)).
  - destruct (proj1 (M c1) (or_introl eq_refl)).
  - exact E.
Qed.

Lemma discovery_ignores_order_and_repeats_witness :
  Sitemap.get_unique_children (Return Samples.sitemap_three_urls)
  = Sitemap.get_unique_children (Return Cases.sitemap_reordered)
  /\ Sitemap.get_unique_eol_vendors (Return Samples.sitemap_three_urls)
     = Sitemap.get_unique_eol_vendors (Return Cases.sitemap_reordered).
Proof.
  apply (discovery_ignores_order_and_repeats Samples.sitemap_three_urls
                                             Cases.sitemap_reordered).
  intro u.
  change (Sitemap.findall Samples.sitemap_three_urls (Sitemap.sm "url"))
    with [Samples.url_entry "https://relutech.com/eol-eosl/cisco/page2";
          Samples.url_entry "https://relutech.com/eol-eosl/dell/";
          Samples.url_entry "https://relutech.com/about-us/"].
  change (Sitemap.findall Cases.sitemap_reordered (Sitemap.sm "url"))
    with [Samples.url_entry "https://relutech.com/about-us/";
          Samples.url_entry "https://relutech.com/eol-eosl/dell/";
          Samples.url_entry "https://relutech.com/eol-eosl/cisco/page2";
          Samples.url_entry "https://relutech.com/eol-eosl/dell/"].
  cbn [In]. tauto.
Defined.

End DiscoveryExtras.

(** ** The harvest over all vendors *)
Module PipelineFacts.
Import Html Scraper Dedup Pipeline.

Section Runs.
Variable site : string -> option Z -> result Html.Node.
Variable max_pages : Z.

Local Abbreviation scrape v := (scrape_vendor_eol_url (site (vendor_url v)) max_pages).
Local Abbreviation gives := (contribution site max_pages).
Local Abbreviation asks := (requests_for site max_pages).

Lemma concat_has_rows (dfs : list Dedup.DataFrame) :
  List.concat (filter has_rows dfs) = List.concat dfs.
Proof.
  induction dfs as [|df dfs IH]; simpl; [reflexivity|].
  destruct df; simpl; [exact IH|]. now rewrite IH.
Qed.

(** The vendor loop, one vendor after the other: the requests of each
    scrape are appended, and the frames that have rows are kept. *)
Lemma for_vendors_run (vendors : list string) :
  forall all_dfs trace,
    for_vendors site vendors max_pages all_dfs trace
    = Some (trace ++ flat_map asks vendors,
            all_dfs ++ filter has_rows (map gives vendors)).
Proof.
  induction vendors as [|v vendors IH]; intros all_dfs trace; simpl.
  - now rewrite !app_nil_r.
  - unfold requests_for, contribution.
    destruct (scrape_total (site (vendor_url v)) max_pages) as [[fetched r] E].
    rewrite E. destruct r as [df|e].
    + destruct df as [|row df]; simpl.
      * rewrite IH. now rewrite <- app_assoc.
      * rewrite IH. now rewrite <- !app_assoc.
    + simpl. rewrite IH. now rewrite <- app_assoc.
Qed.

Lemma pd_concat (dfs : list Dedup.DataFrame) :
  match dfs with [] => [] | _ => List.concat dfs end = List.concat dfs.
Proof. now destruct dfs. Qed.

Lemma combined_frame (vendors : list string) :
  List.concat (filter has_rows (map gives vendors)) = flat_map gives vendors.
Proof. rewrite concat_has_rows. symmetry. apply flat_map_concat_map. Qed.

(** The pages that a scrape asks for. *)
Lemma scrape_fetched_pages (http_get : option Z -> result Node)
      (fetched : list Z) (r : result Html.DataFrame) :
  scrape_vendor_eol_url http_get max_pages = Some (fetched, r) ->
  exists n, fetched = pages_from 1%Z n /\ (Z.of_nat n <= Z.max 0 max_pages)%Z.
Proof.
  unfold scrape_vendor_eol_url.
  destruct (while_loop http_get (Z.to_nat max_pages) max_pages 1%Z [] [])
    as [[out r']|] eqn:E; [|discriminate].
  apply while_loop_run in E. destruct E as [n [Ho [Hb _]]]. simpl in Ho.
  intro H. exists n. split; [|destruct Hb as [->|Hb]; lia].
  destruct r'; inversion H; now subst.
Qed.

Lemma pages_from_In (n : nat) :
  forall start p, In p (pages_from start n) -> (start <= p < start + Z.of_nat n)%Z.
Proof.
  induction n as [|n IH]; simpl; intros start p H; [contradiction|].
  destruct H as [<-|H]; [lia|]. apply IH in H. lia.
Qed.

Lemma requests_for_spec (v : string) :
  exists n, asks v = requests_of (vendor_url v) (pages_from 1%Z n)
            /\ (Z.of_nat n <= Z.max 0 max_pages)%Z.
Proof.
  unfold requests_for.
  destruct (scrape_total (site (vendor_url v)) max_pages) as [[fetched r] E].
  rewrite E. apply scrape_fetched_pages in E. destruct E as [n [-> Hn]]. eauto.
Qed.

Section WithParsers.
Variable clock : string -> Dates.Timestamp.
Variable to_datetime_infer : string -> option Dates.Timestamp.
Variable HAS_DATEUTIL : bool.
Variable dateutil_timestamp : string -> result Dates.Timestamp.

Local Abbreviation post :=
  (post_process_eol_df clock to_datetime_infer HAS_DATEUTIL dateutil_timestamp).
Local Abbreviation harvest :=
  (scrape_eol_data site clock to_datetime_infer HAS_DATEUTIL dateutil_timestamp).

Lemma scrape_eol_data_run (vendors : list string) (fetched : result Sitemap.Element) :
  harvest (Some vendors) fetched max_pages
  = Some (flat_map asks vendors, post (flat_map gives vendors)).
Proof.
  unfold scrape_eol_data. rewrite for_vendors_run. simpl.
  rewrite <- combined_frame.
  now destruct (filter has_rows (map gives vendors)).
Qed.

Lemma scrape_eol_data_discovers (fetched : result Sitemap.Element) :
  harvest None fetched max_pages
  = harvest (Some (Sitemap.get_unique_eol_vendors fetched)) fetched max_pages.
Proof. reflexivity. Qed.

End WithParsers.

Lemma scrape_all_vendors_run (fetched : result Sitemap.Element) (vendors : list string) :
  Sitemap.get_unique_children fetched = Return vendors ->
  scrape_all_vendors site fetched max_pages
  = Some (flat_map asks vendors, Return (flat_map gives vendors)).
Proof.
  intro H. unfold scrape_all_vendors. rewrite H, for_vendors_run. simpl.
  now rewrite pd_concat, combined_frame.
Qed.

End Runs.

End PipelineFacts.

Section HarvestExtras.
Import Html Scraper Dedup Pipeline PipelineFacts.

Variable site : string -> option Z -> result Html.Node.
Variable clock : string -> Dates.Timestamp.
Variable to_datetime_infer : string -> option Dates.Timestamp.
Variable HAS_DATEUTIL : bool.
Variable dateutil_timestamp : string -> result Dates.Timestamp.

Local Abbreviation post :=
  (post_process_eol_df clock to_datetime_infer HAS_DATEUTIL dateutil_timestamp).
Local Abbreviation harvest :=
  (scrape_eol_data site clock to_datetime_infer HAS_DATEUTIL dateutil_timestamp).

(** X16: [scrape_eol_data] always ends with an outcome, whatever the
    scrapes do.  Its requests are those of each vendor's scrape, one vendor
    after the other in the order of the list, and its outcome is that of
    [post_process_eol_df] on the vendors' tagged rows, concatenated in that
    order; a vendor whose scrape raises adds no row, and the early return for
    a harvest without rows is the post-processing of the empty frame.  The
    vendors are the list given, or else those of [get_unique_eol_vendors]. *)
Theorem harvest_is_post_processed_concatenation
        (vendors : option (list string)) (fetched : result Sitemap.Element)
        (max_pages : Z) :
  let vs := match vendors with
            | None => Sitemap.get_unique_eol_vendors fetched
            | Some vs => vs
            end in
  harvest vendors fetched max_pages
  = Some (flat_map (requests_for site max_pages) vs,
          post (flat_map (contribution site max_pages) vs)).
Proof.
  destruct vendors as [vs|]; cbv zeta.
  - apply scrape_eol_data_run.
  - rewrite scrape_eol_data_discovers. apply scrape_eol_data_run.
Qed.


(** X18: every request of a harvest goes to the section URL
    [BASE_PATH + vendor] of a vendor of the list, with a page number between 1
    and [max_pages]; a harvest makes at most [len(vendors) * max_pages]
    requests; an empty vendor list gives no request and the empty frame. *)
Theorem harvest_requests_bounded
        (vendors : list string) (fetched : result Sitemap.Element) (max_pages : Z) :
  exists trace r,
    harvest (Some vendors) fetched max_pages = Some (trace, r)
    /\ (forall url page, In (url, page) trace ->
          exists vendor, In vendor vendors /\ url = vendor_url vendor
                         /\ (1 <= page <= max_pages)%Z)
    /\ (List.length trace <= List.length vendors * Z.to_nat max_pages)%nat
    /\ (vendors = [] -> trace = [] /\ r = Return []).
Proof.
  eexists. eexists. split; [apply scrape_eol_data_run|]. split; [|split].
  - intros url page H. apply in_flat_map in H. destruct H as [v [Hv H]].
    destruct (requests_for_spec site max_pages v) as [n [E Hn]]. rewrite E in H.
    unfold requests_of in H. apply in_map_iff in H. destruct H as [p [Hp H]].
    inversion Hp; subst. apply pages_from_In in H. exists v. repeat split; auto; lia.
  - induction vendors as [|v vs IH]; simpl; [lia|].
    rewrite length_app.
    destruct (requests_for_spec site max_pages v) as [n [E Hn]]. rewrite E.
    unfold requests_of. rewrite length_map, pages_from_length. lia.
  - intros ->. split; reflexivity.
Qed.

(** X19: the two drivers.  When the sitemap cannot be fetched or parsed,
    [scraper.scrape_all_vendors] raises that exception before any request,
    while [scrape_eol_data] harvests the fallback vendors; when the sitemap
    names no vendor, the former returns an empty frame and the latter again
    harvests the fallback vendors; otherwise both make the same requests, and
    the outcome of [scrape_eol_data] is that of [post_process_eol_df] on the
    rows that [scrape_all_vendors] returns (the two files label the columns of
    these rows differently). *)
Theorem drivers_agree (fetched : result Sitemap.Element) (max_pages : Z) :
  match Sitemap.get_unique_children fetched with
  | Raise e =>
      scrape_all_vendors site fetched max_pages = Some ([], Raise e)
      /\ harvest None fetched max_pages
         = harvest (Some Sitemap.fallback_vendors) fetched max_pages
  | Return [] =>
      scrape_all_vendors site fetched max_pages = Some ([], Return [])
      /\ harvest None fetched max_pages
         = harvest (Some Sitemap.fallback_vendors) fetched max_pages
  | Return vendors =>
      exists trace combined,
        scrape_all_vendors site fetched max_pages = Some (trace, Return combined)
        /\ harvest None fetched max_pages = Some (trace, post combined)
        /\ harvest (Some vendors) fetched max_pages = Some (trace, post combined)
  end.
Proof.
  destruct (Sitemap.get_unique_children fetched) as [vendors|e] eqn:E.
  - rewrite (scrape_all_vendors_run site max_pages fetched vendors E).
    destruct fetched as [root|e]; [|discriminate]. simpl in E. injection E as E'.
    destruct vendors as [|v vs]; cbv iota.
    + split; [reflexivity|]. rewrite scrape_eol_data_discovers. simpl.
      destruct (Sitemap.collect_children root) as [|c cs] eqn:C; [reflexivity|].
      exfalso. assert (Hin : In c (sorted String.leb (c :: cs))).
      { apply sorted_In. now left. }
      rewrite E' in Hin. exact Hin.
    + eexists. eexists. split; [reflexivity|].
      rewrite scrape_eol_data_discovers, !scrape_eol_data_run.
      simpl Sitemap.get_unique_eol_vendors.
      destruct (Sitemap.collect_children root) as [|c cs] eqn:C; [discriminate|].
      rewrite E'. split; reflexivity.
  - destruct fetched as [root|e']; [discriminate|]. simpl in E. inversion E; subst.
    cbv iota. split; reflexivity.
Qed.

End HarvestExtras.

